(** * Currency converter: rate acquisition, conversion and trend pipeline

    A shallow embedding of the script of the currency-conversion widget
    ([src/scripts/app.js] and its later revision with favourites,
    [src/unnamed/part_000]) and the properties of its rate pipeline:
    [fetchRates] with retry, backoff and cache fall-back, [loadRatesCache],
    [saveRatesCache], [updateConversion] and [fetchHistoricalRates].

    JavaScript numbers are IEEE 754 binary64 values.  They are modelled by
    the executable specification of binary floating point of the standard
    library ([SpecFloat], instantiated at precision 53 and maximal exponent
    1024), so every arithmetic step of the script is computed with the
    rounding the script really performs.

    The page itself (element wiring, theme, icons, drop-downs, favourites)
    is outside the model: of the page only the texts the pipeline reads and
    writes are kept, and the network, the cache document, the clock and the
    timers are an explicit world that the asynchronous functions thread
    through. *)

From Stdlib Require Import ZArith Ascii String List Bool Lia.
From Stdlib Require Import Floats.SpecFloat DecimalString.
From stdpp Require Import gmap strings sorting.

Local Open Scope Z_scope.

(** ** JavaScript numbers *)

Module JS.

Abbreviation Number := spec_float.

Definition prec : Z := 53.
Definition emax : Z := 1024.

(** An integer literal (or any integer value) as a Number, rounded to
    nearest-even when it does not fit 53 bits. *)
Definition Number_of_Z (z : Z) : Number := binary_normalize prec emax z 0 false.

Definition zero : Number := S754_zero false.
Definition one : Number := Number_of_Z 1.
Definition hundred : Number := Number_of_Z 100.

Definition Number_div : Number -> Number -> Number := SFdiv prec emax.
Definition Number_mul : Number -> Number -> Number := SFmul prec emax.
Definition Number_sub : Number -> Number -> Number := SFsub prec emax.

(** The decimal literal [n / 10^k] (such as 1.10 = [decimal 110 2]): the
    binary64 value nearest to it, obtained by one correctly rounded division
    of two integers that are exact as Numbers (|n| and 10^k below 2^53). *)
Definition decimal (n : Z) (k : nat) : Number :=
  Number_div (Number_of_Z n) (Number_of_Z (10 ^ Z.of_nat k)).

(** [isNaN(x)] *)
Definition isNaN (x : Number) : bool :=
  match x with S754_nan => true | _ => false end.

(** [x <= y], [x < y] and [x > y]; all false when an operand is NaN. *)
Definition Number_le (x y : Number) : bool := SFleb x y.
Definition Number_lt (x y : Number) : bool := SFltb x y.
Definition Number_gt (x y : Number) : bool := SFltb y x.

(** Neither NaN nor an infinity. *)
Definition is_finite (x : Number) : bool :=
  match x with S754_zero _ | S754_finite _ _ _ => true | _ => false end.

(** A value read from an object: [None] is [undefined].  [ToBoolean] of
    such a value: [undefined], [+0], [-0] and [NaN] are falsy, every other
    number is truthy. *)
Definition ToBoolean (v : option Number) : bool :=
  match v with
  | None => false
  | Some (S754_zero _) => false
  | Some S754_nan => false
  | Some _ => true
  end.

(** A value read from an object, used as a number: [undefined] converts
    to [NaN]. *)
Definition ToNumber (v : option Number) : Number :=
  match v with
  | Some x => x
  | None => S754_nan
  end.

(** Structural equality of two Numbers (the same binary64 datum). *)
Definition Number_same (x y : Number) : bool :=
  match x, y with
  | S754_zero s, S754_zero t => Bool.eqb s t
  | S754_infinity s, S754_infinity t => Bool.eqb s t
  | S754_nan, S754_nan => true
  | S754_finite s m e, S754_finite t n f =>
      Bool.eqb s t && Pos.eqb m n && Z.eqb e f
  | _, _ => false
  end.

(** *** [Number.prototype.toFixed] *)

(** Decimal digits of a non-negative integer. *)
Definition Z_digits (n : Z) : string :=
  NilEmpty.string_of_uint (N.to_uint (Z.to_N n)).

Fixpoint zeros (k : nat) : string :=
  match k with
  | O => EmptyString
  | S k' => String "0"%char (zeros k')
  end.

(** The integer [n] for which [n / 10^f - m * 2^e] is as close to zero as
    possible, the larger one when there are two: [floor (m * 2^e * 10^f + 1/2)]. *)
Definition nearest_scaled (m : positive) (e : Z) (f : nat) : Z :=
  if 0 <=? e then Z.pos m * 2 ^ e * 10 ^ Z.of_nat f
  else (2 * Z.pos m * 10 ^ Z.of_nat f + 2 ^ (- e)) / 2 ^ (1 - e).

(** The digits of [n] with a decimal point before the last [f] of them,
    padded on the left with zeros to at least [f + 1] digits. *)
Definition fixed_point (n : Z) (f : nat) : string :=
  let m := Z_digits n in
  match f with
  | O => m
  | S _ =>
      let m := zeros (S f - String.length m) +:+ m in
      let k := String.length m in
      substring 0 (k - f) m +:+ "." +:+ substring (k - f) f m
  end.

(** [m * 2^e >= 10^21] *)
Definition at_least_1e21 (m : positive) (e : Z) : bool :=
  if 0 <=? e then 10 ^ 21 <=? Z.pos m * 2 ^ e
  else 10 ^ 21 * 2 ^ (- e) <=? Z.pos m.

(** From 10^21 on, [toFixed] falls back to [Number::toString], which prints
    the shortest decimal that reads back as the same Number, in exponent
    notation.  [x] is then an integer [X]; a candidate with [k] significant
    digits is one of the two multiples of [10^(D-k)] around [X], where [D]
    is the number of digits of [X]. *)
Definition shortest_candidate (x : Number) (X : Z) (k : nat) : option Z :=
  let D := String.length (Z_digits X) in
  let p := 10 ^ Z.of_nat (D - k) in
  let lo := X / p * p in
  let hi := lo + p in
  match Number_same (Number_of_Z lo) x, Number_same (Number_of_Z hi) x with
  | true, true =>
      Some (if X - lo <? hi - X then lo
            else if hi - X <? X - lo then hi
            else if Z.even (X / p) then lo else hi)
  | true, false => Some lo
  | false, true => Some hi
  | false, false => None
  end.

Fixpoint shortest_decimal (fuel k : nat) (x : Number) (X : Z) : Z :=
  match fuel with
  | O => X
  | S fuel' =>
      match shortest_candidate x X k with
      | Some V => V
      | None => shortest_decimal fuel' (S k) x X
      end
  end.

Fixpoint drop_zeros (l : list Ascii.ascii) : list Ascii.ascii :=
  match l with
  | c :: l' => if Ascii.eqb c "0"%char then drop_zeros l' else l
  | [] => []
  end.

Definition strip_trailing_zeros (s : string) : string :=
  string_of_list_ascii (rev (drop_zeros (rev (list_ascii_of_string s)))).

(** [d.ddd e+N] for the integer [V] (at least 10^21, so the exponent is
    always printed with a plus sign). *)
Definition exponential (V : Z) : string :=
  let ds := Z_digits V in
  let mantissa :=
    match strip_trailing_zeros ds with
    | String c EmptyString => String c EmptyString
    | String c rest => String c ("." +:+ rest)
    | EmptyString => EmptyString
    end in
  mantissa +:+ "e+" +:+ Z_digits (Z.of_nat (String.length ds - 1)).

(** [x.toFixed(f)] for [0 <= f <= 100]. *)
Definition toFixed (x : Number) (f : nat) : string :=
  match x with
  | S754_nan => "NaN"
  | S754_infinity false => "Infinity"
  | S754_infinity true => "-Infinity"
  | S754_zero _ => fixed_point 0 f
  | S754_finite s m e =>
      (if s then "-" else "") +:+
      (if at_least_1e21 m e
       then exponential (shortest_decimal 17 1 (S754_finite false m e) (Z.pos m * 2 ^ e))
       else fixed_point (nearest_scaled m e f) f)
  end.

End JS.

Import JS.

(** ** The session: globals of the script and the page elements it writes *)

(** The repository holds two revisions of the script.  They differ, in the
    code modelled here, in one place only: [src/unnamed/part_000] does not
    raise the invalid-amount alert when the amount field is blank. *)
Inductive Revision := Scripts_app | Part_000.

(** [const API_BASE_CURRENCY = "USD"] *)
Definition API_BASE_CURRENCY : string := "USD".

(** The messages passed to [showAlert]. *)
Inductive Alert :=
| AlertStillLoading            (* "Still loading rates. Please wait a moment." *)
| AlertInvalidAmount           (* "Please enter a valid amount." *)
| AlertMissingRate (fromCurrency toCurrency : string)
                               (* "Cannot convert: The exchange rate for
                                  ${fromCurrency} or ${toCurrency} is missing ..." *)
| AlertLoadedFromCache (timestamp : string)
                               (* "Loaded exchange rates from cache (Last updated: ...)." *)
| AlertCritical.               (* "Critical error: Cannot load live rates or cache. ..." *)

(** An ISO calendar date, the key of one entry of the historical series. *)
Record Date := mkDate { year : Z; month : Z; day : Z }.

(** One element of the array [rates] of [fetchHistoricalRates]:
    [{ date, rate: data.rates[date][to] }]. *)
Record HistoricalPoint := mkPoint { date : Date; rate : Number }.

Inductive Direction := Increased | Decreased | Stable.

(** The constants of [fetchHistoricalRates] from which its trend paragraph
    is written.  The paragraph prints the two points with their rates at
    four decimals, the word for [trendText], and [Math.abs(percentageChange)]:
    the number the string [percentageChange] denotes, without its sign and
    without trailing zeros ("0.00" is printed as 0, "-8.33" as 8.33). *)
Record TrendSummary := mkTrend {
  points : nat;                 (* rates.length *)
  startPoint : HistoricalPoint; (* rates[0] *)
  endPoint : HistoricalPoint;   (* rates[rates.length - 1] *)
  change : Number;              (* endRate - startRate *)
  percentageChange : string;    (* ((change / startRate) * 100).toFixed(2) *)
  trendText : Direction
}.

(** What [$historicalRates.innerHTML] was written from: one of the fixed
    paragraphs, or the trend paragraph for the constants of a
    [TrendSummary]. *)
Inductive HistoricalView :=
| ViewBlank                        (* nothing written yet *)
| ViewRequiresLiveConnection       (* "Historical data requires a live connection." *)
| ViewNoHistoricalData             (* "No historical data found for the selected pair." *)
| ViewNotEnoughPoints (count : nat)
                                   (* "Not enough data points (${rates.length}) to show a
                                      meaningful trend." *)
| ViewTrend (t : TrendSummary)
| ViewError.                       (* "Error retrieving historical data. API limit or error." *)

Record App := mkApp {
  db : bool;                            (* whether [db] holds a Firestore handle *)
  currencyRates : gmap string Number;
  isOfflineMode : bool;
  hasRatesLoaded : bool;
  fromAmount_value : string;            (* $fromAmount.value *)
  fromAmount_number : Number;           (* parseFloat($fromAmount.value) *)
  fromCurrency_value : string;          (* $fromCurrency.value *)
  toCurrency_value : string;            (* $toCurrency.value *)
  rateDisplay : string;                 (* $rateDisplay.textContent *)
  totalDisplay : string;                (* $totalDisplay.textContent *)
  cachedStatus_hidden : bool;           (* 'hidden' in $cachedStatus.classList *)
  historicalRates : HistoricalView;     (* $historicalRates.innerHTML *)
  alerts : list Alert;                  (* calls of showAlert, latest first *)
  historicalCalls : list (string * string)
                                        (* calls of fetchHistoricalRates started by
                                           updateConversion and not awaited, latest first *)
}.

Definition set_currencyRates (v : gmap string Number) (st : App) : App :=
  let '(mkApp a _ c d e f g h i j k l m n) := st in mkApp a v c d e f g h i j k l m n.
Definition set_isOfflineMode (v : bool) (st : App) : App :=
  let '(mkApp a b _ d e f g h i j k l m n) := st in mkApp a b v d e f g h i j k l m n.
Definition set_hasRatesLoaded (v : bool) (st : App) : App :=
  let '(mkApp a b c _ e f g h i j k l m n) := st in mkApp a b c v e f g h i j k l m n.
Definition set_rateDisplay (v : string) (st : App) : App :=
  let '(mkApp a b c d e f g h _ j k l m n) := st in mkApp a b c d e f g h v j k l m n.
Definition set_totalDisplay (v : string) (st : App) : App :=
  let '(mkApp a b c d e f g h i _ k l m n) := st in mkApp a b c d e f g h i v k l m n.
Definition set_cachedStatus_hidden (v : bool) (st : App) : App :=
  let '(mkApp a b c d e f g h i j _ l m n) := st in mkApp a b c d e f g h i j v l m n.
Definition set_historicalRates (v : HistoricalView) (st : App) : App :=
  let '(mkApp a b c d e f g h i j k _ m n) := st in mkApp a b c d e f g h i j k v m n.

(** [showAlert(message)] (the alert hides itself again after eight seconds). *)
Definition showAlert (message : Alert) (st : App) : App :=
  let '(mkApp a b c d e f g h i j k l m n) := st in
  mkApp a b c d e f g h i j k l (message :: m) n.

(** The un-awaited call [fetchHistoricalRates(fromCurrency, toCurrency)]. *)
Definition call_fetchHistoricalRates (fromCurrency toCurrency : string) (st : App) : App :=
  let '(mkApp a b c d e f g h i j k l m n) := st in
  mkApp a b c d e f g h i j k l m ((fromCurrency, toCurrency) :: n).

(** ** The outside world: quote service, cache document, clock, timers *)

(** How one [fetch(url)] followed by [response.json()] ends: the request
    rejects, or a response arrives with its [ok] flag and, when the body
    parses, its JSON value ([None] when [response.json()] rejects). *)
Inductive FetchOutcome (Body : Type) :=
| NetworkError
| HttpResponse (ok : bool) (body : option Body).
Arguments NetworkError {Body}.
Arguments HttpResponse {Body} ok body.

(** Body of [GET /latest?from=BASE]: [{ base, date, rates: {code: number} }].
    The bodies listed in a [World] are of this shape, the one the service
    answers an [ok] request with; a parsed body without a [rates] object,
    for which [fetchRates] assigns [undefined] to the store before
    [currencyRates[data.base] = 1] throws, is not among them. *)
Record LatestBody := mkLatest {
  latest_base : string;
  latest_rates : gmap string Number
}.

(** Body of [GET /start..end?from=..&to=..]:
    [{ rates: { "YYYY-MM-DD": { code: number } } }], its dates in the order
    [for (const date in data.rates)] visits them; [None] when the body has
    no [rates]. *)
Record SeriesBody := mkSeries {
  series_rates : option (list (Date * gmap string Number))
}.

(** A JSON text kept in the cache document: one that [JSON.parse] reads as
    an object of rates, or one that makes [JSON.parse] throw. *)
Inductive JsonText :=
| JsonRates (r : gmap string Number)
| JsonMalformed.

(** What [JSON.parse] reads back from the text [JSON.stringify] wrote for a
    number: a finite number itself ([-0], written as [0], comes back as
    [+0]); [NaN] and the infinities are written as [null], which is falsy
    like an absent entry and is modelled as absent. *)
Definition JSON_number (v : Number) : option Number :=
  match v with
  | S754_zero _ => Some (S754_zero false)
  | S754_finite _ _ _ => Some v
  | S754_infinity _ | S754_nan => None
  end.

Definition JSON_stringify (r : gmap string Number) : JsonText :=
  JsonRates (omap JSON_number r).

Definition JSON_parse (t : JsonText) : option (gmap string Number) :=
  match t with
  | JsonRates r => Some r
  | JsonMalformed => None
  end.

(** The cache document [{ rates, timestamp, base }]. *)
Record RateSnapshot := mkSnapshot {
  snapshot_rates : JsonText;
  snapshot_timestamp : string;
  snapshot_base : string
}.

Record World := mkWorld {
  latest : list (FetchOutcome LatestBody);
                                   (* how the coming calls of fetch(.../latest) end *)
  cacheDoc : option RateSnapshot;  (* the document at CACHE_DOC_PATH, if it exists *)
  getDoc_rejects : bool;
  setDoc_rejects : bool;
  now : string;                    (* new Date().toISOString() *)
  timeouts : list Z                (* delays awaited through setTimeout, oldest first *)
}.

Definition set_latest (v : list (FetchOutcome LatestBody)) (w : World) : World :=
  mkWorld v (cacheDoc w) (getDoc_rejects w) (setDoc_rejects w) (now w) (timeouts w).
Definition set_cacheDoc (v : option RateSnapshot) (w : World) : World :=
  mkWorld (latest w) v (getDoc_rejects w) (setDoc_rejects w) (now w) (timeouts w).
Definition set_timeouts (v : list Z) (w : World) : World :=
  mkWorld (latest w) (cacheDoc w) (getDoc_rejects w) (setDoc_rejects w) (now w) v.

(** [await fetch(url)] with [response.json()]: the next outcome; a world
    with no outcome left has no network. *)
Definition fetch_latest (w : World) : FetchOutcome LatestBody * World :=
  match latest w with
  | [] => (NetworkError, w)
  | o :: rest => (o, set_latest rest w)
  end.

(** The outcomes that leave the [try] block of [fetchRates] through a
    [throw] before anything is assigned: a rejected request, a response
    that is not [ok], a body that does not parse. *)
Definition failed {Body : Type} (o : FetchOutcome Body) : bool :=
  match o with
  | HttpResponse true (Some _) => false
  | _ => true
  end.

(** [await new Promise(resolve => setTimeout(resolve, delay))] *)
Definition sleep (delay : Z) (w : World) : World :=
  set_timeouts (timeouts w ++ [delay]) w.

(** [await setDoc(doc(db, CACHE_DOC_PATH), ratesData)], when it resolves. *)
Definition setDoc (d : RateSnapshot) (w : World) : World :=
  set_cacheDoc (Some d) w.

(** The delays [2^i * 1000], [2^(i+1) * 1000], ... of [k] consecutive
    waits that start after attempt [i]. *)
Fixpoint backoff_delays (i : Z) (k : nat) : list Z :=
  match k with
  | O => []
  | S k' => 2 ^ i * 1000 :: backoff_delays (i + 1) k'
  end.

(** ** The rate cache *)

(** [saveRatesCache()] *)
Definition saveRatesCache (st : App) (w : World) : World :=
  if negb (db st) || (size (currencyRates st) =? 0)%nat then w
  else if setDoc_rejects w then w
  else setDoc (mkSnapshot (JSON_stringify (currencyRates st)) (now w) API_BASE_CURRENCY) w.

(** [loadRatesCache()] *)
Definition loadRatesCache (st : App) : World -> bool * App :=
  fun w =>
  if negb (db st) then (false, st)
  else if getDoc_rejects w then (false, st)
  else
    match cacheDoc w with
    | Some data =>
        match JSON_parse (snapshot_rates data) with
        | Some r =>
            let st := set_currencyRates r st in
            let st := set_isOfflineMode true st in
            let st := set_cachedStatus_hidden false st in
            let st := showAlert (AlertLoadedFromCache (snapshot_timestamp data)) st in
            (true, st)
        | None => (false, st)
        end
    | None => (false, st)
    end.

(** ** The live fetch *)

(** The body of the [for] loop of [fetchRates], from iteration [i] on;
    [steps] is the number of iterations left, [retries - i]. *)
Fixpoint fetchRates_from (steps : nat) (i retries : Z) (st : App) (w : World)
  : bool * App * World :=
  match steps with
  | O => (false, st, w)
  | S steps' =>
      let '(response, w) := fetch_latest w in
      match response with
      | HttpResponse true (Some data) =>
          let st := set_currencyRates (<[latest_base data := one]> (latest_rates data)) st in
          let st := set_hasRatesLoaded true st in
          (true, st, saveRatesCache st w)
      | _ =>
          if i =? retries - 1 then
            let '(cacheLoaded, st) := loadRatesCache st w in
            if cacheLoaded then (cacheLoaded, set_hasRatesLoaded true st, w)
            else (cacheLoaded, set_hasRatesLoaded false (showAlert AlertCritical st), w)
          else
            let delay := 2 ^ i * 1000 in
            fetchRates_from steps' (i + 1) retries st (sleep delay w)
      end
  end.

(** [fetchRates(base = API_BASE_CURRENCY, retries = 3)]; [base] only
    selects the URL. *)
Definition fetchRates (base : string) (retries : Z) (st : App) (w : World)
  : bool * App * World :=
  let st := set_isOfflineMode false st in
  let st := set_cachedStatus_hidden true st in
  fetchRates_from (Z.to_nat retries) 0 retries st w.

(** ** The historical trend *)

(** Days from 1970-01-01 to a calendar date of the proleptic Gregorian
    calendar, and the time value of [new Date("YYYY-MM-DD")], which is
    midnight UTC of that day in milliseconds. *)
Definition days_from_civil (d : Date) : Z :=
  let y := if month d <=? 2 then year d - 1 else year d in
  let era := y / 400 in
  let yoe := y - era * 400 in
  let mp := if month d <=? 2 then month d + 9 else month d - 3 in
  let doy := (153 * mp + 2) / 5 + day d - 1 in
  let doe := yoe * 365 + yoe / 4 - yoe / 100 + doy in
  era * 146097 + doe - 719468.

Definition Date_getTime (d : Date) : Z := days_from_civil d * 86400000.

(** The comparator [(a, b) => new Date(a.date) - new Date(b.date)]. *)
Definition compare_dates (a b : HistoricalPoint) : Z :=
  Date_getTime (date a) - Date_getTime (date b).

(** [Array.prototype.sort] is stable, and every stable sort gives the same
    array for a consistent comparator; it is modelled by insertion sort:
    an element goes before the first one it does not compare greater than. *)
Fixpoint sort_insert (x : HistoricalPoint) (l : list HistoricalPoint)
  : list HistoricalPoint :=
  match l with
  | [] => [x]
  | y :: l' => if 0 <? compare_dates x y then y :: sort_insert x l' else x :: l
  end.

Fixpoint sort_by_date (l : list HistoricalPoint) : list HistoricalPoint :=
  match l with
  | [] => []
  | x :: l' => sort_insert x (sort_by_date l')
  end.

(** The loop [for (const date in data.rates) if (data.rates[date][to])
    rates.push({ date, rate: data.rates[date][to] })]. *)
Fixpoint collect_points (to : string) (series : list (Date * gmap string Number))
  : list HistoricalPoint :=
  match series with
  | [] => []
  | (d, quotes) :: rest =>
      if ToBoolean (quotes !! to)
      then mkPoint d (ToNumber (quotes !! to)) :: collect_points to rest
      else collect_points to rest
  end.

Definition no_point : HistoricalPoint := mkPoint (mkDate 0 0 0) S754_nan.

(** The trend computed from the sorted array [rates] once it has at least
    two elements. *)
Definition trend (rates : list HistoricalPoint) : TrendSummary :=
  let startRate := rate (nth 0 rates no_point) in
  let endRate := rate (nth (length rates - 1) rates no_point) in
  let change := Number_sub endRate startRate in
  let percentageChange := toFixed (Number_mul (Number_div change startRate) hundred) 2 in
  let trendText :=
    if Number_gt change zero then Increased
    else if Number_lt change zero then Decreased
    else Stable in
  mkTrend (length rates) (nth 0 rates no_point) (nth (length rates - 1) rates no_point)
          change percentageChange trendText.

(** [fetchHistoricalRates(from, to, days = 7)], given how its one request
    ends ([days] only selects the URL).  Every [throw] inside the [try]
    lands in the [catch], which writes the error paragraph. *)
Definition fetchHistoricalRates (from to : string) (response : FetchOutcome SeriesBody)
    (st : App) : App :=
  if negb (hasRatesLoaded st) || isOfflineMode st then
    set_historicalRates ViewRequiresLiveConnection st
  else
    match response with
    | HttpResponse true (Some data) =>
        match series_rates data with
        | None => set_historicalRates ViewNoHistoricalData st
        | Some series =>
            if (length series =? 0)%nat then set_historicalRates ViewNoHistoricalData st
            else
              let rates := sort_by_date (collect_points to series) in
              if (length rates <? 2)%nat then
                set_historicalRates (ViewNotEnoughPoints (length rates)) st
              else set_historicalRates (ViewTrend (trend rates)) st
        end
    | _ => set_historicalRates ViewError st
    end.

(** ** The conversion *)

(** The three constants of [updateConversion], from the amount and the two
    rates read from the store. *)
Definition baseValue (amount rateFrom : Number) : Number :=
  Number_div amount rateFrom.

Definition result (amount rateFrom rateTo : Number) : Number :=
  Number_mul (baseValue amount rateFrom) rateTo.

Definition displayRate (rateFrom rateTo : Number) : Number :=
  Number_div rateTo rateFrom.

(** [$fromAmount.value.trim() === ""].  [trim] strips the code points of
    WhiteSpace and LineTerminator: U+0009 to U+000D, U+0020, U+00A0, U+1680,
    U+2000 to U+200A, U+2028, U+2029, U+202F, U+205F, U+3000 and U+FEFF.
    The text of the field is kept as its UTF-8 bytes, in which all but the
    first six of them take two or three bytes. *)
Definition is_space (c : ascii) : bool :=
  let n := nat_of_ascii c in
  ((9 <=? n) && (n <=? 13) || (n =? 32))%nat.

(** U+00A0 is [C2 A0]. *)
Definition is_space2 (c1 c2 : ascii) : bool :=
  ((nat_of_ascii c1 =? 194) && (nat_of_ascii c2 =? 160))%nat.

Definition is_space3 (c1 c2 c3 : ascii) : bool :=
  let a := nat_of_ascii c1 in
  let b := nat_of_ascii c2 in
  let c := nat_of_ascii c3 in
  ((a =? 225) && (b =? 154) && (c =? 128)                      (* U+1680: E1 9A 80 *)
   || (a =? 226) && (b =? 128)
      && ((128 <=? c) && (c <=? 138)                           (* U+2000..U+200A: E2 80 80..8A *)
          || (c =? 168) || (c =? 169)                          (* U+2028, U+2029: E2 80 A8, A9 *)
          || (c =? 175))                                       (* U+202F: E2 80 AF *)
   || (a =? 226) && (b =? 129) && (c =? 159)                   (* U+205F: E2 81 9F *)
   || (a =? 227) && (b =? 128) && (c =? 128)                   (* U+3000: E3 80 80 *)
   || (a =? 239) && (b =? 187) && (c =? 191))%nat.             (* U+FEFF: EF BB BF *)

Fixpoint is_blank (s : string) : bool :=
  match s with
  | EmptyString => true
  | String c1 s1 =>
      if is_space c1 then is_blank s1
      else
        match s1 with
        | EmptyString => false
        | String c2 s2 =>
            if is_space2 c1 c2 then is_blank s2
            else
              match s2 with
              | EmptyString => false
              | String c3 s3 => is_space3 c1 c2 c3 && is_blank s3
              end
        end
  end.

(** [updateConversion()].  The later revision also refreshes the favourite
    icon on the converting path, which is outside the model. *)
Definition updateConversion (rev : Revision) (st : App) : App :=
  if negb (hasRatesLoaded st) then showAlert AlertStillLoading st
  else
    let amount := fromAmount_number st in
    let fromCurrency := fromCurrency_value st in
    let toCurrency := toCurrency_value st in
    if isNaN amount || Number_le amount zero then
      let st :=
        match rev with
        | Scripts_app => showAlert AlertInvalidAmount st
        | Part_000 =>
            if negb (is_blank (fromAmount_value st)) then showAlert AlertInvalidAmount st
            else st
        end in
      set_totalDisplay "0.00" st
    else if negb (ToBoolean (currencyRates st !! fromCurrency))
            || negb (ToBoolean (currencyRates st !! toCurrency)) then
      let st := showAlert (AlertMissingRate fromCurrency toCurrency) st in
      set_totalDisplay "0.00" st
    else
      let rateFrom := ToNumber (currencyRates st !! fromCurrency) in
      let rateTo := ToNumber (currencyRates st !! toCurrency) in
      let st :=
        set_rateDisplay
          ("1 " +:+ fromCurrency +:+ " = " +:+ toFixed (displayRate rateFrom rateTo) 4
                +:+ " " +:+ toCurrency) st in
      let st := set_totalDisplay (toFixed (result amount rateFrom rateTo) 2) st in
      if negb (isOfflineMode st) then call_fetchHistoricalRates fromCurrency toCurrency st
      else set_historicalRates ViewRequiresLiveConnection st.

(** ** Vocabulary of the statements *)

(** [n] is the integer nearest to [m * 2^e * 10^f], the larger one of two
    equally near: [n - 1/2 <= m * 2^e * 10^f < n + 1/2], with the power of
    two moved to the side where its exponent is not negative. *)
Definition rounds_to (n : Z) (m : positive) (e : Z) (f : nat) : Prop :=
  let num := Z.pos m * 2 ^ Z.max 0 e in
  let den := 2 ^ Z.max 0 (- e) in
  den * (2 * n - 1) <= 2 * num * 10 ^ Z.of_nat f < den * (2 * n + 1).

(** The amount check of [updateConversion]: [isNaN(amount) || amount <= 0]. *)
Definition amount_rejected (amount : Number) : bool :=
  isNaN amount || Number_le amount zero.

(** The series is in ascending order of the time values of its dates. *)
Definition ascending (l : list HistoricalPoint) : Prop :=
  Sorted (fun a b => compare_dates a b <= 0) l.

(** ** Sample sessions *)

(** The session once [initFirebase] has set [db] and before any rates
    arrive: no rates, both flags false, the drop-downs at their defaults. *)
Definition fresh_session : App :=
  mkApp true ∅ false false "100" hundred "USD" "NGN" "" "" true ViewBlank [] [].

(** A session whose rates are loaded from the network. *)
Definition session (rates : gmap string Number) (text : string) (amount : Number)
    (fromCurrency toCurrency : string) : App :=
  mkApp true rates false true text amount fromCurrency toCurrency "" "" true ViewBlank [] [].

(** Rates relative to USD, as [fetchRates] leaves them. *)
Definition usd_rates : gmap string Number :=
  <["USD" := one]> (<["EUR" := decimal 92 2]> (<["NGN" := decimal 15005 1]> ∅)).

Definition latest_usd : LatestBody :=
  mkLatest "USD" (<["EUR" := decimal 92 2]> (<["NGN" := decimal 15005 1]> ∅)).

(** The quote service fails once, then answers. *)
Definition world_second_attempt : World :=
  mkWorld [NetworkError; HttpResponse true (Some latest_usd)] None false false
          "2024-01-02T00:00:00.000Z" [].

(** The quote service is down; the cache holds an earlier snapshot. *)
Definition world_offline (cached : gmap string Number) : World :=
  mkWorld [NetworkError; HttpResponse false None; HttpResponse true None]
          (Some (mkSnapshot (JsonRates cached) "2024-01-01T00:00:00.000Z" "USD"))
          false false "2024-01-02T00:00:00.000Z" [].

Definition series_response (series : list (Date * gmap string Number))
  : FetchOutcome SeriesBody :=
  HttpResponse true (Some (mkSeries (Some series))).

(** ** The rest of the script *)

(** *** The currency drop-downs *)

(** [const CURRENCIES = [ { code, name }, ... ]] *)
Definition CURRENCIES : list (string * string) :=
  [ ("USD", "US Dollar"); ("EUR", "Euro"); ("GBP", "British Pound");
    ("NGN", "Nigerian Naira"); ("JPY", "Japanese Yen"); ("CAD", "Canadian Dollar");
    ("AUD", "Australian Dollar"); ("ZAR", "South African Rand"); ("INR", "Indian Rupee") ].

(** The values of the options [populateDropdowns] appends to each of the
    two select elements, in order. *)
Definition option_values : list string := map fst CURRENCIES.

(** Assigning [v] to the [value] of a select element selects the option
    whose value is [v]; when there is none, no option is selected and the
    value reads as the empty string. *)
Definition select_value (options : list string) (v : string) : string :=
  if bool_decide (v ∈ options) then v else "".

Definition set_fromCurrency_value (v : string) (st : App) : App :=
  let '(mkApp a b c d e f _ h i j k l m n) := st in mkApp a b c d e f v h i j k l m n.
Definition set_toCurrency_value (v : string) (st : App) : App :=
  let '(mkApp a b c d e f g _ i j k l m n) := st in mkApp a b c d e f g v i j k l m n.

(** The two assignments that end [populateDropdowns], once the options are
    in place: [$fromCurrency.value = "USD"; $toCurrency.value = "NGN"]. *)
Definition populateDropdowns (st : App) : App :=
  let st := set_fromCurrency_value (select_value option_values "USD") st in
  set_toCurrency_value (select_value option_values "NGN") st.

(** [getSelectedPair()] *)
Definition getSelectedPair (st : App) : string * string :=
  (fromCurrency_value st, toCurrency_value st).

(** [switchCurrencies()]; it runs from a click handler that [init]
    installs after [populateDropdowns], so both selects carry the options
    of [CURRENCIES].  (The half-second animation class is not modelled.) *)
Definition switchCurrencies (rev : Revision) (st : App) : App :=
  let temp := fromCurrency_value st in
  let st := set_fromCurrency_value (select_value option_values (toCurrency_value st)) st in
  let st := set_toCurrency_value (select_value option_values temp) st in
  updateConversion rev st.

(** *** Start-up *)

(** [fetchRatesAndInitialize()]; the later revision returns at once when
    rates are already loaded. *)
Definition fetchRatesAndInitialize (rev : Revision) (st : App) (w : World) : App * World :=
  let returns_at_once :=
    match rev with
    | Scripts_app => false
    | Part_000 => hasRatesLoaded st
    end in
  if returns_at_once then (st, w)
  else
    let '(success, st, w) := fetchRates API_BASE_CURRENCY 3 st w in
    if success then (updateConversion rev st, w) else (st, w).

(** *** Vocabulary of the further statements *)

(** [loadRatesCache] would succeed: [db] is set, [getDoc] resolves, the
    document exists and its rates parse. *)
Definition cache_loadable (st : App) (w : World) : bool :=
  db st && negb (getDoc_rejects w) &&
  match cacheDoc w with
  | Some data => match JSON_parse (snapshot_rates data) with Some _ => true | None => false end
  | None => false
  end.

(** Sum of a list of delays. *)
Definition total_delay (l : list Z) : Z := fold_right Z.add 0 l.

(** The time values of the dates of a series. *)
Definition series_times (series : list (Date * gmap string Number)) : list Z :=
  map (fun entry => Date_getTime (fst entry)) series.

(** *** Favourites ([src/unnamed/part_000]) *)

(** A document of a user's favourites collection:
    [{ from, to, createdAt }]. *)
Record FavoriteDoc := mkFavorite {
  favorite_from : string;
  favorite_to : string;
  favorite_createdAt : string
}.

(** The persistence service: for every user id the collection
    [artifacts/{appId}/users/{userId}/favorites], from document id to
    document, and the clock that stamps new documents. *)
Record Cloud := mkCloud {
  favorites : gmap string (gmap string FavoriteDoc);
  cloud_now : string
}.

(** The messages [initFirebase] and the favourites code pass to
    [showAlert]. *)
Inductive Notice :=
| NoticeApiOnly                 (* "Application failed to initialize database features.
                                   Functioning in API-only mode." *)
| NoticeWaitForAuthentication   (* "Please wait for authentication to complete before
                                   saving favorites." *)
| NoticeAdded (pair : string)   (* "'${pair}' added to favorites!" *)
| NoticeSaveFailed (message : string)
                                (* "Failed to save favorite: ${error.message}" *)
| NoticeRemoved (pair : string) (* "'${pair}' removed from favorites." *)
| NoticeRemoveFailed (message : string)
                                (* "Failed to remove favorite: ${error.message}" *)
| NoticeLoadedFavorite (from to : string)
                                (* "Loaded favorite pair: ${from}/${to}" *)
| NoticeErrorLoadingFavorites (message : string).
                                (* "Error loading favorites: ${error.message}" *)

(** One [li] of [$favoritesList]: the placeholder, or the entry of one
    document with the values its two click handlers close over. *)
Inductive FavoriteEntry :=
| NoFavoritesYet                (* "No favorite pairs saved yet." *)
| FavoriteItem (pair from to id : string).

Inductive Star := FilledStar | OutlineStar.

(** [$favoriteIcon]: its [innerHTML], its class list and its [stroke] and
    [fill] attributes ([None] while never set). *)
Record FavoriteIcon := mkIcon {
  icon_star : Star;
  icon_classes : gset string;
  icon_stroke : option string;
  icon_fill : option string
}.

(** The page of the later revision: the session of both revisions and what
    the favourites add to it. *)
Record Page := mkPage {
  app : App;
  userId : option string;               (* [null] is [None] *)
  isAuthReady : bool;
  userDisplay : string;                 (* $userDisplay.textContent *)
  uiLoaded : bool;                      (* setUILoaded() has run: the loading indicator
                                           is hidden, the card and the widget are shown *)
  favoritesMap : gmap string string;    (* new Map(): "from/to" -> document id *)
  favoritesList : list FavoriteEntry;   (* the children of $favoritesList *)
  favoriteIcon : FavoriteIcon;
  notices : list Notice;                (* these calls of showAlert, latest first; the
                                           alerts of the conversion are in [alerts] *)
  snapshotListeners : list string       (* user ids whose collection an onSnapshot
                                           listener of this page watches *)
}.

Definition set_app (v : App) (p : Page) : Page :=
  mkPage v (userId p) (isAuthReady p) (userDisplay p) (uiLoaded p)
         (favoritesMap p) (favoritesList p) (favoriteIcon p) (notices p) (snapshotListeners p).
Definition set_userId (v : option string) (p : Page) : Page :=
  mkPage (app p) v (isAuthReady p) (userDisplay p) (uiLoaded p)
         (favoritesMap p) (favoritesList p) (favoriteIcon p) (notices p) (snapshotListeners p).
Definition set_isAuthReady (v : bool) (p : Page) : Page :=
  mkPage (app p) (userId p) v (userDisplay p) (uiLoaded p)
         (favoritesMap p) (favoritesList p) (favoriteIcon p) (notices p) (snapshotListeners p).
Definition set_userDisplay (v : string) (p : Page) : Page :=
  mkPage (app p) (userId p) (isAuthReady p) v (uiLoaded p)
         (favoritesMap p) (favoritesList p) (favoriteIcon p) (notices p) (snapshotListeners p).
Definition setUILoaded (p : Page) : Page :=
  mkPage (app p) (userId p) (isAuthReady p) (userDisplay p) true
         (favoritesMap p) (favoritesList p) (favoriteIcon p) (notices p) (snapshotListeners p).
Definition set_favoritesMap (v : gmap string string) (p : Page) : Page :=
  mkPage (app p) (userId p) (isAuthReady p) (userDisplay p) (uiLoaded p)
         v (favoritesList p) (favoriteIcon p) (notices p) (snapshotListeners p).
Definition set_favoritesList (v : list FavoriteEntry) (p : Page) : Page :=
  mkPage (app p) (userId p) (isAuthReady p) (userDisplay p) (uiLoaded p)
         (favoritesMap p) v (favoriteIcon p) (notices p) (snapshotListeners p).
Definition set_favoriteIcon (v : FavoriteIcon) (p : Page) : Page :=
  mkPage (app p) (userId p) (isAuthReady p) (userDisplay p) (uiLoaded p)
         (favoritesMap p) (favoritesList p) v (notices p) (snapshotListeners p).
Definition set_snapshotListeners (v : list string) (p : Page) : Page :=
  mkPage (app p) (userId p) (isAuthReady p) (userDisplay p) (uiLoaded p)
         (favoritesMap p) (favoritesList p) (favoriteIcon p) (notices p) v.

(** [showAlert(message, ...)] with one of these messages. *)
Definition showNotice (message : Notice) (p : Page) : Page :=
  mkPage (app p) (userId p) (isAuthReady p) (userDisplay p) (uiLoaded p)
         (favoritesMap p) (favoritesList p) (favoriteIcon p) (message :: notices p)
         (snapshotListeners p).

(** The key of a pair in [favoritesMap]: [`${from}/${to}`]. *)
Definition pair_key (from to : string) : string := from +:+ "/" +:+ to.

(** [!userId]: [null] and the empty string are falsy. *)
Definition no_user (u : option string) : bool :=
  match u with
  | None => true
  | Some id => String.eqb id ""
  end.

(** [getFavoritesCollectionRef()]: the user whose collection it refers to,
    or [None] when it throws "Firestore or User ID not available.". *)
Definition getFavoritesCollectionRef (p : Page) : option string :=
  if negb (db (app p)) || no_user (userId p) then None else userId p.

Definition ref_unavailable : string := "Firestore or User ID not available.".

(** [updateFavoriteIcon(from, to)] *)
Definition updateFavoriteIcon (from to : string) (p : Page) : Page :=
  let pair := pair_key from to in
  let isFavorite := bool_decide (is_Some (favoritesMap p !! pair)) in
  let removed :=
    icon_classes (favoriteIcon p)
      ∖ {[ "text-gray-400"; "dark:text-gray-500"; "text-yellow-500";
           "hover:text-yellow-600"; "fill-current" ]} in
  if isFavorite then
    set_favoriteIcon
      (mkIcon FilledStar
         (removed ∪ {[ "text-yellow-500"; "hover:text-yellow-600"; "fill-current" ]})
         (Some "none") (Some "currentColor")) p
  else
    set_favoriteIcon
      (mkIcon OutlineStar (removed ∪ {[ "text-gray-400"; "dark:text-gray-500" ]})
         (Some "currentColor") (Some "none")) p.

(** [updateConversion()] of the later revision, on the whole page. *)
Definition updateConversion_000 (p : Page) : Page :=
  let st := app p in
  if negb (hasRatesLoaded st) then set_app (showAlert AlertStillLoading st) p
  else
    let amount := fromAmount_number st in
    let fromCurrency := fromCurrency_value st in
    let toCurrency := toCurrency_value st in
    if isNaN amount || Number_le amount zero then
      let st :=
        if negb (is_blank (fromAmount_value st)) then showAlert AlertInvalidAmount st
        else st in
      set_app (set_totalDisplay "0.00" st) p
    else if negb (ToBoolean (currencyRates st !! fromCurrency))
            || negb (ToBoolean (currencyRates st !! toCurrency)) then
      let st := showAlert (AlertMissingRate fromCurrency toCurrency) st in
      set_app (set_totalDisplay "0.00" st) p
    else
      let rateFrom := ToNumber (currencyRates st !! fromCurrency) in
      let rateTo := ToNumber (currencyRates st !! toCurrency) in
      let st :=
        set_rateDisplay
          ("1 " +:+ fromCurrency +:+ " = " +:+ toFixed (displayRate rateFrom rateTo) 4
                +:+ " " +:+ toCurrency) st in
      let st := set_totalDisplay (toFixed (result amount rateFrom rateTo) 2) st in
      let p := updateFavoriteIcon fromCurrency toCurrency (set_app st p) in
      let st := app p in
      if negb (isOfflineMode st)
      then set_app (call_fetchHistoricalRates fromCurrency toCurrency st) p
      else set_app (set_historicalRates ViewRequiresLiveConnection st) p.

(** The callback [listenForFavorites] hands to [onSnapshot], for a snapshot
    with the documents [docs] (id and data, in the order of
    [snapshot.forEach]). *)
Fixpoint snapshot_forEach (docs : list (string * FavoriteDoc)) (p : Page) : Page :=
  match docs with
  | [] => p
  | (id, data) :: rest =>
      let pair := pair_key (favorite_from data) (favorite_to data) in
      let p := set_favoritesMap (<[pair := id]> (favoritesMap p)) p in
      let p :=
        set_favoritesList
          (favoritesList p ++ [FavoriteItem pair (favorite_from data) (favorite_to data) id]) p in
      snapshot_forEach rest p
  end.

Definition favoritesSnapshot (docs : list (string * FavoriteDoc)) (p : Page) : Page :=
  let p := set_favoritesList [] p in
  let p := set_favoritesMap ∅ p in
  match docs with
  | [] =>
      let p := set_favoritesList [NoFavoritesYet] p in
      updateFavoriteIcon (fromCurrency_value (app p)) (toCurrency_value (app p)) p
  | _ :: _ =>
      let p := snapshot_forEach docs p in
      updateFavoriteIcon (fromCurrency_value (app p)) (toCurrency_value (app p)) p
  end.

(** [listenForFavorites()]: behind its guard the collection reference
    cannot throw, and the listener is registered. *)
Definition listenForFavorites (p : Page) : Page :=
  if negb (isAuthReady p) || no_user (userId p) || negb (db (app p)) then p
  else
    match getFavoritesCollectionRef p with
    | Some user => set_snapshotListeners (user :: snapshotListeners p) p
    | None => showNotice (NoticeErrorLoadingFavorites ref_unavailable) p
    end.

(** [loadFavoritePair(from, to)]; the two selects carry the options of
    [CURRENCIES]. *)
Definition loadFavoritePair (from to : string) (p : Page) : Page :=
  let st := set_fromCurrency_value (select_value option_values from) (app p) in
  let st := set_toCurrency_value (select_value option_values to) st in
  let p := updateConversion_000 (set_app st p) in
  showNotice (NoticeLoadedFavorite from to) p.

(** How the one Firestore write of a call ends: [addDoc] rejects or
    resolves for a new document with an automatic id, [deleteDoc] rejects
    or resolves. *)
Inductive AddOutcome := AddRejected (message : string) | Added (autoId : string).
Inductive DeleteOutcome := DeleteRejected (message : string) | Deleted.

Definition collection_of (user : string) (c : Cloud) : gmap string FavoriteDoc :=
  default ∅ (favorites c !! user).

Definition set_collection (user : string) (docs : gmap string FavoriteDoc) (c : Cloud) : Cloud :=
  mkCloud (<[user := docs]> (favorites c)) (cloud_now c).

(** [saveFavoritePair(from, to, pair)] *)
Definition saveFavoritePair (from to pair : string) (outcome : AddOutcome)
    (p : Page) (c : Cloud) : Page * Cloud :=
  match getFavoritesCollectionRef p with
  | None => (showNotice (NoticeSaveFailed ref_unavailable) p, c)
  | Some user =>
      match outcome with
      | AddRejected message => (showNotice (NoticeSaveFailed message) p, c)
      | Added id =>
          let data := mkFavorite from to (cloud_now c) in
          (showNotice (NoticeAdded pair) p,
           set_collection user (<[id := data]> (collection_of user c)) c)
      end
  end.

(** [deleteFavoritePair(docId, pair)] *)
Definition deleteFavoritePair (docId pair : string) (outcome : DeleteOutcome)
    (p : Page) (c : Cloud) : Page * Cloud :=
  match getFavoritesCollectionRef p with
  | None => (showNotice (NoticeRemoveFailed ref_unavailable) p, c)
  | Some user =>
      match outcome with
      | DeleteRejected message => (showNotice (NoticeRemoveFailed message) p, c)
      | Deleted =>
          (showNotice (NoticeRemoved pair) p,
           set_collection user (delete docId (collection_of user c)) c)
      end
  end.

(** [toggleFavorite()]; of the two outcomes only the one of the write it
    makes is looked at. *)
Definition toggleFavorite (added : AddOutcome) (deleted : DeleteOutcome)
    (p : Page) (c : Cloud) : Page * Cloud :=
  if negb (isAuthReady p) || no_user (userId p) || negb (db (app p)) then
    (showNotice NoticeWaitForAuthentication p, c)
  else
    let '(fromCode, toCode) := getSelectedPair (app p) in
    let pair := pair_key fromCode toCode in
    match favoritesMap p !! pair with
    | Some docId => deleteFavoritePair docId pair deleted p c
    | None => saveFavoritePair fromCode toCode pair added p c
    end.

(** The two click handlers of an entry of the favourites list. *)
Definition click_entry (entry : FavoriteEntry) (p : Page) : Page :=
  match entry with
  | FavoriteItem _ from to _ => loadFavoritePair from to p
  | NoFavoritesYet => p
  end.

Definition click_delete (entry : FavoriteEntry) (outcome : DeleteOutcome)
    (p : Page) (c : Cloud) : Page * Cloud :=
  match entry with
  | FavoriteItem key _ _ id => deleteFavoritePair id key outcome p c
  | NoFavoritesYet => (p, c)
  end.

(** A snapshot of a collection lists each of its documents once. *)
Definition snapshot_of (docs : list (string * FavoriteDoc))
    (collection : gmap string FavoriteDoc) : Prop :=
  docs ≡ₚ map_to_list collection.

(** The key under which a document is kept in [favoritesMap]. *)
Definition key_of (data : FavoriteDoc) : string :=
  pair_key (favorite_from data) (favorite_to data).

(** *** Start-up on the page *)

Definition set_db (v : bool) (st : App) : App :=
  let '(mkApp _ b c d e f g h i j k l m n) := st in mkApp v b c d e f g h i j k l m n.

(** [updateConversion()] of either revision, on the page. *)
Definition updateConversion_page (rev : Revision) (p : Page) : Page :=
  match rev with
  | Scripts_app => set_app (updateConversion Scripts_app (app p)) p
  | Part_000 => updateConversion_000 p
  end.

(** [fetchRatesAndInitialize()] on the page. *)
Definition fetchRatesAndInitialize_page (rev : Revision) (p : Page) (w : World)
  : Page * World :=
  let returns_at_once :=
    match rev with
    | Scripts_app => false
    | Part_000 => hasRatesLoaded (app p)
    end in
  if returns_at_once then (p, w)
  else
    let '(success, st, w) := fetchRates API_BASE_CURRENCY 3 (app p) w in
    let p := set_app st p in
    if success then (updateConversion_page rev p, w) else (p, w).

(** The callback [initFirebase] hands to [onAuthStateChanged], called with
    a user of id [uid] or with [null]. *)
Definition authStateChanged (rev : Revision) (user : option string) (p : Page) (w : World)
  : Page * World :=
  let p :=
    match user with
    | Some uid =>
        let p := set_userId (Some uid) p in
        set_userDisplay ("User: " +:+ substring 0 8 uid +:+ "...") p
    | None =>
        let p := set_userId None p in
        set_userDisplay "User: Anon" p
    end in
  let p := set_isAuthReady true p in
  let '(p, w) := fetchRatesAndInitialize_page rev p w in
  let p :=
    match rev with
    | Scripts_app => p
    | Part_000 => listenForFavorites p
    end in
  (setUILoaded p, w).

(** How the set-up of Firebase in [initFirebase] goes. *)
Inductive FirebaseSetup :=
| ConfigEmpty     (* Object.keys(firebaseConfig).length === 0 *)
| SetupThrows     (* initializeApp or getFirestore throws: [db] is not assigned *)
| SignInFails     (* getAuth or onAuthStateChanged throws, or the sign-in rejects:
                     [db] is assigned *)
| SignedIn.       (* the callback is registered; it runs later *)

(** The [catch] of [initFirebase]. *)
Definition api_only (rev : Revision) (p : Page) (w : World) : Page * World :=
  let p := showNotice NoticeApiOnly p in
  let p := set_isAuthReady true p in
  let '(p, w) := fetchRatesAndInitialize_page rev p w in
  (setUILoaded p, w).

(** [initFirebase()] *)
Definition initFirebase (rev : Revision) (setup : FirebaseSetup) (p : Page) (w : World)
  : Page * World :=
  match setup with
  | ConfigEmpty =>
      let '(p, w) := fetchRatesAndInitialize_page rev p w in
      let p := set_isAuthReady true p in
      (setUILoaded p, w)
  | SetupThrows => api_only rev p w
  | SignInFails => api_only rev (set_app (set_db true (app p)) p) w
  | SignedIn => (set_app (set_db true (app p)) p, w)
  end.

(** *** The theme *)

Inductive Glyph := SUN_SVG | MOON_SVG.

(** The class list of [document.body], and [$themeIcon]: its [innerHTML]
    ([None] while never written) and its attributes. *)
Record Theme := mkTheme {
  body_classes : gset string;
  themeIcon_glyph : option Glyph;
  themeIcon_attributes : gmap string string
}.

(** [classList.contains(token)] *)
Definition classList_contains (token : string) (classes : gset string) : bool :=
  bool_decide (token ∈ classes).

(** [classList.replace(oldToken, newToken)]: nothing without [oldToken]. *)
Definition classList_replace (oldToken newToken : string) (classes : gset string)
  : gset string :=
  if classList_contains oldToken classes then {[ newToken ]} ∪ classes ∖ {[ oldToken ]}
  else classes.

(** [updateIconAttributes(isDarkMode)] *)
Definition updateIconAttributes (isDarkMode : bool) (t : Theme) : Theme :=
  let attributes := <["viewBox" := "0 0 24 24"]> (themeIcon_attributes t) in
  if isDarkMode then
    mkTheme (body_classes t) (Some SUN_SVG)
      (<["stroke-linejoin" := "round"]>
         (<["stroke-linecap" := "round"]>
            (<["stroke-width" := "2"]>
               (<["stroke" := "currentColor"]> (<["fill" := "none"]> attributes)))))
  else
    mkTheme (body_classes t) (Some MOON_SVG)
      (<["stroke" := "none"]> (<["fill" := "currentColor"]> attributes)).

Definition set_body_classes (v : gset string) (t : Theme) : Theme :=
  mkTheme v (themeIcon_glyph t) (themeIcon_attributes t).

(** [setupThemeToggle()] up to the registration of the click handler;
    [isDark] is [matchMedia('(prefers-color-scheme: dark)').matches]. *)
Definition setupThemeToggle (rev : Revision) (isDark : bool) (t : Theme) : Theme :=
  let replaces :=
    match rev with
    | Scripts_app => isDark
    | Part_000 => isDark && negb (classList_contains "dark-mode" (body_classes t))
    end in
  let t :=
    if replaces
    then set_body_classes (classList_replace "light-mode" "dark-mode" (body_classes t)) t
    else t in
  updateIconAttributes (classList_contains "dark-mode" (body_classes t)) t.

(** The click handler of [#theme-toggle]. *)
Definition themeToggle_click (t : Theme) : Theme :=
  let isCurrentlyDark := classList_contains "dark-mode" (body_classes t) in
  if isCurrentlyDark then
    let t := set_body_classes (classList_replace "dark-mode" "light-mode" (body_classes t)) t in
    updateIconAttributes false t
  else
    let t := set_body_classes (classList_replace "light-mode" "dark-mode" (body_classes t)) t in
    updateIconAttributes true t.

(** *** Vocabulary of the statements about the page *)

(** The body carries exactly one of the two theme classes. *)
Definition one_theme (t : Theme) : Prop :=
  "dark-mode" ∈ body_classes t <-> "light-mode" ∉ body_classes t.

(** The list entry the snapshot callback builds for a document. *)
Definition entry_of (doc : string * FavoriteDoc) : FavoriteEntry :=
  FavoriteItem (key_of doc.2) (favorite_from doc.2) (favorite_to doc.2) doc.1.

(** The guard of [toggleFavorite] and [listenForFavorites], negated:
    [isAuthReady && userId && db]. *)
Definition signed_in (p : Page) : bool :=
  isAuthReady p && negb (no_user (userId p)) && db (app p).

(** [updateConversion] reaches its conversion: rates are loaded, the amount
    passes and both rates are truthy. *)
Definition converts (st : App) : bool :=
  hasRatesLoaded st && negb (amount_rejected (fromAmount_number st))
  && (ToBoolean (currencyRates st !! fromCurrency_value st)
      && ToBoolean (currencyRates st !! toCurrency_value st)).

(** A positive finite Number in the canonical form every binary64 value
    has (the form [JSON.parse] and the arithmetic produce). *)
Definition positive_rate (r : Number) : bool :=
  match r with
  | S754_finite false m e => bounded prec emax m e
  | _ => false
  end.

(** The outcomes of rounding that keep the sign [s] and are not zero. *)
Definition signed_nonzero (s : bool) (x : Number) : Prop :=
  x = S754_infinity s \/ exists m e, x = S754_finite s m e.

(** *** Samples *)

(** A page whose user is signed in, with the favourites map [m]. *)
Definition signed_in_page (st : App) (user : string) (m : gmap string string) : Page :=
  mkPage st (Some user) true "" true m [] (mkIcon OutlineStar ∅ None None) [] [user].

(** The persistence service before any favourite is stored. *)
Definition empty_cloud : Cloud := mkCloud ∅ "2024-01-02T00:00:00.000Z".

(** The page before [init] has run, with the database handle absent. *)
Definition fresh_page : Page :=
  mkPage (set_db false fresh_session) None false "" false ∅ []
         (mkIcon OutlineStar ∅ None None) [] [].

(** A body with the light theme among its classes. *)
Definition light_body : Theme := mkTheme {[ "light-mode"; "font-sans" ]} None ∅.

(** * Properties *)

(** ** Binary64 arithmetic the script relies on *)










(** ** Retry, backoff and fall-back of [fetchRates] *)

(** One iteration of the loop of [fetchRates]. *)
Lemma fetchRates_from_step (steps : nat) (i retries : Z) (st : App) (w : World) :
  fetchRates_from (S steps) i retries st w =
    let '(response, w) := fetch_latest w in
    match response with
    | HttpResponse true (Some data) =>
        let st := set_currencyRates (<[latest_base data := one]> (latest_rates data)) st in
        let st := set_hasRatesLoaded true st in
        (true, st, saveRatesCache st w)
    | _ =>
        if i =? retries - 1 then
          let '(cacheLoaded, st) := loadRatesCache st w in
          if cacheLoaded then (cacheLoaded, set_hasRatesLoaded true st, w)
          else (cacheLoaded, set_hasRatesLoaded false (showAlert AlertCritical st), w)
        else fetchRates_from steps (i + 1) retries st (sleep (2 ^ i * 1000) w)
    end.
Proof. reflexivity. Qed.


Lemma fetch_latest_cons (w : World) (o : FetchOutcome LatestBody) rest :
  latest w = o :: rest -> fetch_latest w = (o, set_latest rest w).
Proof. intros H. unfold fetch_latest. rewrite H. reflexivity. Qed.

Lemma set_timeouts_sleep (w : World) (d : Z) (ds : list Z) l :
  set_timeouts (timeouts (sleep d w) ++ ds) (set_latest l (sleep d w))
  = set_timeouts (timeouts w ++ d :: ds) (set_latest l w).
Proof.
  destruct w. unfold sleep, set_timeouts, set_latest. simpl.
  rewrite <- app_assoc. reflexivity.
Qed.

Lemma set_timeouts_nil (w : World) :
  set_timeouts (timeouts w ++ []) w = w.
Proof. destruct w. unfold set_timeouts. simpl. rewrite app_nil_r. reflexivity. Qed.

(** After [length fs] failed attempts the next attempt succeeds: the loop
    has waited once after each failure and installs the fetched rates. *)
Lemma fetchRates_from_succeeds (fs : list (FetchOutcome LatestBody)) :
  forall (steps : nat) (i retries : Z) (st : App) (w : World) data rest,
    latest w = fs ++ HttpResponse true (Some data) :: rest ->
    Forall (fun o => failed o = true) fs ->
    (length fs < steps)%nat ->
    i + Z.of_nat (length fs) < retries ->
    fetchRates_from steps i retries st w =
      let st' := set_hasRatesLoaded true
                   (set_currencyRates (<[latest_base data := one]> (latest_rates data)) st) in
      let w' := set_timeouts (timeouts w ++ backoff_delays i (length fs)) (set_latest rest w) in
      (true, st', saveRatesCache st' w').
Proof.
  induction fs as [|f fs IH]; intros steps i retries st w data rest Hl Hf Hs Hi.
  - destruct steps as [|steps]; [simpl in Hs; lia|].
    simpl in Hl. cbn [fetchRates_from]. rewrite (fetch_latest_cons _ _ _ Hl).
    cbn [length backoff_delays].
    replace (set_timeouts (timeouts w ++ []) (set_latest rest w)) with (set_latest rest w).
    + reflexivity.
    + destruct w. unfold set_timeouts, set_latest. simpl. rewrite app_nil_r. reflexivity.
  - destruct steps as [|steps]; [simpl in Hs; lia|].
    simpl in Hl. cbn [fetchRates_from]. rewrite (fetch_latest_cons _ _ _ Hl).
    inversion Hf as [|? ? Hf1 Hf2]; subst.
    cbn [length] in Hs, Hi.
    assert (Hne : (i =? retries - 1) = false) by (apply Z.eqb_neq; lia).
    assert (Hrec : fetchRates_from steps (i + 1) retries st
                     (sleep (2 ^ i * 1000) (set_latest (fs ++ HttpResponse true (Some data) :: rest) w))
                   = let st' := set_hasRatesLoaded true
                        (set_currencyRates (<[latest_base data := one]> (latest_rates data)) st) in
                     let w' := set_timeouts (timeouts w ++ backoff_delays i (S (length fs)))
                                 (set_latest rest w) in
                     (true, st', saveRatesCache st' w')).
    { rewrite (IH steps (i + 1) retries st _ data rest); [| destruct w; reflexivity | assumption | lia | lia].
      cbv zeta. rewrite set_timeouts_sleep.
      replace (set_latest rest (set_latest (fs ++ HttpResponse true (Some data) :: rest) w))
        with (set_latest rest w) by (destruct w; reflexivity).
      replace (timeouts (set_latest (fs ++ HttpResponse true (Some data) :: rest) w))
        with (timeouts w) by (destruct w; reflexivity).
      reflexivity. }
    destruct f as [|[] [b|]]; cbn [failed] in Hf1; try discriminate;
      rewrite Hne; exact Hrec.
Qed.

(** The state and world [fetchRates] ends in once the loop has given up
    on the network: whatever [loadRatesCache] makes of the cache. *)
Lemma fetchRates_from_exhausted :
  forall (steps : nat) (i retries : Z) (st : App) (w : World),
    Z.of_nat (S steps) = retries - i ->
    Forall (fun o => failed o = true) (take (S steps) (latest w)) ->
    fetchRates_from (S steps) i retries st w =
      let w' := set_timeouts (timeouts w ++ backoff_delays i steps)
                  (set_latest (drop (S steps) (latest w)) w) in
      if fst (loadRatesCache st w')
      then (true, set_hasRatesLoaded true (snd (loadRatesCache st w')), w')
      else (false, set_hasRatesLoaded false (showAlert AlertCritical (snd (loadRatesCache st w'))), w').
Proof.
  induction steps as [|steps IH]; intros i retries st w Hs Hf.
  - assert (He : (i =? retries - 1) = true) by (apply Z.eqb_eq; lia).
    cbn [fetchRates_from backoff_delays]. unfold fetch_latest.
    destruct (latest w) as [|o rest] eqn:Hl.
    + rewrite He. cbv zeta. change (drop 1 (@nil (FetchOutcome LatestBody))) with (@nil (FetchOutcome LatestBody)). rewrite <- Hl.
      replace (set_latest (latest w) w) with w by (destruct w; reflexivity).
      rewrite set_timeouts_nil.
      destruct (loadRatesCache st w) as [[] st']; reflexivity.
    + cbn [take] in Hf. inversion Hf as [|? ? Hf1 _]; subst.
      cbv zeta. change (drop 1 (o :: rest)) with rest.
      replace (set_timeouts (timeouts w ++ []) (set_latest rest w)) with (set_latest rest w)
        by (destruct w; unfold set_timeouts, set_latest; simpl; rewrite app_nil_r; reflexivity).
      destruct o as [|[] [b|]]; cbn [failed] in Hf1; try discriminate; rewrite He;
        destruct (loadRatesCache st (set_latest rest w)) as [[] st']; reflexivity.
  - assert (He : (i =? retries - 1) = false) by (apply Z.eqb_neq; lia).
    assert (Hrec : forall w1 l, latest w1 = l -> timeouts w1 = timeouts w ->
              set_latest (drop (S steps) l) w1 = set_latest (drop (S steps) l) w ->
              Forall (fun o => failed o = true) (take (S steps) l) ->
              fetchRates_from (S steps) (i + 1) retries st (sleep (2 ^ i * 1000) w1) =
              let w' := set_timeouts (timeouts w ++ backoff_delays i (S steps))
                          (set_latest (drop (S steps) l) w) in
              if fst (loadRatesCache st w')
              then (true, set_hasRatesLoaded true (snd (loadRatesCache st w')), w')
              else (false, set_hasRatesLoaded false (showAlert AlertCritical (snd (loadRatesCache st w'))), w')).
    { intros w1 l Hl Ht Hw Hfl.
      rewrite IH; [| lia | destruct w1; simpl in *; subst; exact Hfl].
      cbv zeta.
      replace (latest (sleep (2 ^ i * 1000) w1)) with l by (destruct w1; simpl in *; congruence).
      rewrite set_timeouts_sleep, Ht, Hw. reflexivity. }
    rewrite fetchRates_from_step. unfold fetch_latest.
    destruct (latest w) as [|o rest] eqn:Hl.
    + rewrite He. rewrite (Hrec w [] Hl eq_refl); [reflexivity| reflexivity | constructor].
    + cbn [take] in Hf. inversion Hf as [|? ? Hf1 Hf2]; subst.
      assert (Hr := Hrec (set_latest rest w) rest ltac:(destruct w; reflexivity)
                      ltac:(destruct w; reflexivity) ltac:(destruct w; reflexivity) Hf2).
      destruct o as [|[] [b|]]; cbn [failed] in Hf1; try discriminate; rewrite He; exact Hr.
Qed.

Lemma timeouts_saveRatesCache (st : App) (w : World) :
  timeouts (saveRatesCache st w) = timeouts w.
Proof.
  unfold saveRatesCache.
  destruct (negb (db st) || (size (currencyRates st) =? 0)%nat); [reflexivity|].
  destruct (setDoc_rejects w); reflexivity.
Qed.

Lemma latest_saveRatesCache (st : App) (w : World) :
  latest (saveRatesCache st w) = latest w.
Proof.
  unfold saveRatesCache.
  destruct (negb (db st) || (size (currencyRates st) =? 0)%nat); [reflexivity|].
  destruct (setDoc_rejects w); reflexivity.
Qed.

Lemma nth_backoff_delays (k : nat) :
  forall (i : Z) (j : nat), 0 <= i -> (j < k)%nat ->
    nth j (backoff_delays i k) 0 = 2 ^ (i + Z.of_nat j) * 1000.
Proof.
  induction k as [|k IH]; intros i j Hi Hj; [lia|].
  destruct j as [|j]; cbn [backoff_delays nth].
  - rewrite Z.add_0_r. reflexivity.
  - rewrite IH by lia. f_equal. f_equal. lia.
Qed.

Lemma length_backoff_delays (k : nat) : forall i, length (backoff_delays i k) = k.
Proof. induction k as [|k IH]; intros i; cbn [backoff_delays length]; [|rewrite IH]; reflexivity. Qed.

(** C2 (amended): when the first [length fs] attempts fail and the next
    one succeeds within [retries] attempts, [fetchRates] returns true having
    waited exactly once after each failed attempt, the wait after attempt
    [j] (counted from 0) being [2^j * 1000] ms; one failure before the
    success therefore costs a single wait of 1000 ms.  The fetched rates,
    with the self-rate of the reported base, become the store and the
    offline flag is off. *)
Theorem fetchRates_backoff_then_success (base : string) (retries : Z) (st : App) (w : World)
    (fs : list (FetchOutcome LatestBody)) (data : LatestBody)
    (rest : list (FetchOutcome LatestBody)) :
  latest w = fs ++ HttpResponse true (Some data) :: rest ->
  Forall (fun o => failed o = true) fs ->
  Z.of_nat (length fs) < retries ->
  exists st' w',
    fetchRates base retries st w = (true, st', w') /\
    timeouts w' = timeouts w ++ backoff_delays 0 (length fs) /\
    length (backoff_delays 0 (length fs)) = length fs /\
    (forall j, (j < length fs)%nat ->
       nth j (backoff_delays 0 (length fs)) 0 = 2 ^ Z.of_nat j * 1000) /\
    (length fs = 1%nat -> timeouts w' = timeouts w ++ [1000]) /\
    latest w' = rest /\
    isOfflineMode st' = false /\
    hasRatesLoaded st' = true /\
    currencyRates st' = <[latest_base data := one]> (latest_rates data).
Proof.
  intros Hl Hf Hr. unfold fetchRates.
  rewrite (fetchRates_from_succeeds fs _ 0 retries _ w data rest Hl Hf); [| lia | lia].
  cbv zeta. eexists _, _. split; [reflexivity|].
  rewrite timeouts_saveRatesCache, latest_saveRatesCache.
  assert (Ht : timeouts (set_timeouts (timeouts w ++ backoff_delays 0 (length fs)) (set_latest rest w))
               = timeouts w ++ backoff_delays 0 (length fs)) by reflexivity.
  split; [exact Ht|].
  split; [apply length_backoff_delays|].
  split; [intros j Hj; rewrite nth_backoff_delays by lia; reflexivity|].
  split; [intros H1; rewrite Ht, H1; reflexivity|].
  destruct st, w; repeat split; reflexivity.
Qed.

(** One failure, then success on the second of three attempts: a single
    wait of 1000 ms. *)
Lemma fetchRates_backoff_then_success_witness :
  latest world_second_attempt = [NetworkError] ++ HttpResponse true (Some latest_usd) :: [] /\
  Forall (fun o : FetchOutcome LatestBody => failed o = true) [NetworkError] /\
  Z.of_nat (length [@NetworkError LatestBody]) < 3 /\
  exists st' w',
    fetchRates API_BASE_CURRENCY 3 fresh_session world_second_attempt = (true, st', w') /\
    timeouts w' = [1000] /\
    isOfflineMode st' = false /\
    currencyRates st' !! "USD" = Some one.
Proof.
  assert (H1 : latest world_second_attempt
               = [NetworkError] ++ HttpResponse true (Some latest_usd) :: []) by reflexivity.
  assert (H2 : Forall (fun o : FetchOutcome LatestBody => failed o = true) [NetworkError])
    by (repeat constructor).
  assert (H3 : Z.of_nat (length [@NetworkError LatestBody]) < 3) by (simpl; lia).
  split; [exact H1|]. split; [exact H2|]. split; [exact H3|].
  destruct (fetchRates_backoff_then_success API_BASE_CURRENCY 3 fresh_session
              world_second_attempt [NetworkError] latest_usd [] H1 H2 H3)
    as (st' & w' & Hrun & _ & _ & _ & Hone & _ & Hoff & _ & Hrates).
  exists st', w'. split; [exact Hrun|]. split; [exact (Hone eq_refl)|].
  split; [exact Hoff|]. rewrite Hrates. reflexivity.
Defined.

(** C2 (as stated): with the first attempt failing and the second of three
    succeeding, the only wait is 1000 ms, not 2000 ms. *)
Lemma fetchRates_backoff_not_2000 :
  let '(ok, st', w') := fetchRates API_BASE_CURRENCY 3 fresh_session world_second_attempt in
  ok = true /\ isOfflineMode st' = false /\ timeouts w' = [1000] /\ timeouts w' <> [2000].
Proof. vm_compute. repeat split; congruence. Qed.

Lemma loadRatesCache_ignores_network (st : App) (w : World) l t :
  loadRatesCache st (set_timeouts t (set_latest l w)) = loadRatesCache st w.
Proof. destruct w. reflexivity. Qed.

(** What a successful [loadRatesCache] does to the session. *)
Lemma loadRatesCache_loaded (st : App) (w : World) (snap : RateSnapshot)
    (r : gmap string Number) :
  db st = true -> getDoc_rejects w = false ->
  cacheDoc w = Some snap -> JSON_parse (snapshot_rates snap) = Some r ->
  loadRatesCache st w =
    (true, showAlert (AlertLoadedFromCache (snapshot_timestamp snap))
             (set_cachedStatus_hidden false (set_isOfflineMode true (set_currencyRates r st)))).
Proof.
  intros Hdb Hget Hdoc Hparse. unfold loadRatesCache.
  rewrite Hdb, Hget, Hdoc, Hparse. reflexivity.
Qed.

(** C4: when every one of the [retries] attempts fails ([retries] at least
    one) and the cache document holds a snapshot that parses, [fetchRates]
    returns true with the store equal to the snapshot's rates and the
    offline flag set, after exactly [retries] attempts and the [retries - 1]
    waits between them. *)
Theorem fetchRates_falls_back_to_cache (base : string) (retries : Z) (st : App) (w : World)
    (snap : RateSnapshot) (r : gmap string Number) :
  0 < retries ->
  Forall (fun o => failed o = true) (take (Z.to_nat retries) (latest w)) ->
  db st = true ->
  getDoc_rejects w = false ->
  cacheDoc w = Some snap ->
  JSON_parse (snapshot_rates snap) = Some r ->
  exists st' w',
    fetchRates base retries st w = (true, st', w') /\
    currencyRates st' = r /\
    isOfflineMode st' = true /\
    hasRatesLoaded st' = true /\
    cachedStatus_hidden st' = false /\
    latest w' = drop (Z.to_nat retries) (latest w) /\
    timeouts w' = timeouts w ++ backoff_delays 0 (Z.to_nat retries - 1) /\
    cacheDoc w' = cacheDoc w.
Proof.
  intros Hr Hf Hdb Hget Hdoc Hparse. unfold fetchRates.
  destruct (Z.to_nat retries) as [|steps] eqn:Hn; [lia|].
  rewrite fetchRates_from_exhausted; [| lia | exact Hf].
  cbv zeta. rewrite loadRatesCache_ignores_network.
  rewrite (loadRatesCache_loaded _ w snap r); [| destruct st; exact Hdb | exact Hget | exact Hdoc | exact Hparse].
  cbn [fst snd]. eexists _, _. split; [reflexivity|].
  replace (S steps - 1)%nat with steps by lia.
  destruct st, w; repeat split; reflexivity.
Qed.

(** Three failed attempts with the USD rates in the cache: the store is
    the cached rates, the session is offline, and the waits were 1000 and
    2000 ms. *)
Lemma fetchRates_falls_back_to_cache_witness :
  0 < 3 /\
  Forall (fun o => failed o = true) (take (Z.to_nat 3) (latest (world_offline usd_rates))) /\
  db fresh_session = true /\
  getDoc_rejects (world_offline usd_rates) = false /\
  cacheDoc (world_offline usd_rates)
    = Some (mkSnapshot (JsonRates usd_rates) "2024-01-01T00:00:00.000Z" "USD") /\
  JSON_parse (JsonRates usd_rates) = Some usd_rates /\
  exists st' w',
    fetchRates API_BASE_CURRENCY 3 fresh_session (world_offline usd_rates) = (true, st', w') /\
    currencyRates st' = usd_rates /\
    isOfflineMode st' = true /\
    timeouts w' = [1000; 2000].
Proof.
  assert (H1 : 0 < 3) by lia.
  assert (H2 : Forall (fun o : FetchOutcome LatestBody => failed o = true)
                 (take (Z.to_nat 3) (latest (world_offline usd_rates))))
    by (repeat constructor).
  split; [exact H1|]. split; [exact H2|]. repeat (split; [reflexivity|]).
  destruct (fetchRates_falls_back_to_cache API_BASE_CURRENCY 3 fresh_session
              (world_offline usd_rates) _ usd_rates H1 H2 eq_refl eq_refl eq_refl eq_refl)
    as (st' & w' & Hrun & Hrates & Hoff & _ & _ & _ & Ht & _).
  exists st', w'. split; [exact Hrun|]. split; [exact Hrates|]. split; [exact Hoff|].
  exact Ht.
Defined.

(** The snapshot written through after a live fetch keeps the self-rate. *)
Lemma saveRatesCache_snapshot (st : App) (w : World) (b : string)
    (rates : gmap string Number) :
  db st = true -> setDoc_rejects w = false ->
  currencyRates st = <[b := one]> rates ->
  exists snap r,
    cacheDoc (saveRatesCache st w) = Some snap /\
    JSON_parse (snapshot_rates snap) = Some r /\
    r !! b = Some one.
Proof.
  intros Hdb Hset Hr. unfold saveRatesCache. rewrite Hdb, Hset, Hr. cbn [negb orb].
  destruct (size (<[b := one]> rates) =? 0)%nat eqn:Hsize.
  - apply Nat.eqb_eq, map_size_empty_iff in Hsize.
    exfalso. exact (insert_non_empty _ _ _ Hsize).
  - eexists _, (omap JSON_number (<[b := one]> rates)).
    split; [reflexivity|]. split; [reflexivity|].
    cbn [JSON_stringify snapshot_rates JSON_parse].
    rewrite lookup_omap, lookup_insert_eq. reflexivity.
Qed.

(** Whenever the loop of [fetchRates] returns true, the store was replaced
    in one of two ways. *)
Lemma fetchRates_from_true (steps : nat) :
  forall (i retries : Z) (st : App) (w : World) (st' : App) (w' : World),
    fetchRates_from steps i retries st w = (true, st', w') ->
    isOfflineMode st = false ->
    (isOfflineMode st' = false /\
     exists data, In (HttpResponse true (Some data)) (latest w) /\
       currencyRates st' = <[latest_base data := one]> (latest_rates data) /\
       (db st = true -> setDoc_rejects w = false ->
        exists snap r, cacheDoc w' = Some snap /\
          JSON_parse (snapshot_rates snap) = Some r /\ r !! latest_base data = Some one))
    \/
    (isOfflineMode st' = true /\
     exists snap r, cacheDoc w = Some snap /\
       JSON_parse (snapshot_rates snap) = Some r /\ currencyRates st' = r).
Proof.
  induction steps as [|steps IH]; intros i retries st w st' w' Hrun Hon.
  - discriminate Hrun.
  - rewrite fetchRates_from_step in Hrun. unfold fetch_latest in Hrun.
    assert (Hcache : forall w1, cacheDoc w1 = cacheDoc w ->
              (let '(cacheLoaded, st0) := loadRatesCache st w1 in
               if cacheLoaded then (cacheLoaded, set_hasRatesLoaded true st0, w1)
               else (cacheLoaded, set_hasRatesLoaded false (showAlert AlertCritical st0), w1))
              = (true, st', w') ->
              isOfflineMode st' = true /\
              exists snap r, cacheDoc w = Some snap /\
                JSON_parse (snapshot_rates snap) = Some r /\ currencyRates st' = r).
    { intros w1 Hc. unfold loadRatesCache. rewrite Hc.
      destruct (negb (db st)); [discriminate|].
      destruct (getDoc_rejects w1); [discriminate|].
      destruct (cacheDoc w) as [snap|]; [|discriminate].
      destruct (JSON_parse (snapshot_rates snap)) as [r|] eqn:Hp; [|discriminate].
      intros H. injection H as <- _. split; [destruct st; reflexivity|].
      exists snap, r. repeat split; try assumption. destruct st; reflexivity. }
    assert (Hnext : forall w1 l, latest w1 = l -> cacheDoc w1 = cacheDoc w ->
              setDoc_rejects w1 = setDoc_rejects w ->
              (forall o, In o l -> In o (latest w)) ->
              fetchRates_from steps (i + 1) retries st (sleep (2 ^ i * 1000) w1) = (true, st', w') ->
              (isOfflineMode st' = false /\
               exists data, In (HttpResponse true (Some data)) (latest w) /\
                 currencyRates st' = <[latest_base data := one]> (latest_rates data) /\
                 (db st = true -> setDoc_rejects w = false ->
                  exists snap r, cacheDoc w' = Some snap /\
                    JSON_parse (snapshot_rates snap) = Some r /\
                    r !! latest_base data = Some one))
              \/
              (isOfflineMode st' = true /\
               exists snap r, cacheDoc w = Some snap /\
                 JSON_parse (snapshot_rates snap) = Some r /\ currencyRates st' = r)).
    { intros w1 l Hl Hc Hsd Hin H. apply IH in H; [|exact Hon].
      replace (latest (sleep (2 ^ i * 1000) w1)) with l in H by (destruct w1; simpl in *; congruence).
      replace (cacheDoc (sleep (2 ^ i * 1000) w1)) with (cacheDoc w) in H
        by (destruct w1; simpl in *; congruence).
      replace (setDoc_rejects (sleep (2 ^ i * 1000) w1)) with (setDoc_rejects w) in H
        by (destruct w1; simpl in *; congruence).
      destruct H as [(Hoff & data & Hd & Hr & Hsnap)|H]; [left|right; exact H].
      split; [exact Hoff|]. exists data. split; [apply Hin, Hd|]. split; assumption. }
    destruct (latest w) as [|o rest] eqn:Hl.
    + destruct (i =? retries - 1).
      * right. apply (Hcache w eq_refl Hrun).
      * apply (Hnext w [] Hl eq_refl eq_refl); [intros o [] | exact Hrun].
    + assert (Hc : cacheDoc (set_latest rest w) = cacheDoc w) by (destruct w; reflexivity).
      assert (Hsd : setDoc_rejects (set_latest rest w) = setDoc_rejects w)
        by (destruct w; reflexivity).
      assert (Hrest : forall o', In o' rest -> In o' (o :: rest)) by (intros; right; assumption).
      assert (Hl' : latest (set_latest rest w) = rest) by (destruct w; reflexivity).
      destruct o as [|[] [data|]];
        try (destruct (i =? retries - 1);
             [right; apply (Hcache _ Hc Hrun) | apply (Hnext _ rest Hl' Hc Hsd Hrest Hrun)]).
      injection Hrun as <- <-. left. split; [destruct st; exact Hon|].
      exists data. split; [left; reflexivity|]. split; [destruct st; reflexivity|].
      intros Hdb Hset. apply (saveRatesCache_snapshot _ _ _ (latest_rates data)).
      * destruct st; exact Hdb.
      * rewrite Hsd. exact Hset.
      * destruct st; reflexivity.
Qed.

(** C9: whenever [fetchRates] returns true the store has been replaced
    either by a live answer, and then maps the base currency that answer
    reports to exactly 1, as does the snapshot written through to the
    cache; or by the cached snapshot.  The only writer of that snapshot is
    [saveRatesCache], which [fetchRates] calls right after the self-rate is
    set: when the snapshot is the one an earlier successful live fetch left
    in the cache, the store loaded from it maps the base currency of that
    fetch to exactly 1 as well. *)
Theorem fetchRates_replaces_store (base : string) (retries : Z) (st : App) (w : World)
    (st' : App) (w' : World) :
  fetchRates base retries st w = (true, st', w') ->
  (isOfflineMode st' = false /\
   exists data, In (HttpResponse true (Some data)) (latest w) /\
     currencyRates st' = <[latest_base data := one]> (latest_rates data) /\
     currencyRates st' !! latest_base data = Some one /\
     (db st = true -> setDoc_rejects w = false ->
      exists snap r, cacheDoc w' = Some snap /\
        JSON_parse (snapshot_rates snap) = Some r /\ r !! latest_base data = Some one))
  \/
  (isOfflineMode st' = true /\
   exists snap r, cacheDoc w = Some snap /\
     JSON_parse (snapshot_rates snap) = Some r /\
     currencyRates st' = r /\
     forall (baseA : string) (retriesA : Z) (stA : App) (wA : World) (stA' : App) (wA' : World),
       fetchRates baseA retriesA stA wA = (true, stA', wA') ->
       isOfflineMode stA' = false ->
       db stA = true ->
       setDoc_rejects wA = false ->
       cacheDoc wA' = cacheDoc w ->
       exists data, In (HttpResponse true (Some data)) (latest wA) /\
         currencyRates stA' = <[latest_base data := one]> (latest_rates data) /\
         currencyRates st' !! latest_base data = Some one).
Proof.
  unfold fetchRates. intros Hrun.
  apply fetchRates_from_true in Hrun; [| destruct st; reflexivity].
  destruct Hrun as [(Hoff & data & Hin & Hr & Hsnap)|(Hoff & snap & r & Hc & Hp & Hr)].
  - left. split; [exact Hoff|]. exists data.
    split; [exact Hin|]. split; [exact Hr|].
    split; [rewrite Hr; apply lookup_insert_eq|].
    intros Hdb Hset. apply Hsnap; [destruct st; exact Hdb | exact Hset].
  - right. split; [exact Hoff|]. exists snap, r.
    split; [exact Hc|]. split; [exact Hp|]. split; [exact Hr|].
    intros baseA retriesA stA wA stA' wA' HrunA HoffA HdbA HsetA Hsame.
    apply fetchRates_from_true in HrunA; [| destruct stA; reflexivity].
    destruct HrunA as [(_ & data & Hin & HrA & Hwritten)|(Hcontra & _)];
      [|rewrite HoffA in Hcontra; discriminate Hcontra].
    exists data. split; [exact Hin|]. split; [exact HrA|].
    destruct Hwritten as (snapA & rA & HcA & HpA & Hone);
      [destruct stA; exact HdbA | exact HsetA |].
    rewrite Hsame, Hc in HcA. injection HcA as <-.
    rewrite Hp in HpA. injection HpA as <-.
    rewrite Hr. exact Hone.
Qed.

(** One session fetches live rates for the base USD and leaves a snapshot;
    a later session finds the network down and loads that snapshot: in both
    the store maps USD to 1. *)
Lemma fetchRates_replaces_store_witness :
  let first := fetchRates API_BASE_CURRENCY 3 fresh_session world_second_attempt in
  let later :=
    fetchRates API_BASE_CURRENCY 3 fresh_session
      (mkWorld [NetworkError; NetworkError; NetworkError] (cacheDoc (snd first)) false false
               "2024-01-03T00:00:00.000Z" []) in
  first = (true, snd (fst first), snd first) /\
  isOfflineMode (snd (fst first)) = false /\
  currencyRates (snd (fst first)) !! "USD" = Some one /\
  later = (true, snd (fst later), snd later) /\
  isOfflineMode (snd (fst later)) = true /\
  currencyRates (snd (fst later)) !! "USD" = Some one.
Proof.
  intros first later.
  assert (Hfirst : first = (true, snd (fst first), snd first)) by (vm_compute; reflexivity).
  assert (Hlater : later = (true, snd (fst later), snd later)) by (vm_compute; reflexivity).
  assert (Hoff : isOfflineMode (snd (fst first)) = false) by (vm_compute; reflexivity).
  assert (Hoff' : isOfflineMode (snd (fst later)) = true) by (vm_compute; reflexivity).
  split; [exact Hfirst|]. split; [exact Hoff|].
  destruct (fetchRates_replaces_store API_BASE_CURRENCY 3 fresh_session world_second_attempt
              _ _ Hfirst) as [(_ & data & Hin & _ & Hone & _)|(Hcontra & _)];
    [|rewrite Hoff in Hcontra; discriminate Hcontra].
  destruct Hin as [Hin|[Hin|[]]]; [discriminate Hin|]. injection Hin as <-.
  split; [exact Hone|]. split; [exact Hlater|]. split; [exact Hoff'|].
  destruct (fetchRates_replaces_store API_BASE_CURRENCY 3 fresh_session _ _ _ Hlater)
    as [(Hcontra & _)|(_ & snap & r & _ & _ & _ & Hwritten)];
    [rewrite Hoff' in Hcontra; discriminate Hcontra|].
  destruct (Hwritten API_BASE_CURRENCY 3 fresh_session world_second_attempt _ _
              Hfirst Hoff eq_refl eq_refl eq_refl) as (data & Hin & _ & Hone').
  destruct Hin as [Hin|[Hin|[]]]; [discriminate Hin|]. injection Hin as <-.
  exact Hone'.
Defined.

(** ** The conversion *)

(** The post-state of the three early returns of [updateConversion]. *)
Lemma updateConversion_not_ready (rev : Revision) (st : App) :
  hasRatesLoaded st = false ->
  updateConversion rev st = showAlert AlertStillLoading st.
Proof. intros H. unfold updateConversion. rewrite H. reflexivity. Qed.

Lemma updateConversion_invalid_amount (rev : Revision) (st : App) :
  hasRatesLoaded st = true ->
  amount_rejected (fromAmount_number st) = true ->
  updateConversion rev st =
    set_totalDisplay "0.00"
      (match rev with
       | Scripts_app => showAlert AlertInvalidAmount st
       | Part_000 =>
           if negb (is_blank (fromAmount_value st)) then showAlert AlertInvalidAmount st
           else st
       end).
Proof.
  intros H1 H2. unfold updateConversion, amount_rejected in *.
  rewrite H1. cbv zeta. cbn [negb]. rewrite H2. reflexivity.
Qed.

Lemma updateConversion_missing_rate (rev : Revision) (st : App) :
  hasRatesLoaded st = true ->
  amount_rejected (fromAmount_number st) = false ->
  ToBoolean (currencyRates st !! fromCurrency_value st)
    && ToBoolean (currencyRates st !! toCurrency_value st) = false ->
  updateConversion rev st =
    set_totalDisplay "0.00"
      (showAlert (AlertMissingRate (fromCurrency_value st) (toCurrency_value st)) st).
Proof.
  intros H1 H2 H3. unfold updateConversion, amount_rejected in *.
  rewrite H1. cbv zeta. cbn [negb]. rewrite H2.
  rewrite <- negb_andb, H3. reflexivity.
Qed.

(** ... and of the path that reaches the arithmetic. *)
Lemma updateConversion_converted (rev : Revision) (st : App) :
  hasRatesLoaded st = true ->
  amount_rejected (fromAmount_number st) = false ->
  ToBoolean (currencyRates st !! fromCurrency_value st)
    && ToBoolean (currencyRates st !! toCurrency_value st) = true ->
  updateConversion rev st =
    let rateFrom := ToNumber (currencyRates st !! fromCurrency_value st) in
    let rateTo := ToNumber (currencyRates st !! toCurrency_value st) in
    let st1 :=
      set_totalDisplay (toFixed (result (fromAmount_number st) rateFrom rateTo) 2)
        (set_rateDisplay
           ("1 " +:+ fromCurrency_value st +:+ " = "
                 +:+ toFixed (displayRate rateFrom rateTo) 4 +:+ " " +:+ toCurrency_value st)
           st) in
    if negb (isOfflineMode st) then
      call_fetchHistoricalRates (fromCurrency_value st) (toCurrency_value st) st1
    else set_historicalRates ViewRequiresLiveConnection st1.
Proof.
  intros H1 H2 H3. unfold updateConversion, amount_rejected in *.
  rewrite H1. cbv zeta. cbn [negb]. rewrite H2.
  rewrite <- negb_andb, H3. cbn [negb].
  destruct st; reflexivity.
Qed.

Lemma ToBoolean_Some (v : option Number) :
  ToBoolean v = true ->
  exists r, v = Some r /\ r <> S754_nan /\ forall s, r <> S754_zero s.
Proof.
  destruct v as [[s|s| |s m e]|]; cbn [ToBoolean]; intros H; try discriminate;
    eexists; (split; [reflexivity|]); split; intros; discriminate.
Qed.


(** [nearest_scaled] rounds to the nearest integer, upwards on a tie. *)
Lemma nearest_scaled_rounds (m : positive) (e : Z) (f : nat) :
  rounds_to (nearest_scaled m e f) m e f.
Proof.
  unfold rounds_to, nearest_scaled.
  destruct (Z.leb_spec 0 e) as [He|He].
  - rewrite (Z.max_r 0 e), (Z.max_l 0 (- e)) by lia. cbn [Z.pow]. lia.
  - rewrite (Z.max_l 0 e), (Z.max_r 0 (- e)) by lia.
    replace (2 ^ (1 - e)) with (2 * 2 ^ (- e)) by (rewrite <- Z.pow_succ_r by lia; f_equal; lia).
    change (2 ^ 0) with 1. rewrite Z.mul_1_r.
    assert (Hd : 0 < 2 ^ (- e)) by (apply Z.pow_pos_nonneg; lia).
    set (D := 2 ^ (- e)) in *. set (N := 2 * Z.pos m * 10 ^ Z.of_nat f).
    pose proof (Z.div_mod (N + D) (2 * D) ltac:(lia)) as Hdm.
    pose proof (Z.mod_pos_bound (N + D) (2 * D) ltac:(lia)) as Hb.
    set (q := (N + D) / (2 * D)) in *. lia.
Qed.

(** Below 10^21, [toFixed] prints the rounded integer with [f] decimals. *)
Lemma toFixed_rounds (s : bool) (m : positive) (e : Z) (f : nat) :
  at_least_1e21 m e = false ->
  exists n, rounds_to n m e f /\
    toFixed (S754_finite s m e) f = (if s then "-" else "") +:+ fixed_point n f.
Proof.
  intros H. exists (nearest_scaled m e f). split; [apply nearest_scaled_rounds|].
  cbn [toFixed]. rewrite H. reflexivity.
Qed.

(** C1 (amended): with rates loaded, an amount that passes the amount check
    and a store holding a (truthy) rate for both currencies,
    [updateConversion] computes [baseValue = amount / store[from]], [total = baseValue *
    store[to]] and [rate = store[to] / store[from]] in full binary64
    precision, and only the two displayed strings are rounded:
    [rate.toFixed(4)] and [total.toFixed(2)], which for a finite value
    below 10^21 are the nearest decimals with 4 and 2 digits.  Nothing but
    the display is written. *)
Theorem updateConversion_converts (rev : Revision) (st : App) (rateFrom rateTo : Number) :
  hasRatesLoaded st = true ->
  amount_rejected (fromAmount_number st) = false ->
  currencyRates st !! fromCurrency_value st = Some rateFrom ->
  currencyRates st !! toCurrency_value st = Some rateTo ->
  ToBoolean (Some rateFrom) = true ->
  ToBoolean (Some rateTo) = true ->
  let amount := fromAmount_number st in
  let st' := updateConversion rev st in
  baseValue amount rateFrom = Number_div amount rateFrom /\
  result amount rateFrom rateTo = Number_mul (baseValue amount rateFrom) rateTo /\
  displayRate rateFrom rateTo = Number_div rateTo rateFrom /\
  rateDisplay st' =
    "1 " +:+ fromCurrency_value st +:+ " = " +:+ toFixed (displayRate rateFrom rateTo) 4
         +:+ " " +:+ toCurrency_value st /\
  totalDisplay st' = toFixed (result amount rateFrom rateTo) 2 /\
  (forall s m e, result amount rateFrom rateTo = S754_finite s m e ->
     at_least_1e21 m e = false ->
     exists n, rounds_to n m e 2 /\
       totalDisplay st' = (if s then "-" else "") +:+ fixed_point n 2) /\
  (forall s m e, displayRate rateFrom rateTo = S754_finite s m e ->
     at_least_1e21 m e = false ->
     exists n, rounds_to n m e 4 /\
       toFixed (displayRate rateFrom rateTo) 4 = (if s then "-" else "") +:+ fixed_point n 4) /\
  alerts st' = alerts st /\
  currencyRates st' = currencyRates st /\
  isOfflineMode st' = isOfflineMode st /\
  hasRatesLoaded st' = hasRatesLoaded st.
Proof.
  intros Hl Ha Hf Ht Hbf Hbt amount st'.
  assert (Hst : st' =
    let st1 :=
      set_totalDisplay (toFixed (result amount rateFrom rateTo) 2)
        (set_rateDisplay
           ("1 " +:+ fromCurrency_value st +:+ " = "
                 +:+ toFixed (displayRate rateFrom rateTo) 4 +:+ " " +:+ toCurrency_value st)
           st) in
    if negb (isOfflineMode st) then
      call_fetchHistoricalRates (fromCurrency_value st) (toCurrency_value st) st1
    else set_historicalRates ViewRequiresLiveConnection st1).
  { subst st'. rewrite updateConversion_converted; try assumption.
    - rewrite Hf, Ht. reflexivity.
    - rewrite Hf, Ht, Hbf, Hbt. reflexivity. }
  assert (Htotal : totalDisplay st' = toFixed (result amount rateFrom rateTo) 2).
  { rewrite Hst. destruct st as [? ? [] ? ? ? ? ? ? ? ? ? ? ?]; reflexivity. }
  split; [reflexivity|]. split; [reflexivity|]. split; [reflexivity|].
  split; [rewrite Hst; destruct st as [? ? [] ? ? ? ? ? ? ? ? ? ? ?]; reflexivity|].
  split; [exact Htotal|].
  split.
  { intros s m e He Hlt. rewrite Htotal, He. destruct (toFixed_rounds s m e 2 Hlt) as (n & Hn & Hs).
    exists n. split; assumption. }
  split.
  { intros s m e He Hlt. rewrite He. destruct (toFixed_rounds s m e 4 Hlt) as (n & Hn & Hs).
    exists n. split; assumption. }
  rewrite Hst. destruct st as [? ? [] ? ? ? ? ? ? ? ? ? ? ?]; repeat split; reflexivity.
Qed.

(** 100 USD to EUR at 0.92. *)
Lemma updateConversion_converts_witness :
  hasRatesLoaded (session usd_rates "100" hundred "USD" "EUR") = true /\
  amount_rejected hundred = false /\
  usd_rates !! "USD" = Some one /\
  usd_rates !! "EUR" = Some (decimal 92 2) /\
  ToBoolean (Some one) = true /\
  ToBoolean (Some (decimal 92 2)) = true /\
  rateDisplay (updateConversion Scripts_app (session usd_rates "100" hundred "USD" "EUR"))
    = "1 USD = 0.9200 EUR" /\
  totalDisplay (updateConversion Scripts_app (session usd_rates "100" hundred "USD" "EUR"))
    = "92.00".
Proof.
  do 6 (split; [reflexivity|]).
  destruct (updateConversion_converts Scripts_app (session usd_rates "100" hundred "USD" "EUR")
              one (decimal 92 2) eq_refl eq_refl eq_refl eq_refl eq_refl eq_refl)
    as (_ & _ & _ & Hr & Ht & _).
  split; [rewrite Hr | rewrite Ht]; reflexivity.
Defined.

(** C1 (as stated): 10^21 USD is a valid positive amount and its total in
    NGN is a finite number, yet the total is displayed in exponent notation
    and not rounded to two decimals, in both revisions; for 10^308 USD the
    total overflows and is displayed as Infinity. *)
Lemma updateConversion_total_not_two_decimals :
  let st := session usd_rates "1e21" (Number_of_Z (10 ^ 21)) "USD" "NGN" in
  let huge := session usd_rates "1e308" (Number_of_Z (10 ^ 308)) "USD" "NGN" in
  hasRatesLoaded st = true /\
  amount_rejected (fromAmount_number st) = false /\
  is_finite (fromAmount_number st) = true /\
  is_finite (result (fromAmount_number st) one (decimal 15005 1)) = true /\
  totalDisplay (updateConversion Scripts_app st) = "1.5005e+24" /\
  totalDisplay (updateConversion Part_000 st) = "1.5005e+24" /\
  amount_rejected (fromAmount_number huge) = false /\
  is_finite (fromAmount_number huge) = true /\
  totalDisplay (updateConversion Part_000 huge) = "Infinity".
Proof. vm_compute. repeat split. Qed.




(** A field that holds a no-break space alone (U+00A0, which [trim]
    strips) parses to NaN: the later revision resets the total and raises
    no alert, the earlier one raises the invalid-amount alert; a field
    holding a letter raises it in both. *)
Lemma updateConversion_blank_field :
  let nbsp := String (ascii_of_nat 194) (String (ascii_of_nat 160) EmptyString) in
  is_blank nbsp = true /\
  is_blank " " = true /\
  is_blank "x" = false /\
  alerts (updateConversion Part_000 (session usd_rates nbsp S754_nan "USD" "EUR")) = [] /\
  totalDisplay (updateConversion Part_000 (session usd_rates nbsp S754_nan "USD" "EUR"))
    = "0.00" /\
  alerts (updateConversion Scripts_app (session usd_rates nbsp S754_nan "USD" "EUR"))
    = [AlertInvalidAmount] /\
  alerts (updateConversion Part_000 (session usd_rates "x" S754_nan "USD" "EUR"))
    = [AlertInvalidAmount].
Proof. vm_compute. repeat split. Qed.







(** C10: once rates are loaded and the amount is accepted, a store entry
    for either currency that is absent, zero (of either sign) or NaN ends
    [updateConversion] at the missing-rate alert with a total of "0.00";
    and whenever it does not end there, both rates exist and neither is
    zero or NaN, so the divisor [store[from]] of the two divisions is
    nonzero. *)
Theorem updateConversion_divisor_nonzero (rev : Revision) (st : App) :
  hasRatesLoaded st = true ->
  amount_rejected (fromAmount_number st) = false ->
  let st' := updateConversion rev st in
  let missing :=
    set_totalDisplay "0.00"
      (showAlert (AlertMissingRate (fromCurrency_value st) (toCurrency_value st)) st) in
  (forall code,
     code = fromCurrency_value st \/ code = toCurrency_value st ->
     currencyRates st !! code = None \/
     currencyRates st !! code = Some S754_nan \/
     (exists s, currencyRates st !! code = Some (S754_zero s)) ->
     st' = missing) /\
  (st' <> missing ->
   exists rateFrom rateTo,
     currencyRates st !! fromCurrency_value st = Some rateFrom /\
     currencyRates st !! toCurrency_value st = Some rateTo /\
     rateFrom <> S754_nan /\ (forall s, rateFrom <> S754_zero s) /\
     rateTo <> S754_nan /\ (forall s, rateTo <> S754_zero s) /\
     totalDisplay st' = toFixed (Number_mul (Number_div (fromAmount_number st) rateFrom) rateTo) 2).
Proof.
  intros Hl Ha st' missing. split.
  - intros code Hcode Hfalsy.
    apply updateConversion_missing_rate; try assumption.
    assert (Hb : ToBoolean (currencyRates st !! code) = false).
    { destruct Hfalsy as [H|[H|[s H]]]; rewrite H; reflexivity. }
    destruct Hcode as [-> | ->]; rewrite Hb; [reflexivity | apply andb_false_r].
  - intros Hne.
    destruct (ToBoolean (currencyRates st !! fromCurrency_value st)
              && ToBoolean (currencyRates st !! toCurrency_value st)) eqn:Hb.
    + apply andb_prop in Hb as [Hbf Hbt].
      destruct (ToBoolean_Some _ Hbf) as (rateFrom & Hf & Hfn & Hfz).
      destruct (ToBoolean_Some _ Hbt) as (rateTo & Ht & Htn & Htz).
      exists rateFrom, rateTo. repeat (split; [assumption|]).
      subst st'. rewrite updateConversion_converted;
        [| assumption | assumption | rewrite Hbf, Hbt; reflexivity].
      rewrite Hf, Ht. destruct st as [? ? [] ? ? ? ? ? ? ? ? ? ? ?]; reflexivity.
    + exfalso. apply Hne. apply updateConversion_missing_rate; assumption.
Qed.

(** A rate of 0 for EUR: converting 100 EUR ends at the missing-rate alert. *)
Lemma updateConversion_divisor_nonzero_witness :
  hasRatesLoaded (session (<["EUR" := S754_zero false]> usd_rates) "100" hundred "EUR" "USD")
    = true /\
  amount_rejected hundred = false /\
  updateConversion Scripts_app
    (session (<["EUR" := S754_zero false]> usd_rates) "100" hundred "EUR" "USD")
  = set_totalDisplay "0.00"
      (showAlert (AlertMissingRate "EUR" "USD")
         (session (<["EUR" := S754_zero false]> usd_rates) "100" hundred "EUR" "USD")).
Proof.
  split; [reflexivity|]. split; [reflexivity|].
  apply (proj1 (updateConversion_divisor_nonzero Scripts_app
                  (session (<["EUR" := S754_zero false]> usd_rates) "100" hundred "EUR" "USD")
                  eq_refl eq_refl) "EUR").
  - left. reflexivity.
  - right. right. exists false. reflexivity.
Defined.

(** ** The historical trend *)

Lemma length_sort_insert (x : HistoricalPoint) (l : list HistoricalPoint) :
  length (sort_insert x l) = S (length l).
Proof.
  induction l as [|y l IH]; cbn [sort_insert]; [reflexivity|].
  destruct (0 <? compare_dates x y); cbn [length]; [rewrite IH|]; reflexivity.
Qed.

Lemma length_sort_by_date (l : list HistoricalPoint) :
  length (sort_by_date l) = length l.
Proof.
  induction l as [|x l IH]; cbn [sort_by_date length]; [reflexivity|].
  rewrite length_sort_insert, IH. reflexivity.
Qed.

Lemma sort_insert_perm (x : HistoricalPoint) (l : list HistoricalPoint) :
  sort_insert x l ≡ₚ x :: l.
Proof.
  induction l as [|y l IH]; cbn [sort_insert]; [reflexivity|].
  destruct (0 <? compare_dates x y); [|reflexivity].
  rewrite IH. apply Permutation_swap.
Qed.

Lemma sort_by_date_perm (l : list HistoricalPoint) : sort_by_date l ≡ₚ l.
Proof.
  induction l as [|x l IH]; cbn [sort_by_date]; [reflexivity|].
  rewrite sort_insert_perm, IH. reflexivity.
Qed.

Lemma compare_dates_flip (a b : HistoricalPoint) :
  compare_dates a b = - compare_dates b a.
Proof. unfold compare_dates. lia. Qed.

Lemma sort_insert_ascending (x : HistoricalPoint) (l : list HistoricalPoint) :
  ascending l -> ascending (sort_insert x l).
Proof.
  unfold ascending. induction l as [|y l IH]; intros Hs; cbn [sort_insert].
  - repeat constructor.
  - destruct (Z.ltb_spec 0 (compare_dates x y)) as [Hgt|Hle].
    + apply Sorted_inv in Hs as [Hs Hhd]. constructor; [apply IH, Hs|].
      destruct l as [|z l]; cbn [sort_insert].
      * constructor. rewrite compare_dates_flip. lia.
      * destruct (0 <? compare_dates x z).
        -- inversion Hhd; subst. constructor. assumption.
        -- constructor. rewrite compare_dates_flip. lia.
    + constructor; [exact Hs|]. constructor. exact Hle.
Qed.

Lemma sort_by_date_ascending (l : list HistoricalPoint) : ascending (sort_by_date l).
Proof.
  induction l as [|x l IH]; cbn [sort_by_date].
  - constructor.
  - apply sort_insert_ascending, IH.
Qed.

(** A series already in ascending order is left as it is. *)
Lemma sort_by_date_of_ascending (l : list HistoricalPoint) :
  ascending l -> sort_by_date l = l.
Proof.
  unfold ascending. induction l as [|x l IH]; intros Hs; cbn [sort_by_date]; [reflexivity|].
  apply Sorted_inv in Hs as [Hs Hhd]. rewrite (IH Hs).
  destruct Hhd as [|y l' Hxy]; cbn [sort_insert]; [reflexivity|].
  replace (0 <? compare_dates x y) with false by (symmetry; apply Z.ltb_ge; exact Hxy).
  reflexivity.
Qed.

(** The view written when the request succeeds and its series has dates. *)
Lemma fetchHistoricalRates_series (from to : string)
    (series : list (Date * gmap string Number)) (st : App) :
  hasRatesLoaded st = true ->
  isOfflineMode st = false ->
  series <> [] ->
  fetchHistoricalRates from to (series_response series) st =
    let rates := sort_by_date (collect_points to series) in
    if (length rates <? 2)%nat
    then set_historicalRates (ViewNotEnoughPoints (length rates)) st
    else set_historicalRates (ViewTrend (trend rates)) st.
Proof.
  intros Hl Ho Hne. unfold fetchHistoricalRates, series_response.
  rewrite Hl, Ho. cbn [negb orb series_rates].
  destruct series as [|p series]; [contradiction|]. reflexivity.
Qed.

Lemma nth_lookup_point (l : list HistoricalPoint) (i : nat) :
  (i < length l)%nat -> l !! i = Some (nth i l no_point).
Proof.
  revert i. induction l as [|x l IH]; intros i Hi; cbn [length] in Hi; [lia|].
  destruct i as [|i]; [reflexivity|]. cbn. apply IH. lia.
Qed.

(** C5: with rates loaded from the network and a series whose filtered,
    date-sorted points number at least two, [fetchHistoricalRates] shows
    the trend from the first to the last of these points: the change is
    [end.rate - start.rate], the percentage is [change / start.rate * 100]
    printed with [toFixed(2)], and the direction is increased, decreased or
    stable as the change is above, below or neither above nor below 0.  The
    points are those of the series with a truthy rate, in ascending date
    order, and a filtered series that is already ascending is used as it
    is.  For the two points (d1, 1.10) and (d2, 1.20), d1 not after d2,
    the direction is increased and the percentage is "9.09". *)
Theorem fetchHistoricalRates_trend :
  (forall (from to : string) (series : list (Date * gmap string Number)) (st : App),
     hasRatesLoaded st = true ->
     isOfflineMode st = false ->
     let rates := sort_by_date (collect_points to series) in
     (2 <= length rates)%nat ->
     ascending rates /\
     rates ≡ₚ collect_points to series /\
     (ascending (collect_points to series) -> rates = collect_points to series) /\
     exists first last,
       rates !! 0%nat = Some first /\
       rates !! (length rates - 1)%nat = Some last /\
       let change := Number_sub (rate last) (rate first) in
       fetchHistoricalRates from to (series_response series) st =
         set_historicalRates
           (ViewTrend
              (mkTrend (length rates) first last change
                 (toFixed (Number_mul (Number_div change (rate first)) hundred) 2)
                 (if Number_gt change zero then Increased
                  else if Number_lt change zero then Decreased
                  else Stable)))
           st) /\
  (forall (from to : string) (d1 d2 : Date) (st : App),
     hasRatesLoaded st = true ->
     isOfflineMode st = false ->
     Date_getTime d1 <= Date_getTime d2 ->
     exists t,
       fetchHistoricalRates from to
         (series_response [(d1, {[to := decimal 110 2]}); (d2, {[to := decimal 120 2]})]) st
       = set_historicalRates (ViewTrend t) st /\
       startPoint t = mkPoint d1 (decimal 110 2) /\
       endPoint t = mkPoint d2 (decimal 120 2) /\
       trendText t = Increased /\
       percentageChange t = "9.09").
Proof.
  split.
  - intros from to series st Hl Ho rates Hlen.
    split; [apply sort_by_date_ascending|]. split; [apply sort_by_date_perm|].
    split; [apply sort_by_date_of_ascending|].
    exists (nth 0 rates no_point), (nth (length rates - 1) rates no_point).
    split; [apply nth_lookup_point; lia|]. split; [apply nth_lookup_point; lia|].
    cbv zeta. rewrite fetchHistoricalRates_series; try assumption.
    + cbv zeta. fold rates.
      replace (length rates <? 2)%nat with false by (symmetry; apply Nat.ltb_ge; lia).
      reflexivity.
    + intros ->. cbn in Hlen. lia.
  - intros from to d1 d2 st Hl Ho Hd.
    rewrite fetchHistoricalRates_series; [| assumption | assumption | discriminate].
    cbv zeta. cbn [collect_points]. rewrite !lookup_singleton_eq.
    change (ToBoolean (Some (decimal 110 2))) with true.
    change (ToBoolean (Some (decimal 120 2))) with true.
    cbn [ToNumber sort_by_date sort_insert].
    replace (0 <? compare_dates (mkPoint d1 (decimal 110 2)) (mkPoint d2 (decimal 120 2)))
      with false by (symmetry; apply Z.ltb_ge; unfold compare_dates; cbn [date]; lia).
    eexists. split; [reflexivity|]. repeat split; reflexivity.
Qed.

(** 1.10 on 2024-01-01 and 1.20 on 2024-01-02. *)
Lemma fetchHistoricalRates_trend_witness :
  hasRatesLoaded (session usd_rates "100" hundred "USD" "EUR") = true /\
  isOfflineMode (session usd_rates "100" hundred "USD" "EUR") = false /\
  Date_getTime (mkDate 2024 1 1) <= Date_getTime (mkDate 2024 1 2) /\
  exists t,
    historicalRates
      (fetchHistoricalRates "USD" "EUR"
         (series_response [(mkDate 2024 1 1, {["EUR" := decimal 110 2]});
                           (mkDate 2024 1 2, {["EUR" := decimal 120 2]})])
         (session usd_rates "100" hundred "USD" "EUR"))
    = ViewTrend t /\
    trendText t = Increased /\
    percentageChange t = "9.09".
Proof.
  assert (Hd : Date_getTime (mkDate 2024 1 1) <= Date_getTime (mkDate 2024 1 2))
    by (vm_compute; discriminate).
  split; [reflexivity|]. split; [reflexivity|]. split; [exact Hd|].
  destruct (proj2 fetchHistoricalRates_trend "USD" "EUR" (mkDate 2024 1 1) (mkDate 2024 1 2)
              (session usd_rates "100" hundred "USD" "EUR") eq_refl eq_refl Hd)
    as (t & Hrun & _ & _ & Hdir & Hpct).
  exists t. rewrite Hrun. repeat split; assumption.
Defined.

(** C8 (amended): with rates loaded from the network and a successful
    request, a series that has at least one date but fewer than two points
    with a truthy target rate gives the not-enough-points view carrying the
    number of points left (1 for a single point, 0 for none); a series with
    no date at all, like a body without a series, gives the separate
    no-historical-data view, which carries no count.  Neither is the error view or a trend. *)
Theorem fetchHistoricalRates_not_enough (from to : string)
    (series : list (Date * gmap string Number)) (st : App) :
  hasRatesLoaded st = true ->
  isOfflineMode st = false ->
  (length (collect_points to series) < 2)%nat ->
  (series <> [] ->
   fetchHistoricalRates from to (series_response series) st =
     set_historicalRates (ViewNotEnoughPoints (length (collect_points to series))) st) /\
  (series = [] ->
   fetchHistoricalRates from to (series_response series) st =
     set_historicalRates ViewNoHistoricalData st) /\
  fetchHistoricalRates from to (HttpResponse true (Some (mkSeries None))) st =
    set_historicalRates ViewNoHistoricalData st.
Proof.
  intros Hl Ho Hlen. split; [|split].
  - intros Hne. rewrite fetchHistoricalRates_series; try assumption.
    cbv zeta. rewrite length_sort_by_date.
    replace (length (collect_points to series) <? 2)%nat with true
      by (symmetry; apply Nat.ltb_lt; exact Hlen).
    reflexivity.
  - intros ->. unfold fetchHistoricalRates, series_response.
    rewrite Hl, Ho. reflexivity.
  - unfold fetchHistoricalRates. rewrite Hl, Ho. reflexivity.
Qed.

(** Two dates, one of them without a EUR rate: one point is left. *)
Lemma fetchHistoricalRates_not_enough_witness :
  hasRatesLoaded (session usd_rates "100" hundred "USD" "EUR") = true /\
  isOfflineMode (session usd_rates "100" hundred "USD" "EUR") = false /\
  (length (collect_points "EUR"
             [(mkDate 2024 1 1, {["EUR" := decimal 110 2]});
              (mkDate 2024 1 2, {["GBP" := decimal 79 2]})]) < 2)%nat /\
  historicalRates
    (fetchHistoricalRates "USD" "EUR"
       (series_response [(mkDate 2024 1 1, {["EUR" := decimal 110 2]});
                         (mkDate 2024 1 2, {["GBP" := decimal 79 2]})])
       (session usd_rates "100" hundred "USD" "EUR"))
  = ViewNotEnoughPoints 1.
Proof.
  assert (Hlen : (length (collect_points "EUR"
                    [(mkDate 2024 1 1, {["EUR" := decimal 110 2]});
                     (mkDate 2024 1 2, {["GBP" := decimal 79 2]})]) < 2)%nat)
    by (vm_compute; lia).
  split; [reflexivity|]. split; [reflexivity|]. split; [exact Hlen|].
  rewrite (proj1 (fetchHistoricalRates_not_enough "USD" "EUR" _
                    (session usd_rates "100" hundred "USD" "EUR") eq_refl eq_refl Hlen));
    [reflexivity | discriminate].
Defined.

(** C8 (as stated): a series without dates leaves fewer than two points,
    yet the view written is not the one that carries the count. *)
Lemma fetchHistoricalRates_empty_series_no_count :
  (length (collect_points "EUR" []) < 2)%nat /\
  historicalRates
    (fetchHistoricalRates "USD" "EUR" (series_response [])
       (session usd_rates "100" hundred "USD" "EUR"))
  = ViewNoHistoricalData /\
  historicalRates
    (fetchHistoricalRates "USD" "EUR" (series_response [])
       (session usd_rates "100" hundred "USD" "EUR"))
  <> ViewNotEnoughPoints (length (collect_points "EUR" [])).
Proof. split; [cbn; lia|]. split; [reflexivity | discriminate]. Qed.

(** ** Further properties of [fetchRates] *)

(** A list of outcomes either fails throughout or has a first success. *)
Lemma first_success (l : list (FetchOutcome LatestBody)) :
  Forall (fun o => failed o = true) l \/
  exists fs data rest,
    l = fs ++ HttpResponse true (Some data) :: rest /\
    Forall (fun o => failed o = true) fs.
Proof.
  induction l as [|o l IH].
  - left. constructor.
  - destruct (failed o) eqn:Ho.
    + destruct IH as [IH|(fs & data & rest & -> & Hfs)].
      * left. constructor; assumption.
      * right. exists (o :: fs), data, rest. split; [reflexivity|]. constructor; assumption.
    + right. destruct o as [|[] [data|]]; try discriminate Ho.
      exists [], data, l. split; [reflexivity | constructor].
Qed.

Lemma take_app_success (n : nat) (l fs : list (FetchOutcome LatestBody)) data rest :
  take n l = fs ++ HttpResponse true (Some data) :: rest ->
  exists rest', l = fs ++ HttpResponse true (Some data) :: rest' /\ (length fs < n)%nat.
Proof.
  intros H. exists (rest ++ drop n l). split.
  - rewrite <- (take_drop n l) at 1. rewrite H, <- app_assoc. reflexivity.
  - assert (Hlen : length (take n l) = length (fs ++ HttpResponse true (Some data) :: rest))
      by (rewrite H; reflexivity).
    rewrite length_take, length_app in Hlen. cbn [length] in Hlen. lia.
Qed.

Lemma cache_loadable_spec (st : App) (w : World) :
  fst (loadRatesCache st w) = cache_loadable st w.
Proof.
  unfold loadRatesCache, cache_loadable.
  destruct (db st); [|reflexivity]. destruct (getDoc_rejects w); [reflexivity|].
  destruct (cacheDoc w) as [snap|]; [|reflexivity].
  destruct (JSON_parse (snapshot_rates snap)); reflexivity.
Qed.

Lemma cache_loadable_ignores_network (st : App) (w : World) l t :
  cache_loadable st (set_timeouts t (set_latest l w)) = cache_loadable st w.
Proof. destruct w. reflexivity. Qed.

Lemma loadRatesCache_failed (st : App) (w : World) :
  cache_loadable st w = false -> loadRatesCache st w = (false, st).
Proof.
  unfold loadRatesCache, cache_loadable.
  destruct (db st); [|reflexivity]. destruct (getDoc_rejects w); [reflexivity|].
  destruct (cacheDoc w) as [snap|]; [|reflexivity].
  destruct (JSON_parse (snapshot_rates snap)); [discriminate | reflexivity].
Qed.

Lemma fetchRates_no_attempts (base : string) (retries : Z) (st : App) (w : World) :
  retries <= 0 ->
  fetchRates base retries st w
    = (false, set_cachedStatus_hidden true (set_isOfflineMode false st), w).
Proof.
  intros H. unfold fetchRates.
  replace (Z.to_nat retries) with 0%nat by lia. reflexivity.
Qed.

(** X1: [fetchRates] called with [retries] of 0 or less makes no request,
    waits for nothing and does not look at the cache, even a loadable one:
    it returns false, having only cleared the offline flag and hidden the
    cached-status banner. *)
Theorem fetchRates_without_attempts (base : string) (retries : Z) (st : App) (w : World) :
  retries <= 0 ->
  fetchRates base retries st w
    = (false, set_cachedStatus_hidden true (set_isOfflineMode false st), w).
Proof. apply fetchRates_no_attempts. Qed.

(** Zero retries with the rates in the cache: nothing is loaded. *)
Lemma fetchRates_without_attempts_witness :
  0 <= 0 /\
  cache_loadable fresh_session (world_offline usd_rates) = true /\
  fetchRates API_BASE_CURRENCY 0 fresh_session (world_offline usd_rates)
    = (false, fresh_session, world_offline usd_rates).
Proof.
  split; [lia|]. split; [reflexivity|].
  rewrite (fetchRates_without_attempts API_BASE_CURRENCY 0 fresh_session
             (world_offline usd_rates) ltac:(lia)).
  reflexivity.
Defined.

(** X2: with at least one attempt allowed, [fetchRates] returns false
    exactly when every attempt fails and the cache cannot be loaded; it has
    then raised the critical alert and nothing else, rates count as not
    loaded, the session is online with the cached-status banner hidden,
    and the rate text, the total and the historical widget show what they
    showed. *)
Theorem fetchRates_gives_up (base : string) (retries : Z) (st : App) (w : World) :
  0 < retries ->
  let ok := fst (fst (fetchRates base retries st w)) in
  let st' := snd (fst (fetchRates base retries st w)) in
  (ok = false <->
   Forall (fun o => failed o = true) (take (Z.to_nat retries) (latest w)) /\
   cache_loadable st w = false) /\
  (ok = false ->
   hasRatesLoaded st' = false /\
   alerts st' = AlertCritical :: alerts st /\
   isOfflineMode st' = false /\
   cachedStatus_hidden st' = true /\
   rateDisplay st' = rateDisplay st /\
   totalDisplay st' = totalDisplay st /\
   historicalRates st' = historicalRates st /\
   historicalCalls st' = historicalCalls st).
Proof.
  intros Hr. cbv zeta. unfold fetchRates.
  set (st0 := set_cachedStatus_hidden true (set_isOfflineMode false st)).
  assert (Hload : forall w1, cache_loadable st0 w1 = cache_loadable st w1)
    by (intros w1; destruct st; reflexivity).
  destruct (Z.to_nat retries) as [|steps] eqn:Hn; [lia|].
  destruct (first_success (take (S steps) (latest w))) as [Hall|(fs & data & rest & Htake & Hfs)].
  - rewrite fetchRates_from_exhausted; [| lia | exact Hall]. cbv zeta.
    rewrite cache_loadable_spec, cache_loadable_ignores_network, Hload.
    destruct (cache_loadable st w) eqn:Hc; cbn [fst snd].
    + split; [split; [discriminate | intros [_ H]; discriminate H] | discriminate].
    + split; [split; [intros _; split; [exact Hall | reflexivity] | reflexivity]|].
      intros _. rewrite loadRatesCache_failed;
        [unfold st0; destruct st; repeat split|].
      rewrite cache_loadable_ignores_network, Hload. exact Hc.
  - destruct (take_app_success _ _ _ _ _ Htake) as (rest' & Hl & Hlen).
    rewrite (fetchRates_from_succeeds fs _ 0 retries st0 w data rest' Hl Hfs); [| lia | lia].
    cbv zeta. cbn [fst snd].
    split; [split; [discriminate|] | discriminate].
    intros [Hall _]. exfalso. rewrite Htake in Hall.
    apply Forall_app in Hall as [_ Hall]. inversion Hall as [|? ? Hbad _]. discriminate Hbad.
Qed.

(** No answer and no cache document. *)
Lemma fetchRates_gives_up_witness :
  let run :=
    fetchRates API_BASE_CURRENCY 3 fresh_session
      (mkWorld [] None false false "2024-01-02T00:00:00.000Z" []) in
  0 < 3 /\
  fst (fst run) = false /\
  hasRatesLoaded (snd (fst run)) = false /\
  alerts (snd (fst run)) = [AlertCritical] /\
  timeouts (snd run) = [1000; 2000].
Proof.
  cbv zeta. split; [lia|].
  pose proof (fetchRates_gives_up API_BASE_CURRENCY 3 fresh_session
                (mkWorld [] None false false "2024-01-02T00:00:00.000Z" []) ltac:(lia))
    as [[_ Hiff] Hst].
  assert (Hfalse := Hiff ltac:(split; [constructor | reflexivity])).
  destruct (Hst Hfalse) as (Hl & Hal & _).
  split; [exact Hfalse|]. split; [exact Hl|]. split; [exact Hal|].
  vm_compute. reflexivity.
Defined.

(** The three ways [fetchRates] can end once it may try at least once. *)
Lemma fetchRates_cases (base : string) (retries : Z) (st : App) (w : World) :
  0 < retries ->
  let st0 := set_cachedStatus_hidden true (set_isOfflineMode false st) in
  (exists fs data rest,
     latest w = fs ++ HttpResponse true (Some data) :: rest /\
     Forall (fun o => failed o = true) fs /\
     Z.of_nat (length fs) < retries /\
     fetchRates base retries st w =
       let st' := set_hasRatesLoaded true
                    (set_currencyRates (<[latest_base data := one]> (latest_rates data)) st0) in
       (true, st',
        saveRatesCache st'
          (set_timeouts (timeouts w ++ backoff_delays 0 (length fs)) (set_latest rest w))))
  \/
  (Forall (fun o => failed o = true) (take (Z.to_nat retries) (latest w)) /\
   exists snap r,
     db st = true /\ getDoc_rejects w = false /\
     cacheDoc w = Some snap /\ JSON_parse (snapshot_rates snap) = Some r /\
     fetchRates base retries st w =
       (true,
        set_hasRatesLoaded true
          (showAlert (AlertLoadedFromCache (snapshot_timestamp snap))
             (set_cachedStatus_hidden false (set_isOfflineMode true (set_currencyRates r st0)))),
        set_timeouts (timeouts w ++ backoff_delays 0 (Z.to_nat retries - 1))
          (set_latest (drop (Z.to_nat retries) (latest w)) w)))
  \/
  (Forall (fun o => failed o = true) (take (Z.to_nat retries) (latest w)) /\
   cache_loadable st w = false /\
   fetchRates base retries st w =
     (false,
      set_hasRatesLoaded false (showAlert AlertCritical st0),
      set_timeouts (timeouts w ++ backoff_delays 0 (Z.to_nat retries - 1))
        (set_latest (drop (Z.to_nat retries) (latest w)) w))).
Proof.
  intros Hr st0. unfold fetchRates. fold st0.
  assert (Hload : forall w1, cache_loadable st0 w1 = cache_loadable st w1)
    by (intros w1; destruct st; reflexivity).
  destruct (Z.to_nat retries) as [|steps] eqn:Hn; [lia|].
  replace (S steps - 1)%nat with steps by lia.
  destruct (first_success (take (S steps) (latest w))) as [Hall|(fs & data & rest & Htake & Hfs)].
  - right. rewrite fetchRates_from_exhausted; [| lia | exact Hall]. cbv zeta.
    destruct (cache_loadable st w) eqn:Hc.
    + left. split; [exact Hall|].
      unfold cache_loadable in Hc.
      destruct (db st) eqn:Hdb; [|discriminate Hc].
      destruct (getDoc_rejects w) eqn:Hget; [discriminate Hc|].
      destruct (cacheDoc w) as [snap|] eqn:Hdoc; [|discriminate Hc].
      destruct (JSON_parse (snapshot_rates snap)) as [r|] eqn:Hp; [|discriminate Hc].
      exists snap, r. do 4 (split; [first [reflexivity | assumption]|]).
      rewrite loadRatesCache_ignores_network.
      rewrite (loadRatesCache_loaded st0 w snap r);
        [reflexivity | destruct st; exact Hdb | exact Hget | exact Hdoc | exact Hp].
    + right. split; [exact Hall|]. split; [reflexivity|].
      rewrite loadRatesCache_failed; [reflexivity|].
      rewrite cache_loadable_ignores_network, Hload. exact Hc.
  - left. destruct (take_app_success _ _ _ _ _ Htake) as (rest' & Hl & Hlen).
    exists fs, data, rest'. split; [exact Hl|]. split; [exact Hfs|]. split; [lia|].
    rewrite (fetchRates_from_succeeds fs _ 0 retries st0 w data rest' Hl Hfs); [| lia | lia].
    reflexivity.
Qed.

Lemma total_backoff_delays (k : nat) :
  forall i, 0 <= i ->
    total_delay (backoff_delays i k) = (2 ^ (i + Z.of_nat k) - 2 ^ i) * 1000.
Proof.
  induction k as [|k IH]; intros i Hi; cbn [backoff_delays total_delay fold_right].
  - rewrite Z.add_0_r. lia.
  - fold (total_delay (backoff_delays (i + 1) k)). rewrite IH by lia.
    replace (i + 1 + Z.of_nat k) with (i + Z.of_nat (S k)) by lia.
    rewrite (Z.pow_add_r 2 i 1) by lia. lia.
Qed.

Lemma drop_app_success (fs : list (FetchOutcome LatestBody)) o rest :
  drop (S (length fs)) (fs ++ o :: rest) = rest.
Proof.
  replace (S (length fs)) with (length (fs ++ [o])) by (rewrite length_app; cbn; lia).
  rewrite (cons_middle o fs rest), app_assoc. apply drop_app_length.
Qed.

(** X3: whatever the network does, [fetchRates] with [retries >= 1] makes
    at most [retries] requests and never waits after its last one: for some
    [k < retries] it has made [k + 1] requests and awaited the delays
    [1000, 2000, ..., 2^(k-1) * 1000], which add up to [(2^k - 1) * 1000]
    ms, at most [(2^(retries-1) - 1) * 1000] ms. *)
Theorem fetchRates_bounded (base : string) (retries : Z) (st : App) (w : World) :
  0 < retries ->
  exists k : nat,
    Z.of_nat k < retries /\
    latest (snd (fetchRates base retries st w)) = drop (S k) (latest w) /\
    timeouts (snd (fetchRates base retries st w)) = timeouts w ++ backoff_delays 0 k /\
    total_delay (backoff_delays 0 k) = (2 ^ Z.of_nat k - 1) * 1000 /\
    total_delay (backoff_delays 0 k) <= (2 ^ (retries - 1) - 1) * 1000.
Proof.
  intros Hr.
  assert (Hsum : forall k : nat, Z.of_nat k < retries ->
            total_delay (backoff_delays 0 k) = (2 ^ Z.of_nat k - 1) * 1000 /\
            total_delay (backoff_delays 0 k) <= (2 ^ (retries - 1) - 1) * 1000).
  { intros k Hk. rewrite total_backoff_delays by lia. rewrite Z.add_0_l.
    change (2 ^ 0) with 1. split; [reflexivity|].
    assert (2 ^ Z.of_nat k <= 2 ^ (retries - 1)) by (apply Z.pow_le_mono_r; lia). lia. }
  destruct (fetchRates_cases base retries st w Hr)
    as [(fs & data & rest & Hl & _ & Hlen & ->)
       |[(_ & snap & r & _ & _ & _ & _ & ->)|(_ & _ & ->)]]; cbv zeta; cbn [snd].
  - exists (length fs). split; [exact Hlen|].
    rewrite latest_saveRatesCache, timeouts_saveRatesCache.
    split; [destruct w; cbn in *; rewrite Hl; symmetry; apply drop_app_success|].
    split; [destruct w; reflexivity|]. apply Hsum, Hlen.
  - exists (Z.to_nat retries - 1)%nat. split; [lia|].
    replace (S (Z.to_nat retries - 1)) with (Z.to_nat retries) by lia.
    split; [destruct w; reflexivity|]. split; [destruct w; reflexivity|]. apply Hsum. lia.
  - exists (Z.to_nat retries - 1)%nat. split; [lia|].
    replace (S (Z.to_nat retries - 1)) with (Z.to_nat retries) by lia.
    split; [destruct w; reflexivity|]. split; [destruct w; reflexivity|]. apply Hsum. lia.
Qed.

(** The default three attempts against a dead network: three requests,
    3000 ms of waiting. *)
Lemma fetchRates_bounded_witness :
  0 < 3 /\
  exists k : nat,
    Z.of_nat k < 3 /\
    timeouts (snd (fetchRates API_BASE_CURRENCY 3 fresh_session (world_offline usd_rates)))
      = backoff_delays 0 k /\
    total_delay (backoff_delays 0 k) <= 3000.
Proof.
  split; [lia|].
  destruct (fetchRates_bounded API_BASE_CURRENCY 3 fresh_session (world_offline usd_rates)
              ltac:(lia)) as (k & Hk & _ & Ht & _ & Hle).
  exists k. split; [exact Hk|]. split; [exact Ht | exact Hle].
Defined.

(** X4: after [fetchRates] with [retries >= 1], the value it returned is
    the flag [hasRatesLoaded], the cached-status banner is shown exactly
    when the session is offline, the session is offline only when rates
    were loaded (from the cache), and the database handle is the one it
    started with. *)
Theorem fetchRates_flags (base : string) (retries : Z) (st : App) (w : World) :
  0 < retries ->
  let ok := fst (fst (fetchRates base retries st w)) in
  let st' := snd (fst (fetchRates base retries st w)) in
  hasRatesLoaded st' = ok /\
  cachedStatus_hidden st' = negb (isOfflineMode st') /\
  (isOfflineMode st' = true -> ok = true) /\
  db st' = db st.
Proof.
  intros Hr.
  destruct (fetchRates_cases base retries st w Hr)
    as [(fs & data & rest & _ & _ & _ & ->)
       |[(_ & snap & r & _ & _ & _ & _ & ->)|(_ & _ & ->)]];
    cbv zeta; cbn [fst snd]; destruct st; cbn; repeat split; congruence.
Qed.

Lemma fetchRates_flags_witness :
  0 < 3 /\
  hasRatesLoaded (snd (fst (fetchRates API_BASE_CURRENCY 3 fresh_session (world_offline usd_rates))))
    = true /\
  cachedStatus_hidden
    (snd (fst (fetchRates API_BASE_CURRENCY 3 fresh_session (world_offline usd_rates))))
    = false.
Proof.
  split; [lia|].
  destruct (fetchRates_flags API_BASE_CURRENCY 3 fresh_session (world_offline usd_rates)
              ltac:(lia)) as (Hl & Hb & _).
  split; [rewrite Hl | rewrite Hb]; reflexivity.
Defined.

(** X5: the cache round trip.  A session that fetched live rates with the
    cache writable leaves a snapshot; any later session that finds the
    network down and that snapshot in the cache ends with the rates the
    first one had, as JSON carries them: every finite rate identical (the
    self-rate 1 among them), a zero as [+0], and no entry where the rate was
    infinite or NaN. *)
Theorem cache_round_trip (base : string) (retriesA retriesB : Z)
    (stA : App) (wA : World) (stA' : App) (wA' : World) (stB : App) (wB : World) :
  fetchRates base retriesA stA wA = (true, stA', wA') ->
  isOfflineMode stA' = false ->
  db stA = true ->
  setDoc_rejects wA = false ->
  0 < retriesB ->
  db stB = true ->
  getDoc_rejects wB = false ->
  cacheDoc wB = cacheDoc wA' ->
  Forall (fun o => failed o = true) (take (Z.to_nat retriesB) (latest wB)) ->
  exists stB' wB',
    fetchRates base retriesB stB wB = (true, stB', wB') /\
    isOfflineMode stB' = true /\
    (forall code, currencyRates stB' !! code = currencyRates stA' !! code ≫= JSON_number) /\
    (forall code s m e,
       currencyRates stA' !! code = Some (S754_finite s m e) ->
       currencyRates stB' !! code = Some (S754_finite s m e)).
Proof.
  intros HrunA HonA HdbA HsetA HrB HdbB HgetB Hdoc HfailB.
  assert (HrA : 0 < retriesA).
  { destruct (Z.ltb_spec 0 retriesA) as [H|H]; [exact H|].
    rewrite fetchRates_no_attempts in HrunA by exact H. discriminate HrunA. }
  assert (HdocA : cacheDoc wA'
                  = Some (mkSnapshot (JSON_stringify (currencyRates stA')) (now wA)
                            API_BASE_CURRENCY)).
  { destruct (fetchRates_cases base retriesA stA wA HrA)
      as [(fs & data & rest & _ & _ & _ & Hrun)
         |[(_ & snap & r & _ & _ & _ & _ & Hrun)|(_ & _ & Hrun)]];
      rewrite Hrun in HrunA; cbv zeta in HrunA.
    - injection HrunA as <- <-. unfold saveRatesCache.
      replace (db _) with true by (destruct stA; symmetry; exact HdbA).
      replace (currencyRates _) with (<[latest_base data := one]> (latest_rates data))
        by (destruct stA; reflexivity).
      destruct (size (<[latest_base data := one]> (latest_rates data)) =? 0)%nat eqn:Hsize.
      { apply Nat.eqb_eq, map_size_empty_iff in Hsize.
        exfalso. exact (insert_non_empty _ _ _ Hsize). }
      cbn [negb orb].
      replace (setDoc_rejects _) with false by (destruct wA; symmetry; exact HsetA).
      destruct wA; reflexivity.
    - injection HrunA as <- _. destruct stA; discriminate HonA.
    - discriminate HrunA. }
  destruct (fetchRates_cases base retriesB stB wB HrB)
    as [(fs & data & rest & Hl & Hfs & Hlen & _)
       |[(_ & snap & r & _ & _ & Hc & Hp & Hrun)|(_ & Hno & _)]].
  - exfalso. rewrite Hl in HfailB.
    rewrite take_app_ge in HfailB by lia.
    apply Forall_app in HfailB as [_ HfailB].
    destruct (Z.to_nat retriesB - length fs)%nat as [|n] eqn:Hn; [lia|].
    cbn [take] in HfailB. inversion HfailB as [|? ? Hbad _]. discriminate Hbad.
  - rewrite Hdoc, HdocA in Hc. injection Hc as <-. cbn in Hp. injection Hp as <-.
    eexists _, _. split; [exact Hrun|].
    split; [destruct stB; reflexivity|].
    assert (Hlook : forall code,
              currencyRates
                (set_hasRatesLoaded true
                   (showAlert
                      (AlertLoadedFromCache
                         (snapshot_timestamp
                            (mkSnapshot (JSON_stringify (currencyRates stA')) (now wA)
                               API_BASE_CURRENCY)))
                      (set_cachedStatus_hidden false
                         (set_isOfflineMode true
                            (set_currencyRates (omap JSON_number (currencyRates stA'))
                               (set_cachedStatus_hidden true (set_isOfflineMode false stB)))))))
                !! code
              = currencyRates stA' !! code ≫= JSON_number).
    { intros code. destruct stB; cbn. apply lookup_omap. }
    split; [exact Hlook|].
    intros code s m e Hv. rewrite Hlook, Hv. reflexivity.
  - exfalso. unfold cache_loadable in Hno.
    rewrite HdbB, HgetB, Hdoc, HdocA in Hno. discriminate Hno.
Qed.

(** One session fetches after a first failure; the next one starts with the
    network down and ends with the same EUR and USD rates. *)
Lemma cache_round_trip_witness :
  let runA := fetchRates API_BASE_CURRENCY 3 fresh_session world_second_attempt in
  let wB := set_latest [] (snd runA) in
  runA = (true, snd (fst runA), snd runA) /\
  isOfflineMode (snd (fst runA)) = false /\
  db fresh_session = true /\
  setDoc_rejects world_second_attempt = false /\
  0 < 3 /\
  getDoc_rejects wB = false /\
  cacheDoc wB = cacheDoc (snd runA) /\
  Forall (fun o => failed o = true) (take (Z.to_nat 3) (latest wB)) /\
  exists stB' wB',
    fetchRates API_BASE_CURRENCY 3 fresh_session wB = (true, stB', wB') /\
    isOfflineMode stB' = true /\
    currencyRates stB' !! "EUR" = Some (S754_finite false 8286623314361713 (-53)) /\
    currencyRates stB' !! "USD" = Some (S754_finite false 4503599627370496 (-52)).
Proof.
  intros runA wB.
  assert (H1 : runA = (true, snd (fst runA), snd runA)) by (vm_compute; reflexivity).
  assert (H2 : isOfflineMode (snd (fst runA)) = false) by reflexivity.
  assert (H8 : Forall (fun o : FetchOutcome LatestBody => failed o = true)
                 (take (Z.to_nat 3) (latest wB))) by constructor.
  split; [exact H1|]. split; [exact H2|]. do 2 (split; [reflexivity|]).
  split; [lia|]. do 2 (split; [reflexivity|]). split; [exact H8|].
  destruct (cache_round_trip API_BASE_CURRENCY 3 3 fresh_session world_second_attempt
              (snd (fst runA)) (snd runA) fresh_session wB
              H1 H2 eq_refl eq_refl ltac:(lia) eq_refl eq_refl eq_refl H8)
    as (stB' & wB' & Hrun & Hoff & _ & Hfin).
  exists stB', wB'. split; [exact Hrun|]. split; [exact Hoff|].
  split; apply Hfin; reflexivity.
Defined.

(** ** Further properties of the conversion *)

(** X6: [updateConversion] only ever writes to the page: it leaves the
    store, the three session flags and the inputs as they are, raises at
    most one alert and starts at most one historical request. *)
Theorem updateConversion_frame (rev : Revision) (st : App) :
  let st' := updateConversion rev st in
  db st' = db st /\
  currencyRates st' = currencyRates st /\
  isOfflineMode st' = isOfflineMode st /\
  hasRatesLoaded st' = hasRatesLoaded st /\
  fromAmount_value st' = fromAmount_value st /\
  fromAmount_number st' = fromAmount_number st /\
  fromCurrency_value st' = fromCurrency_value st /\
  toCurrency_value st' = toCurrency_value st /\
  cachedStatus_hidden st' = cachedStatus_hidden st /\
  (alerts st' = alerts st \/ exists a, alerts st' = a :: alerts st) /\
  (historicalCalls st' = historicalCalls st \/
   exists c, historicalCalls st' = c :: historicalCalls st).
Proof.
  destruct st as [d r off loaded txt amt f t rd td hid hr al hc].
  unfold updateConversion. cbn.
  destruct loaded; cbn; [|repeat split; eauto].
  destruct (isNaN amt || Number_le amt zero); cbn.
  { destruct rev; [|destruct (is_blank txt)]; cbn; repeat split; eauto. }
  destruct (negb (ToBoolean (r !! f)) || negb (ToBoolean (r !! t))); cbn;
    [repeat split; eauto|].
  destruct off; cbn; repeat split; eauto.
Qed.

(** The condition under which [updateConversion] displays a conversion. *)
Lemma updateConversion_paths (rev : Revision) (st : App) :
  (converts st = true ->
   updateConversion rev st =
     let rateFrom := ToNumber (currencyRates st !! fromCurrency_value st) in
     let rateTo := ToNumber (currencyRates st !! toCurrency_value st) in
     let st1 :=
       set_totalDisplay (toFixed (result (fromAmount_number st) rateFrom rateTo) 2)
         (set_rateDisplay
            ("1 " +:+ fromCurrency_value st +:+ " = "
                  +:+ toFixed (displayRate rateFrom rateTo) 4 +:+ " " +:+ toCurrency_value st)
            st) in
     if negb (isOfflineMode st) then
       call_fetchHistoricalRates (fromCurrency_value st) (toCurrency_value st) st1
     else set_historicalRates ViewRequiresLiveConnection st1) /\
  (converts st = false ->
   rateDisplay (updateConversion rev st) = rateDisplay st /\
   historicalRates (updateConversion rev st) = historicalRates st /\
   historicalCalls (updateConversion rev st) = historicalCalls st /\
   totalDisplay (updateConversion rev st)
     = if hasRatesLoaded st then "0.00" else totalDisplay st).
Proof.
  unfold converts. split.
  - intros H. apply andb_prop in H as [H H3]. apply andb_prop in H as [H1 H2].
    apply negb_true_iff in H2. apply updateConversion_converted; assumption.
  - intros H.
    destruct (hasRatesLoaded st) eqn:H1.
    + destruct (amount_rejected (fromAmount_number st)) eqn:H2.
      * rewrite updateConversion_invalid_amount by assumption.
        destruct st, rev; cbn; [|destruct (is_blank _)]; repeat split.
      * cbn in H. rewrite updateConversion_missing_rate by assumption.
        destruct st; repeat split.
    + rewrite updateConversion_not_ready by assumption. destruct st; repeat split.
Qed.

(** X7: [updateConversion] starts a historical request exactly when it
    displays a conversion while online, and then for the selected pair;
    when it displays a conversion offline it writes the
    requires-live-connection notice instead; on every path that displays no
    conversion it leaves the rate text, the historical widget and the
    pending requests alone and, once rates are loaded, resets the total to
    "0.00". *)
Theorem updateConversion_historical (rev : Revision) (st : App) :
  let st' := updateConversion rev st in
  historicalCalls st' =
    (if converts st && negb (isOfflineMode st)
     then (fromCurrency_value st, toCurrency_value st) :: historicalCalls st
     else historicalCalls st) /\
  historicalRates st' =
    (if converts st && isOfflineMode st then ViewRequiresLiveConnection
     else historicalRates st) /\
  (converts st = false ->
   rateDisplay st' = rateDisplay st /\
   totalDisplay st' = if hasRatesLoaded st then "0.00" else totalDisplay st).
Proof.
  cbv zeta.
  destruct (updateConversion_paths rev st) as [Hyes Hno].
  destruct (converts st).
  - rewrite (Hyes eq_refl). cbn [andb].
    split; [destruct st as [? ? [] ? ? ? ? ? ? ? ? ? ? ?]; reflexivity|].
    split; [destruct st as [? ? [] ? ? ? ? ? ? ? ? ? ? ?]; reflexivity | discriminate].
  - destruct (Hno eq_refl) as (Hr & Hv & Hc & Ht). cbn [andb].
    split; [exact Hc|]. split; [exact Hv|]. intros _. split; assumption.
Qed.

(** X8: running [updateConversion] again changes nothing that is shown:
    the rate, the total and the historical widget are as after the first
    run (only alerts and pending historical requests pile up). *)
Theorem updateConversion_twice (rev : Revision) (st : App) :
  let once := updateConversion rev st in
  let twice := updateConversion rev once in
  rateDisplay twice = rateDisplay once /\
  totalDisplay twice = totalDisplay once /\
  historicalRates twice = historicalRates once.
Proof.
  destruct st as [d r off loaded txt amt f t rd td hid hr al hc].
  unfold updateConversion. cbn.
  destruct loaded; cbn; [|repeat split].
  destruct (isNaN amt || Number_le amt zero) eqn:Ha; cbn.
  { destruct rev; [|destruct (is_blank txt)]; cbn; rewrite Ha; cbn;
      try destruct (is_blank txt); repeat split. }
  destruct (negb (ToBoolean (r !! f)) || negb (ToBoolean (r !! t))) eqn:Hm; cbn;
    [rewrite Ha; cbn; rewrite Hm; repeat split|].
  destruct off; cbn; rewrite Ha; cbn; rewrite Hm; repeat split.
Qed.

Lemma select_value_member (options : list string) (v : string) :
  v ∈ options -> select_value options v = v.
Proof. intros H. unfold select_value. rewrite bool_decide_eq_true_2 by exact H. reflexivity. Qed.

(** X9: with both selections among the options of the drop-downs,
    [switchCurrencies] exchanges them, and a second switch brings back the
    original pair and shows the rate and total that a plain
    [updateConversion] of the original session shows. *)
Theorem switchCurrencies_twice (rev : Revision) (st : App) :
  fromCurrency_value st ∈ option_values ->
  toCurrency_value st ∈ option_values ->
  let once := switchCurrencies rev st in
  let twice := switchCurrencies rev once in
  getSelectedPair once = (toCurrency_value st, fromCurrency_value st) /\
  getSelectedPair twice = getSelectedPair st /\
  rateDisplay twice = rateDisplay (updateConversion rev st) /\
  totalDisplay twice = totalDisplay (updateConversion rev st).
Proof.
  destruct st as [d r off loaded txt amt f t rd td hid hr al hc]. cbn.
  intros Hf Ht. unfold switchCurrencies, getSelectedPair. cbn.
  rewrite !(select_value_member _ _ Hf), !(select_value_member _ _ Ht).
  unfold updateConversion. cbn.
  destruct loaded; cbn.
  2:{ rewrite !(select_value_member _ _ Hf), !(select_value_member _ _ Ht). repeat split. }
  destruct (isNaN amt || Number_le amt zero) eqn:Ha; cbn.
  { destruct rev; [|destruct (is_blank txt)]; cbn;
      rewrite ?(select_value_member _ _ Hf), ?(select_value_member _ _ Ht), ?Ha; cbn;
      try destruct (is_blank txt); repeat split. }
  rewrite (orb_comm (negb (ToBoolean (r !! t)))).
  destruct (negb (ToBoolean (r !! f)) || negb (ToBoolean (r !! t))) eqn:Hm; cbn.
  { rewrite ?(select_value_member _ _ Hf), ?(select_value_member _ _ Ht), ?Ha; cbn.
    rewrite Hm. repeat split. }
  destruct off; cbn;
    rewrite ?(select_value_member _ _ Hf), ?(select_value_member _ _ Ht), ?Ha; cbn;
    rewrite Hm; repeat split.
Qed.

Lemma switchCurrencies_twice_witness :
  let st := populateDropdowns (session usd_rates "100" hundred "" "") in
  fromCurrency_value st ∈ option_values /\
  toCurrency_value st ∈ option_values /\
  getSelectedPair st = ("USD", "NGN") /\
  getSelectedPair (switchCurrencies Scripts_app st) = ("NGN", "USD") /\
  rateDisplay (switchCurrencies Scripts_app (switchCurrencies Scripts_app st))
    = "1 USD = 1500.5000 NGN".
Proof.
  cbv zeta.
  set (st := populateDropdowns (session usd_rates "100" hundred "" "")).
  assert (H1 : fromCurrency_value st ∈ option_values)
    by (apply list_elem_of_In; vm_compute; tauto).
  assert (H2 : toCurrency_value st ∈ option_values)
    by (apply list_elem_of_In; vm_compute; tauto).
  split; [exact H1|]. split; [exact H2|]. split; [reflexivity|].
  destruct (switchCurrencies_twice Scripts_app st H1 H2) as (Hone & _ & Hr & _).
  split; [exact Hone|]. rewrite Hr. vm_compute. reflexivity.
Defined.

(** ** Start-up: [fetchRatesAndInitialize] *)

(** X10: once rates are loaded, [fetchRatesAndInitialize] of the later
    revision does nothing at all (no request, no change to the session),
    while that of [src/scripts/app.js] goes to the network again: it makes
    between one and three further requests. *)
Theorem fetchRatesAndInitialize_when_loaded (st : App) (w : World) :
  hasRatesLoaded st = true ->
  fetchRatesAndInitialize Part_000 st w = (st, w) /\
  exists k : nat,
    (k < 3)%nat /\
    latest (snd (fetchRatesAndInitialize Scripts_app st w)) = drop (S k) (latest w).
Proof.
  intros Hl. split.
  - unfold fetchRatesAndInitialize. rewrite Hl. reflexivity.
  - unfold fetchRatesAndInitialize.
    destruct (fetchRates_cases API_BASE_CURRENCY 3 st w ltac:(lia))
      as [(fs & data & rest & Hlat & _ & Hlen & ->)
         |[(_ & snap & r & _ & _ & _ & _ & ->)|(_ & _ & ->)]]; cbv zeta; cbn [snd].
    + exists (length fs). split; [lia|].
      rewrite latest_saveRatesCache. destruct w; cbn in *.
      rewrite Hlat. symmetry. apply drop_app_success.
    + exists 2%nat. split; [lia|]. destruct w; reflexivity.
    + exists 2%nat. split; [lia|]. destruct w; reflexivity.
Qed.

Lemma fetchRatesAndInitialize_when_loaded_witness :
  hasRatesLoaded (session usd_rates "100" hundred "USD" "EUR") = true /\
  fetchRatesAndInitialize Part_000 (session usd_rates "100" hundred "USD" "EUR")
    world_second_attempt
  = (session usd_rates "100" hundred "USD" "EUR", world_second_attempt) /\
  latest (snd (fetchRatesAndInitialize Scripts_app (session usd_rates "100" hundred "USD" "EUR")
                 world_second_attempt)) = [].
Proof.
  split; [reflexivity|].
  destruct (fetchRatesAndInitialize_when_loaded (session usd_rates "100" hundred "USD" "EUR")
              world_second_attempt eq_refl) as [Hnone _].
  split; [exact Hnone | reflexivity].
Defined.

(** X11: start-up with the network answering within the three attempts.
    When the fetched rates, with the self-rate of the reported base, hold a
    truthy rate for both selected currencies and the amount is accepted,
    the page at once shows the conversion at the fetched rates, one
    historical request for the selected pair is under way, the session is
    online and no alert has been raised. *)
Theorem startup_online (rev : Revision) (st : App) (w : World)
    (fs : list (FetchOutcome LatestBody)) (data : LatestBody)
    (rest : list (FetchOutcome LatestBody)) (rateFrom rateTo : Number) :
  hasRatesLoaded st = false ->
  latest w = fs ++ HttpResponse true (Some data) :: rest ->
  Forall (fun o => failed o = true) fs ->
  (length fs < 3)%nat ->
  amount_rejected (fromAmount_number st) = false ->
  <[latest_base data := one]> (latest_rates data) !! fromCurrency_value st = Some rateFrom ->
  <[latest_base data := one]> (latest_rates data) !! toCurrency_value st = Some rateTo ->
  ToBoolean (Some rateFrom) = true ->
  ToBoolean (Some rateTo) = true ->
  let st' := fst (fetchRatesAndInitialize rev st w) in
  hasRatesLoaded st' = true /\
  isOfflineMode st' = false /\
  currencyRates st' = <[latest_base data := one]> (latest_rates data) /\
  rateDisplay st' =
    "1 " +:+ fromCurrency_value st +:+ " = " +:+ toFixed (Number_div rateTo rateFrom) 4
         +:+ " " +:+ toCurrency_value st /\
  totalDisplay st' = toFixed (Number_mul (Number_div (fromAmount_number st) rateFrom) rateTo) 2 /\
  historicalCalls st' = (fromCurrency_value st, toCurrency_value st) :: historicalCalls st /\
  alerts st' = alerts st.
Proof.
  intros Hl Hlat Hfs Hlen Ha Hf Ht Hbf Hbt. cbv zeta.
  unfold fetchRatesAndInitialize. rewrite Hl.
  replace (match rev with Scripts_app => false | Part_000 => false end) with false
    by (destruct rev; reflexivity).
  unfold fetchRates.
  rewrite (fetchRates_from_succeeds fs _ 0 3 _ w data rest Hlat Hfs); [| cbn; lia | lia].
  cbv zeta. cbn [fst].
  rewrite updateConversion_converted.
  - destruct st as [d r off loaded txt amt f t rd td hid hr al hc]. cbn in *.
    rewrite Hf, Ht. cbn [ToNumber]. repeat split.
  - destruct st; reflexivity.
  - destruct st; exact Ha.
  - destruct st as [d r off loaded txt amt f t rd td hid hr al hc].
    cbn [currencyRates fromCurrency_value toCurrency_value set_hasRatesLoaded
         set_currencyRates set_cachedStatus_hidden set_isOfflineMode showAlert] in *.
    rewrite Hf, Ht, Hbf, Hbt. reflexivity.
Qed.

(** The first start: one failure, then the rates; 100 USD to NGN. *)
Lemma startup_online_witness :
  hasRatesLoaded fresh_session = false /\
  latest world_second_attempt = [NetworkError] ++ HttpResponse true (Some latest_usd) :: [] /\
  Forall (fun o : FetchOutcome LatestBody => failed o = true) [NetworkError] /\
  (length [@NetworkError LatestBody] < 3)%nat /\
  amount_rejected hundred = false /\
  usd_rates !! "USD" = Some one /\
  usd_rates !! "NGN" = Some (decimal 15005 1) /\
  totalDisplay (fst (fetchRatesAndInitialize Part_000 fresh_session world_second_attempt))
    = "150050.00" /\
  rateDisplay (fst (fetchRatesAndInitialize Part_000 fresh_session world_second_attempt))
    = "1 USD = 1500.5000 NGN".
Proof.
  assert (H3 : Forall (fun o : FetchOutcome LatestBody => failed o = true) [NetworkError])
    by (repeat constructor).
  split; [reflexivity|]. split; [reflexivity|]. split; [exact H3|].
  split; [cbn; lia|]. do 3 (split; [reflexivity|]).
  destruct (startup_online Part_000 fresh_session world_second_attempt [NetworkError]
              latest_usd [] one (decimal 15005 1) eq_refl eq_refl H3 ltac:(cbn; lia)
              eq_refl eq_refl eq_refl eq_refl eq_refl)
    as (_ & _ & _ & Hr & Ht & _).
  split; [rewrite Ht | rewrite Hr]; reflexivity.
Defined.

(** X12: start-up with the network down and a loadable snapshot.  When the
    cached rates hold a truthy rate for both selected currencies and the
    amount is accepted, the page shows the conversion at the cached rates,
    the cached-status banner and the loaded-from-cache alert; no historical
    request is made and the historical widget asks for a live connection. *)
Theorem startup_offline (rev : Revision) (st : App) (w : World)
    (snap : RateSnapshot) (r : gmap string Number) (rateFrom rateTo : Number) :
  hasRatesLoaded st = false ->
  Forall (fun o => failed o = true) (take 3 (latest w)) ->
  db st = true ->
  getDoc_rejects w = false ->
  cacheDoc w = Some snap ->
  JSON_parse (snapshot_rates snap) = Some r ->
  amount_rejected (fromAmount_number st) = false ->
  r !! fromCurrency_value st = Some rateFrom ->
  r !! toCurrency_value st = Some rateTo ->
  ToBoolean (Some rateFrom) = true ->
  ToBoolean (Some rateTo) = true ->
  let st' := fst (fetchRatesAndInitialize rev st w) in
  hasRatesLoaded st' = true /\
  isOfflineMode st' = true /\
  cachedStatus_hidden st' = false /\
  totalDisplay st' = toFixed (Number_mul (Number_div (fromAmount_number st) rateFrom) rateTo) 2 /\
  historicalRates st' = ViewRequiresLiveConnection /\
  historicalCalls st' = historicalCalls st /\
  alerts st' = AlertLoadedFromCache (snapshot_timestamp snap) :: alerts st.
Proof.
  intros Hl Hfail Hdb Hget Hdoc Hp Ha Hf Ht Hbf Hbt. cbv zeta.
  unfold fetchRatesAndInitialize. rewrite Hl.
  replace (match rev with Scripts_app => false | Part_000 => false end) with false
    by (destruct rev; reflexivity).
  unfold fetchRates. change (Z.to_nat 3) with 3%nat.
  rewrite fetchRates_from_exhausted; [| lia | exact Hfail].
  cbv zeta. rewrite loadRatesCache_ignores_network.
  rewrite (loadRatesCache_loaded _ w snap r); [| destruct st; exact Hdb | exact Hget | exact Hdoc | exact Hp].
  cbn [fst snd].
  rewrite updateConversion_converted.
  - destruct st as [d r0 off loaded txt amt f t rd td hid hr al hc]. cbn in *.
    rewrite Hf, Ht. cbn [ToNumber]. repeat split.
  - destruct st; reflexivity.
  - destruct st; exact Ha.
  - destruct st as [d r0 off loaded txt amt f t rd td hid hr al hc].
    cbn [currencyRates fromCurrency_value toCurrency_value set_hasRatesLoaded
         set_currencyRates set_cachedStatus_hidden set_isOfflineMode showAlert] in *.
    rewrite Hf, Ht, Hbf, Hbt. reflexivity.
Qed.

Lemma startup_offline_witness :
  hasRatesLoaded fresh_session = false /\
  Forall (fun o => failed o = true) (take 3 (latest (world_offline usd_rates))) /\
  db fresh_session = true /\
  getDoc_rejects (world_offline usd_rates) = false /\
  amount_rejected hundred = false /\
  usd_rates !! "USD" = Some one /\
  usd_rates !! "NGN" = Some (decimal 15005 1) /\
  totalDisplay (fst (fetchRatesAndInitialize Scripts_app fresh_session (world_offline usd_rates)))
    = "150050.00" /\
  historicalRates (fst (fetchRatesAndInitialize Scripts_app fresh_session
                          (world_offline usd_rates)))
    = ViewRequiresLiveConnection.
Proof.
  assert (H2 : Forall (fun o : FetchOutcome LatestBody => failed o = true)
                 (take 3 (latest (world_offline usd_rates)))) by (repeat constructor).
  split; [reflexivity|]. split; [exact H2|]. do 5 (split; [reflexivity|]).
  destruct (startup_offline Scripts_app fresh_session (world_offline usd_rates) _ usd_rates
              one (decimal 15005 1) eq_refl H2 eq_refl eq_refl eq_refl eq_refl
              eq_refl eq_refl eq_refl eq_refl eq_refl)
    as (_ & _ & _ & Ht & Hv & _).
  split; [rewrite Ht; reflexivity | exact Hv].
Defined.

(** X13: start-up with neither network nor cache.  The critical alert is
    raised and nothing else; the rate text, the total and the historical
    widget show what they showed and no historical request is made; rates
    count as not loaded, so every later [updateConversion] is turned away
    with the still-loading alert, whatever is entered. *)
Theorem startup_failed (rev : Revision) (st : App) (w : World) :
  hasRatesLoaded st = false ->
  Forall (fun o => failed o = true) (take 3 (latest w)) ->
  cache_loadable st w = false ->
  let st' := fst (fetchRatesAndInitialize rev st w) in
  hasRatesLoaded st' = false /\
  alerts st' = AlertCritical :: alerts st /\
  isOfflineMode st' = false /\
  rateDisplay st' = rateDisplay st /\
  totalDisplay st' = totalDisplay st /\
  historicalRates st' = historicalRates st /\
  historicalCalls st' = historicalCalls st /\
  forall input : App,
    hasRatesLoaded input = hasRatesLoaded st' ->
    updateConversion rev input = showAlert AlertStillLoading input.
Proof.
  intros Hl Hfail Hc. cbv zeta.
  unfold fetchRatesAndInitialize. rewrite Hl.
  replace (match rev with Scripts_app => false | Part_000 => false end) with false
    by (destruct rev; reflexivity).
  destruct (fetchRates_cases API_BASE_CURRENCY 3 st w ltac:(lia))
    as [(fs & data & rest & Hlat & _ & Hlen & _)
       |[(_ & snap & r & Hdb & Hget & Hdoc & Hp & _)|(_ & _ & ->)]].
  - exfalso. rewrite Hlat in Hfail. rewrite take_app_ge in Hfail by lia.
    apply Forall_app in Hfail as [_ Hfail].
    destruct (3 - length fs)%nat as [|n] eqn:Hn; [lia|].
    cbn [take] in Hfail. inversion Hfail as [|? ? Hbad _]. discriminate Hbad.
  - exfalso. unfold cache_loadable in Hc. rewrite Hdb, Hget, Hdoc, Hp in Hc. discriminate Hc.
  - cbn [fst]. do 7 (split; [destruct st; reflexivity|]).
    intros input Hi. apply updateConversion_not_ready. rewrite Hi. destruct st; reflexivity.
Qed.

Lemma startup_failed_witness :
  hasRatesLoaded fresh_session = false /\
  Forall (fun o => failed o = true)
    (take 3 (latest (mkWorld [] None false false "2024-01-02T00:00:00.000Z" []))) /\
  cache_loadable fresh_session (mkWorld [] None false false "2024-01-02T00:00:00.000Z" [])
    = false /\
  alerts (fst (fetchRatesAndInitialize Part_000 fresh_session
                 (mkWorld [] None false false "2024-01-02T00:00:00.000Z" [])))
    = [AlertCritical].
Proof.
  assert (H2 : Forall (fun o : FetchOutcome LatestBody => failed o = true)
                 (take 3 (latest (mkWorld [] None false false "2024-01-02T00:00:00.000Z" []))))
    by constructor.
  split; [reflexivity|]. split; [exact H2|]. split; [reflexivity|].
  destruct (startup_failed Part_000 fresh_session
              (mkWorld [] None false false "2024-01-02T00:00:00.000Z" []) eq_refl H2 eq_refl)
    as (_ & Hal & _).
  rewrite Hal. reflexivity.
Defined.

(** ** Further properties of the historical trend *)

(** X14: [fetchHistoricalRates] writes the historical widget and nothing
    else.  Without loaded rates or in offline mode it writes the
    requires-live-connection notice whatever the request would have
    returned; online, a rejected request, a response that is not ok or a
    body that does not parse gives the error notice; and it never leaves
    the widget blank. *)
Theorem fetchHistoricalRates_writes_widget (from to : string)
    (response : FetchOutcome SeriesBody) (st : App) :
  exists v,
    fetchHistoricalRates from to response st = set_historicalRates v st /\
    v <> ViewBlank /\
    (hasRatesLoaded st = false \/ isOfflineMode st = true -> v = ViewRequiresLiveConnection) /\
    (hasRatesLoaded st = true -> isOfflineMode st = false -> failed response = true ->
     v = ViewError).
Proof.
  unfold fetchHistoricalRates.
  destruct (hasRatesLoaded st) eqn:Hl, (isOfflineMode st) eqn:Ho; cbn [negb orb].
  1,3,4: (eexists; split; [reflexivity|]; split; [discriminate|]; split;
          [reflexivity | intros; discriminate]).
  destruct response as [|[] [[[series|]]|]]; cbn [failed series_rates].
  2: destruct (length series =? 0)%nat;
       [|destruct (length (sort_by_date (collect_points to series)) <? 2)%nat].
  all: eexists; split; [reflexivity|]; split; [discriminate|]; split;
         [intros [H|H]; discriminate H | intros _ _ H; first [reflexivity | discriminate H]].
Qed.

Lemma collect_points_elem (to : string) (series : list (Date * gmap string Number))
    (p : HistoricalPoint) :
  p ∈ collect_points to series <->
  exists quotes, (date p, quotes) ∈ series /\
    quotes !! to = Some (rate p) /\ ToBoolean (Some (rate p)) = true.
Proof.
  induction series as [|[d quotes] series IH]; cbn [collect_points].
  - split; [intros H; inversion H | intros (q & H & _); inversion H].
  - destruct (ToBoolean (quotes !! to)) eqn:Hb.
    + rewrite elem_of_cons, IH. split.
      * intros [->|(q & Hin & Hq)].
        -- exists quotes. cbn [date rate]. split; [left|].
           destruct (quotes !! to) as [r|]; [cbn; split; [reflexivity | exact Hb] | discriminate Hb].
        -- exists q. split; [right; exact Hin | exact Hq].
      * intros (q & Hin & Hq & Ht). apply elem_of_cons in Hin as [Heq|Hin].
        -- left. injection Heq as <- <-. destruct p as [pd pr]. cbn in *. rewrite Hq. reflexivity.
        -- right. exists q. split; [exact Hin | split; assumption].
    + rewrite IH. split.
      * intros (q & Hin & Hq). exists q. split; [right; exact Hin | exact Hq].
      * intros (q & Hin & Hq & Ht). apply elem_of_cons in Hin as [Heq|Hin].
        -- exfalso. injection Heq as <- <-. rewrite Hq, Ht in Hb. discriminate Hb.
        -- exists q. split; [exact Hin | split; assumption].
Qed.

Lemma ascending_strongly (l : list HistoricalPoint) :
  ascending l -> StronglySorted (fun a b => compare_dates a b <= 0) l.
Proof.
  apply Sorted_StronglySorted. intros a b c. unfold compare_dates. lia.
Qed.

Lemma strongly_sorted_last (l : list HistoricalPoint) :
  StronglySorted (fun a b => compare_dates a b <= 0) l ->
  forall p, p ∈ l -> compare_dates p (nth (length l - 1) l no_point) <= 0.
Proof.
  induction l as [|x l IH]; intros Hs p Hp; [inversion Hp|].
  apply StronglySorted_inv in Hs as [Hs Hall].
  destruct l as [|y l].
  - apply list_elem_of_singleton in Hp as ->. unfold compare_dates. cbn. lia.
  - replace (length (x :: y :: l) - 1)%nat with (S (length (y :: l) - 1)) by (cbn; lia).
    cbn [nth].
    apply elem_of_cons in Hp as [->|Hp]; [|apply IH; assumption].
    rewrite Forall_forall in Hall. apply Hall. apply list_elem_of_lookup.
    exists (length (y :: l) - 1)%nat. apply nth_lookup_point. cbn. lia.
Qed.

Lemma strongly_sorted_first (l : list HistoricalPoint) :
  StronglySorted (fun a b => compare_dates a b <= 0) l ->
  forall p, p ∈ l -> compare_dates (nth 0 l no_point) p <= 0.
Proof.
  destruct l as [|x l]; intros Hs p Hp; [inversion Hp|].
  apply StronglySorted_inv in Hs as [_ Hall]. cbn [nth].
  apply elem_of_cons in Hp as [->|Hp]; [unfold compare_dates; lia|].
  rewrite Forall_forall in Hall. apply Hall, Hp.
Qed.

(** X15: the trend compares the earliest with the latest point.  The
    points are the dates of the series that carry a truthy rate for the
    target currency; when there are at least two, the start and end of the
    trend shown are two of them, and no point is dated before the start or
    after the end, in whatever order the response lists its dates. *)
Theorem trend_spans_series (from to : string) (series : list (Date * gmap string Number))
    (st : App) :
  hasRatesLoaded st = true ->
  isOfflineMode st = false ->
  (2 <= length (collect_points to series))%nat ->
  exists t,
    fetchHistoricalRates from to (series_response series) st
      = set_historicalRates (ViewTrend t) st /\
    points t = length (collect_points to series) /\
    startPoint t ∈ collect_points to series /\
    endPoint t ∈ collect_points to series /\
    (forall p, p ∈ collect_points to series ->
       Date_getTime (date (startPoint t)) <= Date_getTime (date p) /\
       Date_getTime (date p) <= Date_getTime (date (endPoint t))) /\
    (forall p, p ∈ collect_points to series <->
       exists quotes, (date p, quotes) ∈ series /\
         quotes !! to = Some (rate p) /\ ToBoolean (Some (rate p)) = true).
Proof.
  intros Hl Ho Hlen.
  set (rates := sort_by_date (collect_points to series)).
  assert (Hlr : length rates = length (collect_points to series))
    by apply length_sort_by_date.
  assert (Hperm : rates ≡ₚ collect_points to series) by apply sort_by_date_perm.
  assert (Hss : StronglySorted (fun a b => compare_dates a b <= 0) rates)
    by apply ascending_strongly, sort_by_date_ascending.
  exists (trend rates). split.
  - rewrite fetchHistoricalRates_series; [| assumption | assumption |].
    + cbv zeta. fold rates.
      replace (length rates <? 2)%nat with false by (symmetry; apply Nat.ltb_ge; lia).
      reflexivity.
    + intros ->. cbn in Hlen. lia.
  - unfold trend. cbn [points startPoint endPoint].
    assert (H0 : nth 0 rates no_point ∈ rates)
      by (apply list_elem_of_lookup; exists 0%nat; apply nth_lookup_point; lia).
    assert (Hn : nth (length rates - 1) rates no_point ∈ rates)
      by (apply list_elem_of_lookup; exists (length rates - 1)%nat; apply nth_lookup_point; lia).
    split; [exact Hlr|].
    split; [rewrite <- Hperm; exact H0|]. split; [rewrite <- Hperm; exact Hn|].
    split; [|apply collect_points_elem].
    intros p Hp. rewrite <- Hperm in Hp.
    pose proof (strongly_sorted_first rates Hss p Hp) as H1.
    pose proof (strongly_sorted_last rates Hss p Hp) as H2.
    unfold compare_dates in H1, H2. lia.
Qed.

(** Three dates listed latest first, the middle one without a EUR rate. *)
Lemma trend_spans_series_witness :
  hasRatesLoaded (session usd_rates "100" hundred "USD" "EUR") = true /\
  isOfflineMode (session usd_rates "100" hundred "USD" "EUR") = false /\
  (2 <= length (collect_points "EUR"
                  [(mkDate 2024 1 3, {["EUR" := decimal 93 2]});
                   (mkDate 2024 1 2, {["GBP" := decimal 79 2]});
                   (mkDate 2024 1 1, {["EUR" := decimal 92 2]})]))%nat /\
  exists t,
    historicalRates
      (fetchHistoricalRates "USD" "EUR"
         (series_response [(mkDate 2024 1 3, {["EUR" := decimal 93 2]});
                           (mkDate 2024 1 2, {["GBP" := decimal 79 2]});
                           (mkDate 2024 1 1, {["EUR" := decimal 92 2]})])
         (session usd_rates "100" hundred "USD" "EUR"))
    = ViewTrend t /\
    points t = 2%nat /\
    Date_getTime (date (startPoint t)) <= Date_getTime (mkDate 2024 1 1).
Proof.
  assert (H3 : (2 <= length (collect_points "EUR"
                  [(mkDate 2024 1 3, {["EUR" := decimal 93 2]});
                   (mkDate 2024 1 2, {["GBP" := decimal 79 2]});
                   (mkDate 2024 1 1, {["EUR" := decimal 92 2]})]))%nat)
    by (vm_compute; lia).
  split; [reflexivity|]. split; [reflexivity|]. split; [exact H3|].
  destruct (trend_spans_series "USD" "EUR" _ (session usd_rates "100" hundred "USD" "EUR")
              eq_refl eq_refl H3) as (t & Hrun & Hpts & _ & _ & Hspan & _).
  exists t. rewrite Hrun. split; [reflexivity|]. split; [rewrite Hpts; reflexivity|].
  apply (Hspan (mkPoint (mkDate 2024 1 1) (decimal 92 2))).
  apply list_elem_of_In. vm_compute. tauto.
Defined.

Lemma collect_points_perm (to : string) (s1 s2 : list (Date * gmap string Number)) :
  s1 ≡ₚ s2 -> collect_points to s1 ≡ₚ collect_points to s2.
Proof.
  induction 1 as [|[d q] l1 l2 _ IH|[d1 q1] [d2 q2] l|l1 l2 l3 _ IH1 _ IH2];
    cbn [collect_points].
  - reflexivity.
  - destruct (ToBoolean (q !! to)); [rewrite IH|]; auto.
  - destruct (ToBoolean (q1 !! to)), (ToBoolean (q2 !! to)); try reflexivity.
    apply Permutation_swap.
  - etransitivity; eassumption.
Qed.

Lemma collect_points_times (to : string) (series : list (Date * gmap string Number)) :
  NoDup (series_times series) ->
  NoDup (map (fun p => Date_getTime (date p)) (collect_points to series)).
Proof.
  unfold series_times.
  induction series as [|[d q] series IH]; cbn [collect_points map]; intros Hnd.
  - constructor.
  - apply NoDup_cons in Hnd as [Hd Hnd]. cbn [fst] in Hd.
    destruct (ToBoolean (q !! to)); [|apply IH, Hnd].
    cbn [map date]. apply NoDup_cons. split; [|apply IH, Hnd].
    intros Hin. apply Hd. apply list_elem_of_fmap in Hin as (p & Hp & Hin).
    apply collect_points_elem in Hin as (q' & Hin & _).
    apply list_elem_of_fmap. exists (date p, q'). split; [exact Hp | exact Hin].
Qed.

(** Two date-sorted arrangements of the same points, all of different
    dates, are the same array. *)
Lemma sorted_arrangement_unique (l1 : list HistoricalPoint) :
  forall l2,
    StronglySorted (fun a b => compare_dates a b <= 0) l1 ->
    StronglySorted (fun a b => compare_dates a b <= 0) l2 ->
    l1 ≡ₚ l2 ->
    NoDup (map (fun p => Date_getTime (date p)) l1) ->
    l1 = l2.
Proof.
  induction l1 as [|x l1 IH]; intros l2 Hs1 Hs2 Hp Hnd.
  - apply Permutation_nil_l in Hp. congruence.
  - destruct l2 as [|y l2]; [apply Permutation_nil_r in Hp; discriminate Hp|].
    apply StronglySorted_inv in Hs1 as [Hs1 Hall1].
    apply StronglySorted_inv in Hs2 as [Hs2 Hall2].
    rewrite Forall_forall in Hall1, Hall2.
    cbn [map] in Hnd. apply NoDup_cons in Hnd as [Hx Hnd].
    assert (Hxy : x = y).
    { assert (Hxin : x ∈ y :: l2) by (rewrite <- Hp; left).
      assert (Hyin : y ∈ x :: l1) by (rewrite Hp; left).
      apply elem_of_cons in Hxin as [Hxin|Hxin]; [exact Hxin|].
      apply elem_of_cons in Hyin as [Hyin|Hyin]; [symmetry; exact Hyin|].
      exfalso. apply Hx.
      pose proof (Hall2 x Hxin) as H1. pose proof (Hall1 y Hyin) as H2.
      unfold compare_dates in H1, H2.
      replace (Date_getTime (date x)) with (Date_getTime (date y)) by lia.
      apply list_elem_of_fmap. exists y. split; [reflexivity | exact Hyin]. }
    subst y. f_equal. apply IH; try assumption.
    apply (Permutation_cons_inv Hp).
Qed.

(** X16: the order in which the response lists its dates does not matter.
    Two series with the same entries, all of different dates, give the same
    view in every session. *)
Theorem fetchHistoricalRates_order_independent (from to : string)
    (series1 series2 : list (Date * gmap string Number)) (st : App) :
  series1 ≡ₚ series2 ->
  NoDup (series_times series1) ->
  fetchHistoricalRates from to (series_response series1) st
    = fetchHistoricalRates from to (series_response series2) st.
Proof.
  intros Hp Hnd.
  assert (Hsort : sort_by_date (collect_points to series1)
                  = sort_by_date (collect_points to series2)).
  { apply sorted_arrangement_unique.
    - apply ascending_strongly, sort_by_date_ascending.
    - apply ascending_strongly, sort_by_date_ascending.
    - rewrite !sort_by_date_perm. apply collect_points_perm, Hp.
    - rewrite sort_by_date_perm. apply collect_points_times, Hnd. }
  unfold fetchHistoricalRates, series_response. cbn [series_rates].
  rewrite Hsort, (Permutation_length Hp). reflexivity.
Qed.

Lemma fetchHistoricalRates_order_independent_witness :
  ([(mkDate 2024 1 2, {["EUR" := decimal 93 2]}); (mkDate 2024 1 1, {["EUR" := decimal 92 2]})]
     : list (Date * gmap string Number))
    ≡ₚ [(mkDate 2024 1 1, {["EUR" := decimal 92 2]}); (mkDate 2024 1 2, {["EUR" := decimal 93 2]})] /\
  NoDup (series_times
           [(mkDate 2024 1 2, {["EUR" := decimal 93 2]});
            (mkDate 2024 1 1, ({["EUR" := decimal 92 2]} : gmap string Number))]) /\
  fetchHistoricalRates "USD" "EUR"
    (series_response
       [(mkDate 2024 1 2, {["EUR" := decimal 93 2]}); (mkDate 2024 1 1, {["EUR" := decimal 92 2]})])
    (session usd_rates "100" hundred "USD" "EUR")
  = fetchHistoricalRates "USD" "EUR"
      (series_response
         [(mkDate 2024 1 1, {["EUR" := decimal 92 2]}); (mkDate 2024 1 2, {["EUR" := decimal 93 2]})])
      (session usd_rates "100" hundred "USD" "EUR").
Proof.
  assert (H1 : [(mkDate 2024 1 2, ({["EUR" := decimal 93 2]} : gmap string Number));
                (mkDate 2024 1 1, {["EUR" := decimal 92 2]})]
               ≡ₚ [(mkDate 2024 1 1, {["EUR" := decimal 92 2]});
                   (mkDate 2024 1 2, {["EUR" := decimal 93 2]})])
    by apply Permutation_swap.
  assert (H2 : NoDup (series_times
                 [(mkDate 2024 1 2, {["EUR" := decimal 93 2]});
                  (mkDate 2024 1 1, ({["EUR" := decimal 92 2]} : gmap string Number))])).
  { apply NoDup_cons. split; [|apply NoDup_singleton].
    intros H. apply list_elem_of_singleton in H. vm_compute in H. discriminate H. }
  split; [exact H1|]. split; [exact H2|].
  apply (fetchHistoricalRates_order_independent "USD" "EUR" _ _ _ H1 H2).
Defined.

Lemma Number_sub_self (s : bool) (m : positive) (e : Z) :
  Number_sub (S754_finite s m e) (S754_finite s m e) = S754_zero false.
Proof.
  unfold Number_sub, SFsub. cbv zeta. rewrite Z.min_id.
  unfold shl_align. rewrite !Z.sub_diag. reflexivity.
Qed.

(** X17: when the earliest and the latest point carry the same finite
    rate, the constants of the trend are a change of [+0], the direction
    "stable" and the string "0.00" for [percentageChange] (of which the
    paragraph prints the absolute value, 0), whatever the rates in
    between. *)
Theorem trend_stable (from to : string) (series : list (Date * gmap string Number))
    (st : App) (first last : HistoricalPoint) (s : bool) (m : positive) (e : Z) :
  hasRatesLoaded st = true ->
  isOfflineMode st = false ->
  (2 <= length (collect_points to series))%nat ->
  sort_by_date (collect_points to series) !! 0%nat = Some first ->
  sort_by_date (collect_points to series) !! (length (collect_points to series) - 1)%nat
    = Some last ->
  rate first = S754_finite s m e ->
  rate last = S754_finite s m e ->
  fetchHistoricalRates from to (series_response series) st =
    set_historicalRates
      (ViewTrend (mkTrend (length (collect_points to series)) first last
                    (S754_zero false) "0.00" Stable))
      st.
Proof.
  intros Hl Ho Hlen H0 Hn Hr0 Hrn.
  rewrite fetchHistoricalRates_series; [| assumption | assumption |].
  2:{ intros ->. cbn in Hlen. lia. }
  cbv zeta. rewrite length_sort_by_date.
  replace (length (collect_points to series) <? 2)%nat with false
    by (symmetry; apply Nat.ltb_ge; lia).
  unfold trend. rewrite length_sort_by_date.
  rewrite (nth_lookup_point _ 0%nat) in H0 by (rewrite length_sort_by_date; lia).
  rewrite (nth_lookup_point _ (length (collect_points to series) - 1)%nat) in Hn
    by (rewrite length_sort_by_date; lia).
  injection H0 as ->. injection Hn as ->.
  rewrite Hr0, Hrn, Number_sub_self.
  destruct s; reflexivity.
Qed.

Lemma trend_stable_witness :
  hasRatesLoaded (session usd_rates "100" hundred "USD" "EUR") = true /\
  isOfflineMode (session usd_rates "100" hundred "USD" "EUR") = false /\
  historicalRates
    (fetchHistoricalRates "USD" "EUR"
       (series_response [(mkDate 2024 1 1, {["EUR" := decimal 92 2]});
                         (mkDate 2024 1 2, {["EUR" := decimal 95 2]});
                         (mkDate 2024 1 3, {["EUR" := decimal 92 2]})])
       (session usd_rates "100" hundred "USD" "EUR"))
  = ViewTrend (mkTrend 3 (mkPoint (mkDate 2024 1 1) (decimal 92 2))
                 (mkPoint (mkDate 2024 1 3) (decimal 92 2)) (S754_zero false) "0.00" Stable).
Proof.
  split; [reflexivity|]. split; [reflexivity|].
  assert (Hlen : (2 <= length (collect_points "EUR"
                    [(mkDate 2024 1 1, {["EUR" := decimal 92 2]});
                     (mkDate 2024 1 2, {["EUR" := decimal 95 2]});
                     (mkDate 2024 1 3, {["EUR" := decimal 92 2]})]))%nat)
    by (vm_compute; lia).
  rewrite (trend_stable "USD" "EUR" _ (session usd_rates "100" hundred "USD" "EUR")
             (mkPoint (mkDate 2024 1 1) (decimal 92 2))
             (mkPoint (mkDate 2024 1 3) (decimal 92 2))
             false 8286623314361713 (-53) eq_refl eq_refl
             Hlen eq_refl eq_refl eq_refl eq_refl).
  reflexivity.
Defined.

(** ** The sign of a difference of two rates *)

Lemma digits2_pos_bounds (m : positive) :
  2 ^ (Z.pos (digits2_pos m) - 1) <= Z.pos m < 2 ^ Z.pos (digits2_pos m).
Proof.
  induction m as [m IH|m IH|]; cbn [digits2_pos]; rewrite ?Pos2Z.inj_succ.
  - replace (Z.succ (Z.pos (digits2_pos m)) - 1) with (Z.succ (Z.pos (digits2_pos m) - 1))
      by lia.
    rewrite !Z.pow_succ_r by lia. lia.
  - replace (Z.succ (Z.pos (digits2_pos m)) - 1) with (Z.succ (Z.pos (digits2_pos m) - 1))
      by lia.
    rewrite !Z.pow_succ_r by lia. lia.
  - cbn. lia.
Qed.

Lemma shr_1_m (mrs : shr_record) :
  0 <= shr_m mrs -> shr_m (shr_1 mrs) = shr_m mrs / 2.
Proof.
  destruct mrs as [m r s]. cbn [shr_m]. intros Hm.
  destruct m as [|[p|p|]|p]; cbn [shr_1 shr_m]; try lia.
  - reflexivity.
  - apply (Z.div_unique _ _ _ 1); lia.
  - apply (Z.div_unique _ _ _ 0); lia.
  - reflexivity.
Qed.

Lemma pow2_double (p : positive) :
  2 ^ Z.pos p~0 = 2 ^ Z.pos p * 2 ^ Z.pos p /\
  2 ^ Z.pos p~1 = 2 * (2 ^ Z.pos p * 2 ^ Z.pos p).
Proof.
  replace (Z.pos p~1) with (1 + (Z.pos p + Z.pos p)) by lia.
  replace (Z.pos p~0) with (Z.pos p + Z.pos p) by lia.
  rewrite !Z.pow_add_r by lia. split; reflexivity.
Qed.

Lemma iter_shr_1_m (p : positive) (mrs : shr_record) :
  0 <= shr_m mrs ->
  shr_m (SpecFloat.iter_pos shr_1 p mrs) = shr_m mrs / 2 ^ Z.pos p.
Proof.
  revert mrs. induction p as [p IH|p IH|]; intros mrs Hm; cbn [SpecFloat.iter_pos].
  - destruct (pow2_double p) as [HO HI]. assert (Hp : 0 < 2 ^ Z.pos p) by lia.
    assert (H1 : 0 <= shr_m (shr_1 mrs)) by (rewrite shr_1_m by lia; apply Z.div_pos; lia).
    assert (H2 : 0 <= shr_m (SpecFloat.iter_pos shr_1 p (shr_1 mrs)))
      by (rewrite IH by lia; apply Z.div_pos; lia).
    rewrite IH by lia. rewrite IH by lia. rewrite shr_1_m by lia.
    rewrite !Z.div_div by lia. rewrite HI. f_equal.
  - destruct (pow2_double p) as [HO HI]. assert (Hp : 0 < 2 ^ Z.pos p) by lia.
    assert (H2 : 0 <= shr_m (SpecFloat.iter_pos shr_1 p mrs))
      by (rewrite IH by lia; apply Z.div_pos; lia).
    rewrite IH by lia. rewrite IH by lia.
    rewrite !Z.div_div by lia. rewrite HO. reflexivity.
  - rewrite shr_1_m by lia. reflexivity.
Qed.

Lemma shr_record_of_loc_m (m : Z) (l : location) : shr_m (shr_record_of_loc m l) = m.
Proof. destruct l as [|[]]; reflexivity. Qed.

(** Shifting a positive mantissa to its format exponent never loses all
    of it, as long as the exponent is not below the smallest one. *)
Lemma shr_fexp_positive (m e : Z) (l : location) :
  0 < m -> -1074 <= e ->
  0 < shr_m (shr_fexp prec emax m e l).1 /\ -1074 <= (shr_fexp prec emax m e l).2.
Proof.
  intros Hm He. destruct m as [|p|p]; try lia.
  unfold shr_fexp, Zdigits2.
  pose proof (digits2_pos_bounds p) as [Hlow _].
  set (d := Z.pos (digits2_pos p)) in *.
  unfold shr.
  destruct (fexp prec emax (d + e) - e) as [|n|n] eqn:Hn; cbn [fst snd];
    rewrite ?shr_record_of_loc_m; try (split; lia).
  assert (Hd : Z.pos n = d - 53) by (revert Hn; unfold fexp, emin, prec, emax; lia).
  rewrite iter_shr_1_m by (rewrite shr_record_of_loc_m; lia).
  rewrite shr_record_of_loc_m. split; [|lia].
  apply Z.lt_le_trans with (2 ^ 52); [reflexivity|].
  apply Z.div_le_lower_bound; [lia|].
  rewrite <- Z.pow_add_r by lia.
  replace (Z.pos n + 52) with (d - 1) by lia. exact Hlow.
Qed.

Lemma round_nearest_even_ge (mx : Z) (lx : location) : mx <= round_nearest_even mx lx.
Proof. destruct lx as [|[]]; cbn; try destruct (Z.even mx); lia. Qed.

Lemma binary_round_aux_sign (s : bool) (m e : Z) (l : location) :
  0 < m -> -1074 <= e -> signed_nonzero s (binary_round_aux prec emax s m e l).
Proof.
  intros Hm He. unfold binary_round_aux.
  destruct (shr_fexp_positive m e l Hm He) as [H1 H2].
  destruct (shr_fexp prec emax m e l) as [mrs' e']. cbn [fst snd] in H1, H2.
  pose proof (round_nearest_even_ge (shr_m mrs') (loc_of_shr_record mrs')) as Hr.
  destruct (shr_fexp_positive (round_nearest_even (shr_m mrs') (loc_of_shr_record mrs')) e'
              loc_Exact ltac:(lia) H2) as [H3 _].
  destruct (shr_fexp prec emax _ e' loc_Exact) as [mrs'' e'']. cbn [fst] in H3.
  destruct (shr_m mrs'') as [|m''|m'']; try lia.
  destruct (e'' <=? emax - prec); [right; eauto|left; reflexivity].
Qed.

Lemma binary_round_sign (s : bool) (m : positive) (e : Z) :
  -1074 <= e -> signed_nonzero s (binary_round prec emax s m e).
Proof.
  intros He. unfold binary_round, shl_align.
  destruct (fexp prec emax (Z.pos (digits2_pos m) + e) - e) eqn:Hn;
    apply binary_round_aux_sign; try lia.
  unfold fexp, emin, prec, emax. lia.
Qed.

Lemma binary_normalize_sign (z e : Z) :
  -1074 <= e ->
  Number_gt (binary_normalize prec emax z e false) zero = (0 <? z) /\
  Number_lt (binary_normalize prec emax z e false) zero = (z <? 0).
Proof.
  intros He. unfold Number_gt, Number_lt, zero, binary_normalize.
  destruct z as [|p|p].
  - split; reflexivity.
  - destruct (binary_round_sign false p e He) as [->|(m' & e' & ->)]; split; reflexivity.
  - destruct (binary_round_sign true p e He) as [->|(m' & e' & ->)]; split; reflexivity.
Qed.

Lemma shl_align_value (mx : positive) (ex ez : Z) :
  ez <= ex -> Z.pos (shl_align mx ex ez).1 = Z.pos mx * 2 ^ (ex - ez).
Proof.
  intros H. unfold shl_align.
  destruct (ez - ex) as [|d|d] eqn:Hd; try lia.
  - replace (ex - ez) with 0 by lia. cbn [fst]. lia.
  - cbn [fst]. replace (ex - ez) with (Z.pos d) by lia.
    change (Pos.iter xO mx d) with (shift_pos d mx).
    rewrite shift_pos_correct. change (Zpower_pos 2 d) with (2 ^ Z.pos d). lia.
Qed.

Lemma bounded_exponent (m : positive) (e : Z) :
  bounded prec emax m e = true ->
  -1074 <= e /\ Z.pos (digits2_pos m) <= 53 /\ (-1074 < e -> Z.pos (digits2_pos m) = 53).
Proof.
  unfold bounded, canonical_mantissa. intros H.
  apply andb_prop in H as [Hc _]. apply Z.eqb_eq in Hc.
  revert Hc. unfold fexp, emin, prec, emax. lia.
Qed.

(** Two canonical positive numbers compare as their mantissas aligned to
    the smaller exponent. *)
Lemma SFcompare_aligned (mx my : positive) (ex ey : Z) :
  bounded prec emax mx ex = true ->
  bounded prec emax my ey = true ->
  SFcompare (S754_finite false mx ex) (S754_finite false my ey) =
    Some (Z.pos mx * 2 ^ (ex - Z.min ex ey) ?= Z.pos my * 2 ^ (ey - Z.min ex ey)).
Proof.
  intros Hx Hy.
  destruct (bounded_exponent _ _ Hx) as (Hex & Hdx & Hnx).
  destruct (bounded_exponent _ _ Hy) as (Hey & Hdy & Hny).
  pose proof (digits2_pos_bounds mx) as [Hlx Hux].
  pose proof (digits2_pos_bounds my) as [Hly Huy].
  cbn [SFcompare]. f_equal.
  destruct (Z.compare_spec ex ey) as [Heq|Hlt|Hgt].
  - subst ey. rewrite Z.min_id, Z.sub_diag, !Z.mul_1_r. reflexivity.
  - rewrite Z.min_l by lia. rewrite Z.sub_diag, Z.mul_1_r. symmetry.
    apply Z.compare_lt_iff.
    rewrite (Hny ltac:(lia)) in Hly. change (2 ^ (53 - 1)) with (2 ^ 52) in Hly.
    assert (H2 : 2 <= 2 ^ (ey - ex))
      by (change 2 with (2 ^ 1) at 1; apply Z.pow_le_mono_r; lia).
    assert (H53 : Z.pos mx < 2 ^ 53)
      by (eapply Z.lt_le_trans; [exact Hux|apply Z.pow_le_mono_r; lia]).
    change (2 ^ 53) with (2 ^ 52 * 2) in H53. nia.
  - rewrite Z.min_r by lia. rewrite Z.sub_diag, Z.mul_1_r. symmetry.
    apply Z.compare_gt_iff.
    rewrite (Hnx ltac:(lia)) in Hlx. change (2 ^ (53 - 1)) with (2 ^ 52) in Hlx.
    assert (H2 : 2 <= 2 ^ (ex - ey))
      by (change 2 with (2 ^ 1) at 1; apply Z.pow_le_mono_r; lia).
    assert (H53 : Z.pos my < 2 ^ 53)
      by (eapply Z.lt_le_trans; [exact Huy|apply Z.pow_le_mono_r; lia]).
    change (2 ^ 53) with (2 ^ 52 * 2) in H53. nia.
Qed.

(** For positive rates the sign of [y - x] is the outcome of comparing
    them: rounding never turns a difference into zero or flips it. *)
Lemma Number_sub_sign (x y : Number) :
  positive_rate x = true -> positive_rate y = true ->
  Number_gt (Number_sub y x) zero = Number_lt x y /\
  Number_lt (Number_sub y x) zero = Number_lt y x.
Proof.
  destruct x as [| | |[] mx ex]; try discriminate.
  destruct y as [| | |[] my ey]; try discriminate.
  cbn [positive_rate]. intros Hx Hy.
  destruct (bounded_exponent _ _ Hx) as (Hex & _).
  destruct (bounded_exponent _ _ Hy) as (Hey & _).
  unfold Number_sub, SFsub. cbv zeta. cbn [cond_Zopp].
  destruct (binary_normalize_sign
              (Z.pos (shl_align my ey (Z.min ey ex)).1 - Z.pos (shl_align mx ex (Z.min ey ex)).1)
              (Z.min ey ex) ltac:(lia)) as [-> ->].
  rewrite !shl_align_value by lia.
  unfold Number_lt, SFltb.
  rewrite (SFcompare_aligned mx my ex ey Hx Hy), (SFcompare_aligned my mx ey ex Hy Hx).
  rewrite (Z.min_comm ex ey).
  set (X := Z.pos mx * 2 ^ (ex - Z.min ey ex)).
  set (Y := Z.pos my * 2 ^ (ey - Z.min ey ex)).
  split.
  - destruct (Z.compare_spec X Y); destruct (Z.ltb_spec 0 (Y - X)); try reflexivity; lia.
  - destruct (Z.compare_spec Y X); destruct (Z.ltb_spec (Y - X) 0); try reflexivity; lia.
Qed.

Lemma Number_lt_neither (x y : Number) :
  positive_rate x = true -> positive_rate y = true ->
  Number_lt x y = false -> Number_lt y x = false -> x = y.
Proof.
  destruct x as [| | |[] mx ex]; try discriminate.
  destruct y as [| | |[] my ey]; try discriminate.
  intros _ _. unfold Number_lt, SFltb. cbn [SFcompare].
  rewrite (Z.compare_antisym ex ey).
  destruct (Z.compare_spec ex ey) as [->|_|_]; cbn [CompOpp]; try discriminate.
  change (Pos.compare_cont Eq mx my) with (mx ?= my)%positive.
  change (Pos.compare_cont Eq my mx) with (my ?= mx)%positive.
  rewrite (Pos.compare_antisym mx my).
  destruct (Pos.compare_spec mx my) as [->|_|_]; cbn [CompOpp]; try discriminate.
  reflexivity.
Qed.

Lemma Number_lt_irrefl (x : Number) : Number_lt x x = false.
Proof.
  unfold Number_lt, SFltb.
  destruct x as [[]|[]| |[] m e]; cbn [SFcompare]; try reflexivity;
    rewrite Z.compare_refl;
    change (Pos.compare_cont Eq m m) with (m ?= m)%positive;
    rewrite Pos.compare_refl; reflexivity.
Qed.

(** X18: for positive first and last rates the trend text is the outcome
    of comparing them: "increased" exactly when the last rate of the series
    is above the first, "decreased" exactly when it is below, "stable"
    exactly when the two are the same number; rounding the difference
    never changes its sign. *)
Theorem trend_direction (from to : string) (series : list (Date * gmap string Number))
    (st : App) (first last : HistoricalPoint) :
  hasRatesLoaded st = true ->
  isOfflineMode st = false ->
  (2 <= length (collect_points to series))%nat ->
  sort_by_date (collect_points to series) !! 0%nat = Some first ->
  sort_by_date (collect_points to series) !! (length (collect_points to series) - 1)%nat
    = Some last ->
  positive_rate (rate first) = true ->
  positive_rate (rate last) = true ->
  exists t,
    historicalRates (fetchHistoricalRates from to (series_response series) st) = ViewTrend t /\
    startPoint t = first /\ endPoint t = last /\
    (trendText t = Increased <-> Number_lt (rate first) (rate last) = true) /\
    (trendText t = Decreased <-> Number_lt (rate last) (rate first) = true) /\
    (trendText t = Stable <-> rate first = rate last).
Proof.
  intros Hl Ho Hlen H0 Hn Hp0 Hpn.
  rewrite fetchHistoricalRates_series; [| assumption | assumption |].
  2:{ intros ->. cbn in Hlen. lia. }
  cbv zeta. rewrite length_sort_by_date.
  replace (length (collect_points to series) <? 2)%nat with false
    by (symmetry; apply Nat.ltb_ge; lia).
  rewrite (nth_lookup_point _ 0%nat) in H0 by (rewrite length_sort_by_date; lia).
  rewrite (nth_lookup_point _ (length (collect_points to series) - 1)%nat) in Hn
    by (rewrite length_sort_by_date; lia).
  injection H0 as H0. injection Hn as Hn.
  eexists. split; [destruct st; reflexivity|].
  unfold trend. rewrite length_sort_by_date. cbn [startPoint endPoint trendText].
  rewrite H0, Hn.
  destruct (Number_sub_sign (rate first) (rate last) Hp0 Hpn) as [-> ->].
  split; [reflexivity|]. split; [reflexivity|].
  destruct (Number_lt (rate first) (rate last)) eqn:Hup.
  { split; [tauto|]. split; [split; [discriminate|]|split; [discriminate|]].
    - intros Hdown.
      pose proof (Number_sub_sign (rate first) (rate last) Hp0 Hpn) as [Hs1 Hs2].
      rewrite Hup in Hs1. rewrite Hdown in Hs2.
      unfold Number_gt, Number_lt, SFltb in Hs1, Hs2.
      destruct (Number_sub (rate last) (rate first)) as [[]|[]| |[] ? ?];
        cbn in Hs1, Hs2; discriminate.
    - intros Heq. rewrite Heq, Number_lt_irrefl in Hup. discriminate. }
  destruct (Number_lt (rate last) (rate first)) eqn:Hdown.
  { split; [split; discriminate|]. split; [tauto|]. split; [discriminate|].
    intros Heq. rewrite Heq, Number_lt_irrefl in Hdown. discriminate. }
  split; [split; discriminate|]. split; [split; discriminate|].
  split; [intros _|reflexivity].
  apply Number_lt_neither; assumption.
Qed.

Lemma trend_direction_witness :
  let series : list (Date * gmap string Number) :=
    [(mkDate 2024 1 3, {["EUR" := decimal 95 2]});
     (mkDate 2024 1 1, {["EUR" := decimal 92 2]})] in
  hasRatesLoaded (session usd_rates "100" hundred "USD" "EUR") = true /\
  positive_rate (decimal 92 2) = true /\ positive_rate (decimal 95 2) = true /\
  Number_lt (decimal 92 2) (decimal 95 2) = true /\
  exists t,
    historicalRates
      (fetchHistoricalRates "USD" "EUR" (series_response series)
         (session usd_rates "100" hundred "USD" "EUR")) = ViewTrend t /\
    trendText t = Increased.
Proof.
  cbv zeta.
  assert (Hlen : (2 <= length (collect_points "EUR"
                    [(mkDate 2024 1 3, {["EUR" := decimal 95 2]} : gmap string Number);
                     (mkDate 2024 1 1, {["EUR" := decimal 92 2]})]))%nat)
    by (vm_compute; lia).
  assert (Hlt : Number_lt (decimal 92 2) (decimal 95 2) = true) by (vm_compute; reflexivity).
  split; [reflexivity|]. split; [vm_compute; reflexivity|].
  split; [vm_compute; reflexivity|]. split; [exact Hlt|].
  destruct (trend_direction "USD" "EUR" _ (session usd_rates "100" hundred "USD" "EUR")
              (mkPoint (mkDate 2024 1 1) (decimal 92 2))
              (mkPoint (mkDate 2024 1 3) (decimal 95 2))
              eq_refl eq_refl Hlen
              ltac:(vm_compute; reflexivity) ltac:(vm_compute; reflexivity)
              ltac:(vm_compute; reflexivity) ltac:(vm_compute; reflexivity))
    as (t & Hview & _ & _ & Hinc & _).
  exists t. split; [exact Hview|]. apply Hinc. exact Hlt.
Defined.

(** ** The favourites of the later revision *)

Lemma snapshot_forEach_spec (docs : list (string * FavoriteDoc)) (p : Page) :
  snapshot_forEach docs p =
    set_favoritesList (favoritesList p ++ map entry_of docs)
      (set_favoritesMap
         (foldl (fun m doc => <[key_of doc.2 := doc.1]> m) (favoritesMap p) docs) p).
Proof.
  revert p. induction docs as [|[id data] rest IH]; intros p.
  - destruct p. cbn. rewrite app_nil_r. reflexivity.
  - cbn [snapshot_forEach]. rewrite IH. destruct p. cbn.
    rewrite <- app_assoc. reflexivity.
Qed.

Lemma foldl_favorites_lookup (docs : list (string * FavoriteDoc))
    (m : gmap string string) (k : string) :
  foldl (fun m doc => <[key_of doc.2 := doc.1]> m) m docs !! k =
    match last (filter (fun doc => key_of doc.2 = k) docs) with
    | Some doc => Some doc.1
    | None => m !! k
    end.
Proof.
  induction docs as [|doc docs IH] using rev_ind; [reflexivity|].
  rewrite foldl_app, filter_app. cbn [foldl].
  destruct (decide (key_of doc.2 = k)) as [Hk|Hk].
  - rewrite filter_cons_True by exact Hk. rewrite filter_nil, last_snoc.
    rewrite Hk, lookup_insert_eq. reflexivity.
  - rewrite filter_cons_False by exact Hk. rewrite filter_nil, app_nil_r.
    rewrite lookup_insert_ne by exact Hk. exact IH.
Qed.

Lemma favoritesSnapshot_spec (docs : list (string * FavoriteDoc)) (p : Page) :
  favoritesSnapshot docs p =
    let m := foldl (fun m doc => <[key_of doc.2 := doc.1]> m) ∅ docs in
    updateFavoriteIcon (fromCurrency_value (app p)) (toCurrency_value (app p))
      (set_favoritesList (match docs with [] => [NoFavoritesYet] | _ => map entry_of docs end)
         (set_favoritesMap m p)).
Proof.
  unfold favoritesSnapshot. destruct docs as [|doc docs].
  - destruct p; reflexivity.
  - rewrite snapshot_forEach_spec. destruct p; reflexivity.
Qed.

Lemma updateFavoriteIcon_frame (from to : string) (p : Page) :
  let p' := updateFavoriteIcon from to p in
  app p' = app p /\ userId p' = userId p /\ isAuthReady p' = isAuthReady p /\
  favoritesMap p' = favoritesMap p /\ favoritesList p' = favoritesList p /\
  notices p' = notices p /\ snapshotListeners p' = snapshotListeners p.
Proof.
  unfold updateFavoriteIcon. cbv zeta.
  destruct (bool_decide _); destruct p; cbn; repeat split.
Qed.

Lemma updateFavoriteIcon_star (from to : string) (p : Page) :
  icon_star (favoriteIcon (updateFavoriteIcon from to p)) =
    if bool_decide (is_Some (favoritesMap p !! pair_key from to))
    then FilledStar else OutlineStar.
Proof.
  unfold updateFavoriteIcon. cbv zeta.
  destruct (bool_decide _); destruct p; reflexivity.
Qed.

Lemma favoritesSnapshot_lookup (docs : list (string * FavoriteDoc)) (p : Page) (k : string) :
  favoritesMap (favoritesSnapshot docs p) !! k =
    fst <$> last (filter (fun doc => key_of doc.2 = k) docs).
Proof.
  rewrite favoritesSnapshot_spec. cbv zeta.
  destruct (updateFavoriteIcon_frame (fromCurrency_value (app p)) (toCurrency_value (app p))
              (set_favoritesList (match docs with [] => [NoFavoritesYet] | _ => map entry_of docs end)
                 (set_favoritesMap (foldl (fun m doc => <[key_of doc.2 := doc.1]> m) ∅ docs) p)))
    as (_ & _ & _ & -> & _).
  cbn [favoritesMap set_favoritesList set_favoritesMap].
  rewrite foldl_favorites_lookup.
  destruct (last _); [reflexivity|]. apply lookup_empty.
Qed.

Lemma favoritesSnapshot_is_favorite (docs : list (string * FavoriteDoc)) (p : Page) (k : string) :
  is_Some (favoritesMap (favoritesSnapshot docs p) !! k) <->
  exists doc, doc ∈ docs /\ key_of doc.2 = k.
Proof.
  rewrite favoritesSnapshot_lookup. split.
  - intros [i Hi]. destruct (last _) as [doc|] eqn:Hl; [|discriminate].
    exists doc. apply last_Some_elem_of in Hl.
    apply list_elem_of_filter in Hl. tauto.
  - intros (doc & Hin & Hk).
    assert (Hf : doc ∈ filter (fun doc => key_of doc.2 = k) docs)
      by (apply list_elem_of_filter; split; assumption).
    destruct (last _) as [e|] eqn:Hl; [eexists; reflexivity|].
    apply last_None in Hl. rewrite Hl in Hf. inversion Hf.
Qed.

Lemma favoritesSnapshot_lookup_elem (docs : list (string * FavoriteDoc)) (p : Page)
    (k i : string) :
  favoritesMap (favoritesSnapshot docs p) !! k = Some i ->
  exists data, (i, data) ∈ docs /\ key_of data = k.
Proof.
  rewrite favoritesSnapshot_lookup. intros Hi.
  destruct (last _) as [[i' data]|] eqn:Hl; [|discriminate].
  cbn in Hi. injection Hi as ->. exists data.
  apply last_Some_elem_of in Hl. apply list_elem_of_filter in Hl. tauto.
Qed.

(** Membership of a class name in a class list written out. *)
Ltac class_listed :=
  rewrite ?elem_of_union, ?elem_of_singleton; tauto.
Ltac class_not_listed H :=
  rewrite ?elem_of_union, ?elem_of_singleton in H;
  repeat match goal with H : _ \/ _ |- _ => destruct H end; discriminate.

(** X19: a snapshot rebuilds the favourites map from nothing: a pair is
    mapped to the id of the last document of the snapshot that holds it, and
    pairs no document holds are absent, whatever the map held before. *)
Theorem favoritesSnapshot_last_wins (docs : list (string * FavoriteDoc)) (p : Page)
    (k : string) :
  favoritesMap (favoritesSnapshot docs p) !! k =
    fst <$> last (filter (fun doc => key_of doc.2 = k) docs).
Proof. apply favoritesSnapshot_lookup. Qed.

(** X20: after a snapshot the list shows one entry per document, in the
    snapshot's order, or the placeholder alone when there is none; the star
    is filled exactly when some document holds the selected pair, and it
    carries the yellow class exactly then; the conversion and the alerts
    are not touched. *)
Theorem favoritesSnapshot_view (docs : list (string * FavoriteDoc)) (p : Page) :
  let p' := favoritesSnapshot docs p in
  let selected := pair_key (fromCurrency_value (app p)) (toCurrency_value (app p)) in
  favoritesList p' =
    (match docs with [] => [NoFavoritesYet] | _ => map entry_of docs end) /\
  (icon_star (favoriteIcon p') = FilledStar <->
   exists doc, doc ∈ docs /\ key_of doc.2 = selected) /\
  (icon_star (favoriteIcon p') = FilledStar <->
   "text-yellow-500" ∈ icon_classes (favoriteIcon p')) /\
  (icon_star (favoriteIcon p') = OutlineStar <->
   "text-gray-400" ∈ icon_classes (favoriteIcon p')) /\
  app p' = app p /\ notices p' = notices p.
Proof.
  cbv zeta.
  pose proof (favoritesSnapshot_is_favorite docs p
                (pair_key (fromCurrency_value (app p)) (toCurrency_value (app p)))) as Hfav.
  rewrite favoritesSnapshot_spec in *. cbv zeta in *.
  set (q := set_favoritesList _ _) in *.
  destruct (updateFavoriteIcon_frame (fromCurrency_value (app p)) (toCurrency_value (app p)) q)
    as (Happ & _ & _ & Hmap & Hlist & Hnot & _).
  rewrite Hmap in Hfav.
  split; [rewrite Hlist; destruct p; reflexivity|].
  split.
  { rewrite <- Hfav, updateFavoriteIcon_star.
    destruct (bool_decide_reflect
                (is_Some (favoritesMap q
                            !! pair_key (fromCurrency_value (app p)) (toCurrency_value (app p)))));
      split; intros; try tauto; discriminate. }
  split; [|split; [|split; [rewrite Happ; destruct p; reflexivity
                           |rewrite Hnot; destruct p; reflexivity]]].
  - clear Hfav. unfold updateFavoriteIcon. cbv zeta.
    destruct (bool_decide _); destruct q; cbn.
    + split; [intros _; class_listed|reflexivity].
    + split; [discriminate|]. intros H. exfalso.
      apply elem_of_union in H as [H|H].
      * apply elem_of_difference in H as [_ H]. apply H. class_listed.
      * class_not_listed H.
  - clear Hfav. unfold updateFavoriteIcon. cbv zeta.
    destruct (bool_decide _); destruct q; cbn.
    + split; [discriminate|]. intros H. exfalso.
      apply elem_of_union in H as [H|H].
      * apply elem_of_difference in H as [_ H]. apply H. class_listed.
      * class_not_listed H.
    + split; [intros _; class_listed|reflexivity].
Qed.

(** *** Toggling a favourite *)

Lemma signed_in_ref (p : Page) :
  signed_in p = true ->
  exists user, userId p = Some user /\ user <> "" /\
               getFavoritesCollectionRef p = Some user /\
               negb (isAuthReady p) || no_user (userId p) || negb (db (app p)) = false.
Proof.
  unfold signed_in, getFavoritesCollectionRef. intros H.
  apply andb_prop in H as [H Hdb]. apply andb_prop in H as [Hready Huser].
  rewrite Hdb, Hready. apply negb_true_iff in Huser. rewrite Huser. cbn.
  destruct (userId p) as [user|]; [|discriminate].
  exists user. repeat split. intros ->. discriminate.
Qed.

Lemma toggleFavorite_not_signed_in (added : AddOutcome) (deleted : DeleteOutcome)
    (p : Page) (c : Cloud) :
  signed_in p = false ->
  toggleFavorite added deleted p c = (showNotice NoticeWaitForAuthentication p, c).
Proof.
  unfold signed_in, toggleFavorite. intros H.
  destruct (isAuthReady p), (no_user (userId p)), (db (app p)); try discriminate; reflexivity.
Qed.

Lemma toggleFavorite_adds (id : string) (deleted : DeleteOutcome) (p : Page) (c : Cloud)
    (user : string) :
  signed_in p = true -> userId p = Some user ->
  favoritesMap p !! pair_key (fromCurrency_value (app p)) (toCurrency_value (app p)) = None ->
  toggleFavorite (Added id) deleted p c =
    (showNotice (NoticeAdded (pair_key (fromCurrency_value (app p)) (toCurrency_value (app p)))) p,
     set_collection user
       (<[id := mkFavorite (fromCurrency_value (app p)) (toCurrency_value (app p)) (cloud_now c)]>
          (collection_of user c)) c).
Proof.
  intros Hin Hu Hmap. destruct (signed_in_ref p Hin) as (u & Hu' & _ & Href & Hguard).
  rewrite Hu in Hu'. injection Hu' as <-.
  unfold toggleFavorite. rewrite Hguard. cbn [getSelectedPair].
  rewrite Hmap. unfold saveFavoritePair. rewrite Href. reflexivity.
Qed.

Lemma toggleFavorite_deletes (added : AddOutcome) (p : Page) (c : Cloud)
    (user id : string) :
  signed_in p = true -> userId p = Some user ->
  favoritesMap p !! pair_key (fromCurrency_value (app p)) (toCurrency_value (app p)) = Some id ->
  toggleFavorite added Deleted p c =
    (showNotice (NoticeRemoved (pair_key (fromCurrency_value (app p)) (toCurrency_value (app p)))) p,
     set_collection user (delete id (collection_of user c)) c).
Proof.
  intros Hin Hu Hmap. destruct (signed_in_ref p Hin) as (u & Hu' & _ & Href & Hguard).
  rewrite Hu in Hu'. injection Hu' as <-.
  unfold toggleFavorite. rewrite Hguard. cbn [getSelectedPair].
  rewrite Hmap. unfold deleteFavoritePair. rewrite Href. reflexivity.
Qed.

Lemma collection_of_set (user user' : string) (docs : gmap string FavoriteDoc) (c : Cloud) :
  collection_of user' (set_collection user docs c) =
    if decide (user = user') then docs else collection_of user' c.
Proof.
  unfold collection_of, set_collection. cbn.
  destruct (decide (user = user')) as [->|Hne].
  - rewrite lookup_insert_eq. reflexivity.
  - rewrite lookup_insert_ne by exact Hne. reflexivity.
Qed.

(** X21: a click on the star changes the page by one notice only (the map,
    the list and the star wait for the next snapshot) and touches at most
    one document, in the collection of the signed-in user: nothing at all
    without a signed-in user or when the write is rejected, otherwise the
    new document with the selected pair and the current time, or the
    removal of the document the map names for the pair. *)
Theorem toggleFavorite_frame (added : AddOutcome) (deleted : DeleteOutcome)
    (p : Page) (c : Cloud) :
  let p' := (toggleFavorite added deleted p c).1 in
  let c' := (toggleFavorite added deleted p c).2 in
  let selected := pair_key (fromCurrency_value (app p)) (toCurrency_value (app p)) in
  (exists message, p' = showNotice message p) /\
  (signed_in p = false -> p' = showNotice NoticeWaitForAuthentication p /\ c' = c) /\
  (forall user, userId p <> Some user -> collection_of user c' = collection_of user c) /\
  (forall user, userId p = Some user ->
     collection_of user c' = collection_of user c \/
     (exists id, added = Added id /\ favoritesMap p !! selected = None /\
        collection_of user c' =
          <[id := mkFavorite (fromCurrency_value (app p)) (toCurrency_value (app p))
                    (cloud_now c)]> (collection_of user c)) \/
     (exists id, deleted = Deleted /\ favoritesMap p !! selected = Some id /\
        collection_of user c' = delete id (collection_of user c))).
Proof.
  cbv zeta. destruct (signed_in p) eqn:Hin.
  - destruct (signed_in_ref p Hin) as (u & Hu & _ & Href & Hguard).
    unfold toggleFavorite. rewrite Hguard. cbn [getSelectedPair].
    destruct (favoritesMap p !! _) as [docId|] eqn:Hmap.
    + unfold deleteFavoritePair. rewrite Href.
      destruct deleted as [message|]; cbn [fst snd].
      * split; [eauto|]. split; [discriminate|]. split; [reflexivity|]. intros; left; reflexivity.
      * split; [eauto|]. split; [discriminate|]. split.
        { intros user Hne. rewrite collection_of_set.
          destruct (decide (u = user)) as [->|]; [contradiction|reflexivity]. }
        intros user Huser. rewrite Hu in Huser. injection Huser as <-.
        right; right. exists docId. rewrite collection_of_set.
        destruct (decide (u = u)); [auto|contradiction].
    + unfold saveFavoritePair. rewrite Href.
      destruct added as [message|id]; cbn [fst snd].
      * split; [eauto|]. split; [discriminate|]. split; [reflexivity|]. intros; left; reflexivity.
      * split; [eauto|]. split; [discriminate|]. split.
        { intros user Hne. rewrite collection_of_set.
          destruct (decide (u = user)) as [->|]; [contradiction|reflexivity]. }
        intros user Huser. rewrite Hu in Huser. injection Huser as <-.
        right; left. exists id. rewrite collection_of_set.
        destruct (decide (u = u)); [auto|contradiction].
  - rewrite toggleFavorite_not_signed_in by exact Hin. cbn [fst snd].
    split; [eauto|]. split; [auto|]. split; [reflexivity|]. intros; left; reflexivity.
Qed.

Lemma snapshot_unique_key (docs : list (string * FavoriteDoc))
    (collection : gmap string FavoriteDoc) (p : Page) (id : string) (data : FavoriteDoc) :
  snapshot_of docs (<[id := data]> collection) ->
  (forall i d, collection !! i = Some d -> key_of d <> key_of data) ->
  favoritesMap (favoritesSnapshot docs p) !! key_of data = Some id.
Proof.
  intros Hsnap Hfresh.
  assert (Hin : (id, data) ∈ docs).
  { rewrite Hsnap. apply elem_of_map_to_list. apply lookup_insert_eq. }
  destruct (proj2 (favoritesSnapshot_is_favorite docs p (key_of data))) as [i Hi].
  { exists (id, data). split; [exact Hin|reflexivity]. }
  rewrite Hi. destruct (favoritesSnapshot_lookup_elem docs p _ _ Hi) as (d & Hd & Hk).
  rewrite Hsnap in Hd. apply elem_of_map_to_list in Hd.
  destruct (decide (i = id)) as [->|Hne]; [reflexivity|].
  rewrite lookup_insert_ne in Hd by congruence.
  exfalso. exact (Hfresh i d Hd Hk).
Qed.

Lemma snapshot_no_key (docs : list (string * FavoriteDoc))
    (collection : gmap string FavoriteDoc) (p : Page) (k : string) :
  snapshot_of docs collection ->
  (forall i d, collection !! i = Some d -> key_of d <> k) ->
  favoritesMap (favoritesSnapshot docs p) !! k = None.
Proof.
  intros Hsnap Hfresh.
  destruct (favoritesMap (favoritesSnapshot docs p) !! k) as [i|] eqn:Hi; [|reflexivity].
  destruct (favoritesSnapshot_lookup_elem docs p _ _ Hi) as (d & Hd & Hk).
  rewrite Hsnap in Hd. apply elem_of_map_to_list in Hd.
  exfalso. exact (Hfresh i d Hd Hk).
Qed.

Lemma favoritesSnapshot_frame (docs : list (string * FavoriteDoc)) (p : Page) :
  let p' := favoritesSnapshot docs p in
  app p' = app p /\ userId p' = userId p /\ isAuthReady p' = isAuthReady p /\
  notices p' = notices p /\ snapshotListeners p' = snapshotListeners p.
Proof.
  cbv zeta. rewrite favoritesSnapshot_spec. cbv zeta.
  set (q := set_favoritesList _ _).
  destruct (updateFavoriteIcon_frame (fromCurrency_value (app p)) (toCurrency_value (app p)) q)
    as (-> & -> & -> & _ & _ & -> & ->).
  destruct p; repeat split.
Qed.

Lemma favoritesSnapshot_star (docs : list (string * FavoriteDoc)) (p : Page) :
  icon_star (favoriteIcon (favoritesSnapshot docs p)) =
    if bool_decide (is_Some (favoritesMap (favoritesSnapshot docs p)
                               !! pair_key (fromCurrency_value (app p)) (toCurrency_value (app p))))
    then FilledStar else OutlineStar.
Proof.
  rewrite favoritesSnapshot_spec. cbv zeta. set (q := set_favoritesList _ _).
  rewrite updateFavoriteIcon_star.
  destruct (updateFavoriteIcon_frame (fromCurrency_value (app p)) (toCurrency_value (app p)) q)
    as (_ & _ & _ & -> & _).
  reflexivity.
Qed.

Lemma signed_in_frame (p q : Page) :
  app q = app p -> userId q = userId p -> isAuthReady q = isAuthReady p ->
  signed_in q = signed_in p.
Proof. unfold signed_in. intros -> -> ->. reflexivity. Qed.

(** X22: adding and removing a favourite is a round trip.  With a user
    signed in and no document of theirs holding the selected pair, a click
    on the star that stores a document under a new id, the snapshot that
    follows, a second click and its snapshot leave the user's collection as
    it was; the star is filled after the first snapshot and outlined after
    the second. *)
Theorem favourite_added_then_removed (p : Page) (c : Cloud) (user id : string)
    (added : AddOutcome) (deleted : DeleteOutcome)
    (docs1 docs2 : list (string * FavoriteDoc)) :
  let selected := pair_key (fromCurrency_value (app p)) (toCurrency_value (app p)) in
  let step1 := toggleFavorite (Added id) deleted p c in
  let p1 := favoritesSnapshot docs1 step1.1 in
  let step2 := toggleFavorite added Deleted p1 step1.2 in
  let p2 := favoritesSnapshot docs2 step2.1 in
  signed_in p = true ->
  userId p = Some user ->
  favoritesMap p !! selected = None ->
  (forall i d, collection_of user c !! i = Some d -> key_of d <> selected) ->
  collection_of user c !! id = None ->
  snapshot_of docs1 (collection_of user step1.2) ->
  snapshot_of docs2 (collection_of user step2.2) ->
  icon_star (favoriteIcon p1) = FilledStar /\
  favoritesMap p1 !! selected = Some id /\
  collection_of user step2.2 = collection_of user c /\
  icon_star (favoriteIcon p2) = OutlineStar /\
  favoritesMap p2 !! selected = None.
Proof.
  cbv zeta. intros Hin Hu Hmap Hnone Hfresh.
  rewrite (toggleFavorite_adds id deleted p c user Hin Hu Hmap). cbn [fst snd].
  set (data := mkFavorite _ _ _).
  set (q := showNotice _ p).
  rewrite collection_of_set. destruct (decide (user = user)); [|contradiction].
  intros Hs1.
  assert (Hk : favoritesMap (favoritesSnapshot docs1 q) !! key_of data = Some id)
    by (apply (snapshot_unique_key docs1 (collection_of user c)); assumption).
  change (key_of data)
    with (pair_key (fromCurrency_value (app p)) (toCurrency_value (app p))) in Hk.
  destruct (favoritesSnapshot_frame docs1 q) as (Happ & Huid & Hready & _).
  cbv zeta in Happ, Huid, Hready.
  assert (Hq : app q = app p) by (destruct p; reflexivity).
  assert (Hin1 : signed_in (favoritesSnapshot docs1 q) = true).
  { rewrite (signed_in_frame q _ Happ Huid Hready). rewrite <- Hin.
    apply signed_in_frame; destruct p; reflexivity. }
  assert (Hu1 : userId (favoritesSnapshot docs1 q) = Some user).
  { rewrite Huid. destruct p; exact Hu. }
  rewrite (toggleFavorite_deletes added _ _ user id Hin1 Hu1)
    by (rewrite Happ, Hq; exact Hk).
  cbn [fst snd]. rewrite !collection_of_set. destruct (decide (user = user)); [|contradiction].
  rewrite delete_insert_id by exact Hfresh.
  intros Hs2.
  split.
  { rewrite favoritesSnapshot_star, Hq, Hk. reflexivity. }
  split; [exact Hk|]. split; [reflexivity|].
  set (q2 := showNotice _ (favoritesSnapshot docs1 q)).
  assert (Hq2 : app q2 = app p).
  { transitivity (app (favoritesSnapshot docs1 q)); [|rewrite Happ; exact Hq].
    unfold q2. destruct (favoritesSnapshot docs1 q); reflexivity. }
  assert (Hk2 : favoritesMap (favoritesSnapshot docs2 q2)
                  !! pair_key (fromCurrency_value (app p)) (toCurrency_value (app p)) = None)
    by (apply (snapshot_no_key docs2 (collection_of user c)); assumption).
  split; [|exact Hk2].
  rewrite favoritesSnapshot_star, Hq2, Hk2. reflexivity.
Qed.

Lemma favourite_added_then_removed_witness :
  let p := signed_in_page (session usd_rates "100" hundred "USD" "EUR") "u1" ∅ in
  let stored := mkFavorite "USD" "EUR" "2024-01-02T00:00:00.000Z" in
  let step1 := toggleFavorite (Added "doc1") Deleted p empty_cloud in
  let p1 := favoritesSnapshot [("doc1", stored)] step1.1 in
  let step2 := toggleFavorite (Added "doc2") Deleted p1 step1.2 in
  signed_in p = true /\
  collection_of "u1" step1.2 = {[ "doc1" := stored ]} /\
  icon_star (favoriteIcon p1) = FilledStar /\
  collection_of "u1" step2.2 = collection_of "u1" empty_cloud /\
  icon_star (favoriteIcon (favoritesSnapshot [] step2.1)) = OutlineStar.
Proof.
  cbv zeta.
  assert (Hin : signed_in (signed_in_page (session usd_rates "100" hundred "USD" "EUR") "u1" ∅)
                = true) by reflexivity.
  assert (Hc : collection_of "u1"
                 (toggleFavorite (Added "doc1") Deleted
                    (signed_in_page (session usd_rates "100" hundred "USD" "EUR") "u1" ∅)
                    empty_cloud).2
               = {[ "doc1" := mkFavorite "USD" "EUR" "2024-01-02T00:00:00.000Z" ]})
    by (vm_compute; reflexivity).
  split; [exact Hin|]. split; [exact Hc|].
  destruct (favourite_added_then_removed
              (signed_in_page (session usd_rates "100" hundred "USD" "EUR") "u1" ∅)
              empty_cloud "u1" "doc1" (Added "doc2") Deleted
              [("doc1", mkFavorite "USD" "EUR" "2024-01-02T00:00:00.000Z")] []
              Hin eq_refl eq_refl
              ltac:(intros i d H; vm_compute in H; discriminate)
              eq_refl
              ltac:(unfold snapshot_of; rewrite Hc, map_to_list_singleton; reflexivity)
              ltac:(unfold snapshot_of; vm_compute; reflexivity))
    as (H1 & _ & H2 & H3 & _).
  split; [exact H1|]. split; [exact H2|exact H3].
Defined.

(** X23: two clicks on the star before any snapshot arrives store the
    selected pair twice, since the second click still reads the old map.
    One later click then removes one of the two documents only, and the
    pair stays a favourite: the star is filled again after the snapshot
    that follows. *)
Theorem favourite_added_twice (p : Page) (c : Cloud) (user id1 id2 : string)
    (added : AddOutcome) (deleted1 deleted2 : DeleteOutcome)
    (docs docs' : list (string * FavoriteDoc)) :
  let selected := pair_key (fromCurrency_value (app p)) (toCurrency_value (app p)) in
  let data := mkFavorite (fromCurrency_value (app p)) (toCurrency_value (app p)) (cloud_now c) in
  let step1 := toggleFavorite (Added id1) deleted1 p c in
  let step2 := toggleFavorite (Added id2) deleted2 step1.1 step1.2 in
  let p2 := favoritesSnapshot docs step2.1 in
  let step3 := toggleFavorite added Deleted p2 step2.2 in
  let p3 := favoritesSnapshot docs' step3.1 in
  signed_in p = true ->
  userId p = Some user ->
  favoritesMap p !! selected = None ->
  id1 <> id2 ->
  snapshot_of docs (collection_of user step2.2) ->
  snapshot_of docs' (collection_of user step3.2) ->
  collection_of user step2.2 = <[id2 := data]> (<[id1 := data]> (collection_of user c)) /\
  icon_star (favoriteIcon p2) = FilledStar /\
  (exists id, favoritesMap p2 !! selected = Some id /\
              collection_of user step3.2 = delete id (collection_of user step2.2)) /\
  icon_star (favoriteIcon p3) = FilledStar.
Proof.
  cbv zeta. intros Hin Hu Hmap Hne.
  rewrite (toggleFavorite_adds id1 deleted1 p c user Hin Hu Hmap). cbn [fst snd].
  set (data := mkFavorite _ _ _).
  set (selected := pair_key _ _) in *.
  set (q1 := showNotice _ p).
  assert (Hq1 : app q1 = app p) by reflexivity.
  assert (Hin1 : signed_in q1 = true) by exact Hin.
  assert (Hu1 : userId q1 = Some user) by exact Hu.
  assert (Hmap1 : favoritesMap q1
                    !! pair_key (fromCurrency_value (app q1)) (toCurrency_value (app q1)) = None)
    by exact Hmap.
  rewrite (toggleFavorite_adds id2 deleted2 q1 _ user Hin1 Hu1 Hmap1). cbn [fst snd].
  rewrite Hq1. fold selected.
  set (q2 := showNotice _ q1).
  rewrite !collection_of_set. destruct (decide (user = user)); [|contradiction].
  change (cloud_now (set_collection user (<[id1:=data]> (collection_of user c)) c))
    with (cloud_now c). fold data.
  set (coll2 := <[id2 := data]> (<[id1 := data]> (collection_of user c))).
  intros Hs.
  assert (Hfav2 : is_Some (favoritesMap (favoritesSnapshot docs q2) !! selected)).
  { apply favoritesSnapshot_is_favorite. exists (id2, data). split; [|reflexivity].
    rewrite Hs. apply elem_of_map_to_list. apply lookup_insert_eq. }
  destruct Hfav2 as [id Hid].
  destruct (favoritesSnapshot_frame docs q2) as (Happ & Huid & Hready & _).
  cbv zeta in Happ, Huid, Hready.
  assert (Hin2 : signed_in (favoritesSnapshot docs q2) = true)
    by (rewrite (signed_in_frame q2 _ Happ Huid Hready); exact Hin).
  assert (Hu2 : userId (favoritesSnapshot docs q2) = Some user)
    by (rewrite Huid; exact Hu).
  rewrite (toggleFavorite_deletes added _ _ user id Hin2 Hu2) by (rewrite Happ; exact Hid).
  cbn [fst snd]. rewrite !collection_of_set. destruct (decide (user = user)); [|contradiction].
  intros Hs'.
  split; [reflexivity|]. split.
  { rewrite favoritesSnapshot_star. change (app q2) with (app p). fold selected.
    rewrite Hid. reflexivity. }
  split; [exists id; split; [exact Hid|reflexivity]|].
  set (q3 := showNotice _ (favoritesSnapshot docs q2)).
  assert (Hq3 : app q3 = app p) by exact Happ.
  rewrite favoritesSnapshot_star, Hq3. fold selected.
  assert (Hfav3 : is_Some (favoritesMap (favoritesSnapshot docs' q3) !! selected)).
  { apply favoritesSnapshot_is_favorite.
    destruct (decide (id = id2)) as [->|Hid2].
    - exists (id1, data). split; [|reflexivity].
      rewrite Hs'. apply elem_of_map_to_list.
      rewrite lookup_delete_ne by congruence. unfold coll2.
      rewrite lookup_insert_ne by congruence. apply lookup_insert_eq.
    - exists (id2, data). split; [|reflexivity].
      rewrite Hs'. apply elem_of_map_to_list.
      rewrite lookup_delete_ne by congruence. apply lookup_insert_eq. }
  destruct (bool_decide_reflect (is_Some (favoritesMap (favoritesSnapshot docs' q3) !! selected)));
    [reflexivity|contradiction].
Qed.

Lemma favourite_added_twice_witness :
  let p := signed_in_page (session usd_rates "100" hundred "USD" "EUR") "u1" ∅ in
  let stored := mkFavorite "USD" "EUR" "2024-01-02T00:00:00.000Z" in
  let step1 := toggleFavorite (Added "doc1") Deleted p empty_cloud in
  let step2 := toggleFavorite (Added "doc2") Deleted step1.1 step1.2 in
  let p2 := favoritesSnapshot [("doc1", stored); ("doc2", stored)] step2.1 in
  let step3 := toggleFavorite (Added "doc3") Deleted p2 step2.2 in
  signed_in p = true /\
  collection_of "u1" step2.2 = <["doc2" := stored]> {[ "doc1" := stored ]} /\
  collection_of "u1" step3.2 = {[ "doc1" := stored ]} /\
  icon_star (favoriteIcon (favoritesSnapshot [("doc1", stored)] step3.1)) = FilledStar.
Proof.
  cbv zeta.
  set (p := signed_in_page (session usd_rates "100" hundred "USD" "EUR") "u1" ∅).
  set (stored := mkFavorite "USD" "EUR" "2024-01-02T00:00:00.000Z").
  assert (Hin : signed_in p = true) by reflexivity.
  assert (Hc2 : collection_of "u1"
                  (toggleFavorite (Added "doc2") Deleted
                     (toggleFavorite (Added "doc1") Deleted p empty_cloud).1
                     (toggleFavorite (Added "doc1") Deleted p empty_cloud).2).2
                = <["doc2" := stored]> {[ "doc1" := stored ]})
    by (vm_compute; reflexivity).
  assert (Hc3 : collection_of "u1"
                  (toggleFavorite (Added "doc3") Deleted
                     (favoritesSnapshot [("doc1", stored); ("doc2", stored)]
                        (toggleFavorite (Added "doc2") Deleted
                           (toggleFavorite (Added "doc1") Deleted p empty_cloud).1
                           (toggleFavorite (Added "doc1") Deleted p empty_cloud).2).1)
                     (toggleFavorite (Added "doc2") Deleted
                        (toggleFavorite (Added "doc1") Deleted p empty_cloud).1
                        (toggleFavorite (Added "doc1") Deleted p empty_cloud).2).2).2
                = {[ "doc1" := stored ]})
    by (vm_compute; reflexivity).
  split; [exact Hin|]. split; [exact Hc2|]. split; [exact Hc3|].
  destruct (favourite_added_twice p empty_cloud "u1" "doc1" "doc2" (Added "doc3")
              Deleted Deleted [("doc1", stored); ("doc2", stored)] [("doc1", stored)]
              Hin eq_refl eq_refl ltac:(discriminate)
              ltac:(unfold snapshot_of; rewrite Hc2; vm_compute; reflexivity)
              ltac:(unfold snapshot_of; rewrite Hc3, map_to_list_singleton; reflexivity))
    as (_ & _ & _ & H).
  exact H.
Defined.

(** *** The conversion on the page *)

Lemma updateConversion_000_spec (p : Page) :
  updateConversion_000 p =
    if converts (app p) then
      set_app (updateConversion Part_000 (app p))
        (updateFavoriteIcon (fromCurrency_value (app p)) (toCurrency_value (app p)) p)
    else set_app (updateConversion Part_000 (app p)) p.
Proof.
  unfold converts, amount_rejected, updateConversion_000, updateConversion.
  destruct (hasRatesLoaded (app p)) eqn:Hl; cbn [negb andb]; [|reflexivity].
  destruct (isNaN (fromAmount_number (app p)) || Number_le (fromAmount_number (app p)) zero);
    cbn [negb andb]; [reflexivity|].
  destruct (ToBoolean (currencyRates (app p) !! fromCurrency_value (app p)));
    cbn [negb andb orb]; [|reflexivity].
  destruct (ToBoolean (currencyRates (app p) !! toCurrency_value (app p)));
    cbn [negb andb orb]; [|reflexivity].
  unfold updateFavoriteIcon. cbv zeta.
  destruct (bool_decide _); destruct p as [st ? ? ? ? ? ? ? ? ?]; cbn;
    destruct st as [d r off loaded txt amt f t rd td hid hr al hc]; cbn; destruct off;
    reflexivity.
Qed.

Lemma updateConversion_000_parts (p : Page) :
  let p' := updateConversion_000 p in
  app p' = updateConversion Part_000 (app p) /\
  favoriteIcon p' =
    (if converts (app p)
     then favoriteIcon (updateFavoriteIcon (fromCurrency_value (app p))
                          (toCurrency_value (app p)) p)
     else favoriteIcon p) /\
  favoritesMap p' = favoritesMap p /\ favoritesList p' = favoritesList p /\
  userId p' = userId p /\ isAuthReady p' = isAuthReady p /\ notices p' = notices p.
Proof.
  cbv zeta. rewrite updateConversion_000_spec.
  destruct (updateFavoriteIcon_frame (fromCurrency_value (app p)) (toCurrency_value (app p)) p)
    as (Happ & Hu & Hr & Hm & Hl & Hn & _).
  destruct (converts (app p));
    cbn [app set_app favoritesMap favoritesList userId isAuthReady notices favoriteIcon];
    rewrite ?Hu, ?Hr, ?Hm, ?Hl, ?Hn; repeat split.
Qed.

Lemma updateConversion_selection (rev : Revision) (st : App) :
  fromCurrency_value (updateConversion rev st) = fromCurrency_value st /\
  toCurrency_value (updateConversion rev st) = toCurrency_value st.
Proof.
  destruct st as [d r off loaded txt amt f t rd td hid hr al hc].
  unfold updateConversion. cbn.
  destruct loaded; cbn; [|split; reflexivity].
  destruct (isNaN amt || Number_le amt zero); cbn.
  { destruct rev; [|destruct (is_blank txt)]; cbn; split; reflexivity. }
  destruct (negb (ToBoolean (r !! f)) || negb (ToBoolean (r !! t))); cbn;
    [split; reflexivity|].
  destruct off; cbn; split; reflexivity.
Qed.

(** X24: on the page of the later revision [updateConversion] converts as
    it does on the session alone, and it touches the star only when it
    displays a conversion: then the star is filled exactly when the map
    holds the selected pair, otherwise (rates not loaded, amount or rate
    rejected) the star keeps showing what it showed.  The map, the list,
    the user and the notices are never touched. *)
Theorem updateConversion_000_star (p : Page) :
  let p' := updateConversion_000 p in
  let selected := pair_key (fromCurrency_value (app p)) (toCurrency_value (app p)) in
  app p' = updateConversion Part_000 (app p) /\
  (converts (app p) = true ->
   (icon_star (favoriteIcon p') = FilledStar <-> is_Some (favoritesMap p !! selected)) /\
   (icon_star (favoriteIcon p') = OutlineStar <-> favoritesMap p !! selected = None)) /\
  (converts (app p) = false -> favoriteIcon p' = favoriteIcon p) /\
  favoritesMap p' = favoritesMap p /\ favoritesList p' = favoritesList p /\
  userId p' = userId p /\ isAuthReady p' = isAuthReady p /\ notices p' = notices p.
Proof.
  cbv zeta.
  destruct (updateConversion_000_parts p) as (Happ & Hicon & Hm & Hl & Hu & Hr & Hn).
  cbv zeta in Happ, Hicon. rewrite Hicon.
  split; [exact Happ|].
  split; [|split; [intros ->; reflexivity|repeat split; assumption]].
  intros ->. rewrite updateFavoriteIcon_star.
  destruct (bool_decide_reflect
              (is_Some (favoritesMap p
                          !! pair_key (fromCurrency_value (app p)) (toCurrency_value (app p)))))
    as [Hs|Hs].
  - split; [tauto|]. split; [discriminate|]. intros H. rewrite H in Hs.
    destruct Hs; discriminate.
  - split; [split; [discriminate|contradiction]|]. split; [|reflexivity].
    intros _. apply eq_None_not_Some. exact Hs.
Qed.

Lemma updateConversion_000_star_witness :
  let p := signed_in_page (session usd_rates "100" hundred "USD" "EUR") "u1"
             {[ "USD/EUR" := "doc1" ]} in
  converts (app p) = true /\
  icon_star (favoriteIcon p) = OutlineStar /\
  icon_star (favoriteIcon (updateConversion_000 p)) = FilledStar /\
  totalDisplay (app (updateConversion_000 p)) = "92.00".
Proof.
  cbv zeta.
  set (p := signed_in_page (session usd_rates "100" hundred "USD" "EUR") "u1"
              {[ "USD/EUR" := "doc1" ]}).
  assert (Hc : converts (app p) = true) by (vm_compute; reflexivity).
  destruct (updateConversion_000_star p) as (Happ & Hstar & _).
  destruct (Hstar Hc) as [[_ Hfilled] _].
  split; [exact Hc|]. split; [reflexivity|]. split.
  - apply Hfilled. exists "doc1". vm_compute. reflexivity.
  - rewrite Happ. vm_compute. reflexivity.
Defined.

(** X25: every document of a snapshot is listed, and a click on its entry
    loads its pair: when both codes are among the options of the
    drop-downs they become the selection, the conversion is the one
    [updateConversion] shows for that selection, the star is filled once a
    conversion is displayed, and the notice names the pair.  A click on the
    delete button of the entry removes, for a signed-in user, exactly that
    document from their collection. *)
Theorem listed_favourite_loads (docs : list (string * FavoriteDoc)) (p : Page)
    (doc : string * FavoriteDoc) :
  let listed := favoritesSnapshot docs p in
  let p' := click_entry (entry_of doc) listed in
  let chosen :=
    set_toCurrency_value (favorite_to doc.2)
      (set_fromCurrency_value (favorite_from doc.2) (app p)) in
  doc ∈ docs ->
  favorite_from doc.2 ∈ option_values ->
  favorite_to doc.2 ∈ option_values ->
  entry_of doc ∈ favoritesList listed /\
  getSelectedPair (app p') = (favorite_from doc.2, favorite_to doc.2) /\
  app p' = updateConversion Part_000 chosen /\
  (converts chosen = true -> icon_star (favoriteIcon p') = FilledStar) /\
  notices p' = NoticeLoadedFavorite (favorite_from doc.2) (favorite_to doc.2) :: notices p /\
  (forall (c : Cloud) (user : string),
     signed_in p = true -> userId p = Some user ->
     collection_of user (click_delete (entry_of doc) Deleted listed c).2
       = delete doc.1 (collection_of user c)).
Proof.
  cbv zeta. intros Hin Hf Ht.
  destruct (favoritesSnapshot_frame docs p) as (Happ & Huid & Hready & Hnot & _).
  cbv zeta in Happ, Huid, Hready, Hnot.
  assert (Hdel : forall (c : Cloud) (user : string),
            signed_in p = true -> userId p = Some user ->
            collection_of user
              (click_delete (entry_of doc) Deleted (favoritesSnapshot docs p) c).2
              = delete doc.1 (collection_of user c)).
  { intros c user Hs Hu.
    rewrite <- (signed_in_frame p _ Happ Huid Hready) in Hs.
    destruct (signed_in_ref _ Hs) as (u & Hu' & _ & Href & _).
    rewrite Huid, Hu in Hu'. injection Hu' as <-.
    unfold click_delete, entry_of, deleteFavoritePair. rewrite Href. cbn [snd].
    rewrite collection_of_set. destruct (decide (user = user)); [reflexivity|contradiction]. }
  split.
  { rewrite favoritesSnapshot_spec. cbv zeta. set (q := set_favoritesList _ _).
    destruct (updateFavoriteIcon_frame (fromCurrency_value (app p)) (toCurrency_value (app p)) q)
      as (_ & _ & _ & _ & -> & _).
    unfold q. cbn [favoritesList set_favoritesList].
    destruct docs as [|d0 docs]; [inversion Hin|].
    apply list_elem_of_fmap. exists doc. split; [reflexivity|exact Hin]. }
  unfold click_entry, entry_of, loadFavoritePair.
  rewrite (select_value_member _ _ Hf), (select_value_member _ _ Ht), Happ.
  set (chosen := set_toCurrency_value _ _).
  set (q := set_app chosen (favoritesSnapshot docs p)).
  assert (Hq : app q = chosen) by reflexivity.
  assert (Hsel : getSelectedPair chosen = (favorite_from doc.2, favorite_to doc.2))
    by (unfold chosen; destruct (app p); reflexivity).
  destruct (updateConversion_000_parts q) as (Hconv & Hicon & _ & _ & _ & _ & Hn).
  cbv zeta in Hconv, Hicon, Hn. rewrite Hq in *.
  destruct (updateConversion_selection Part_000 chosen) as [Hfc Htc].
  split.
  { cbn [app showNotice]. rewrite Hconv. unfold getSelectedPair. rewrite Hfc, Htc.
    exact Hsel. }
  split; [cbn [app showNotice]; exact Hconv|].
  split.
  - intros Hc. cbn [favoriteIcon showNotice]. rewrite Hicon, Hc, updateFavoriteIcon_star.
    injection Hsel as -> ->.
    change (favoritesMap q) with (favoritesMap (favoritesSnapshot docs p)).
    destruct (bool_decide_reflect
                (is_Some (favoritesMap (favoritesSnapshot docs p)
                            !! pair_key (favorite_from doc.2) (favorite_to doc.2))))
      as [_|Hs]; [reflexivity|].
    exfalso. apply Hs.
    apply favoritesSnapshot_is_favorite. exists doc. split; [exact Hin|reflexivity].
  - split; [|exact Hdel].
    cbn [notices showNotice]. rewrite Hn. unfold q. cbn [notices set_app].
    rewrite Hnot. reflexivity.
Qed.

Lemma listed_favourite_loads_witness :
  let p := signed_in_page (session usd_rates "100" hundred "USD" "EUR") "u1" ∅ in
  let doc := ("doc1", mkFavorite "EUR" "NGN" "2024-01-02T00:00:00.000Z") in
  let p' := click_entry (entry_of doc) (favoritesSnapshot [doc] p) in
  doc ∈ [doc] /\ "EUR" ∈ option_values /\ "NGN" ∈ option_values /\
  getSelectedPair (app p') = ("EUR", "NGN") /\
  icon_star (favoriteIcon p') = FilledStar.
Proof.
  cbv zeta.
  set (p := signed_in_page (session usd_rates "100" hundred "USD" "EUR") "u1" ∅).
  set (doc := ("doc1", mkFavorite "EUR" "NGN" "2024-01-02T00:00:00.000Z")).
  assert (H0 : doc ∈ [doc]) by (apply list_elem_of_singleton; reflexivity).
  assert (H1 : "EUR" ∈ option_values) by (apply list_elem_of_In; cbn; tauto).
  assert (H2 : "NGN" ∈ option_values) by (apply list_elem_of_In; cbn; tauto).
  destruct (listed_favourite_loads [doc] p doc H0 H1 H2) as (_ & Hsel & _ & Hstar & _ & _).
  split; [exact H0|]. split; [exact H1|]. split; [exact H2|]. split; [exact Hsel|].
  apply Hstar. vm_compute. reflexivity.
Defined.

(** ** Start-up on the page: [initFirebase] and the authentication callback *)

Lemma updateConversion_db (rev : Revision) (st : App) :
  db (updateConversion rev st) = db st.
Proof.
  destruct st as [d r off loaded txt amt f t rd td hid hr al hc].
  unfold updateConversion. cbn.
  destruct loaded; cbn; [|reflexivity].
  destruct (isNaN amt || Number_le amt zero); cbn.
  { destruct rev; [|destruct (is_blank txt)]; reflexivity. }
  destruct (negb (ToBoolean (r !! f)) || negb (ToBoolean (r !! t))); cbn; [reflexivity|].
  destruct off; reflexivity.
Qed.

Lemma fetchRatesAndInitialize_db (rev : Revision) (st : App) (w : World) :
  db (fetchRatesAndInitialize rev st w).1 = db st.
Proof.
  unfold fetchRatesAndInitialize.
  destruct (match rev with Scripts_app => false | Part_000 => hasRatesLoaded st end);
    [reflexivity|].
  destruct (fetchRates_cases API_BASE_CURRENCY 3 st w ltac:(lia))
    as [(fs & data & rest & _ & _ & _ & ->)
       |[(_ & snap & r & _ & _ & _ & _ & ->)|(_ & _ & ->)]];
    cbv zeta; cbn [fst snd]; rewrite ?updateConversion_db; destruct st; reflexivity.
Qed.

(** [fetchRatesAndInitialize] on the page is the one on the session; of
    the rest of the page it touches the star at most. *)
Lemma fetchRatesAndInitialize_page_app (rev : Revision) (p : Page) (w : World) :
  let r := fetchRatesAndInitialize_page rev p w in
  (app r.1, r.2) = fetchRatesAndInitialize rev (app p) w /\
  userId r.1 = userId p /\ isAuthReady r.1 = isAuthReady p /\
  userDisplay r.1 = userDisplay p /\ uiLoaded r.1 = uiLoaded p /\
  favoritesMap r.1 = favoritesMap p /\ favoritesList r.1 = favoritesList p /\
  notices r.1 = notices p /\ snapshotListeners r.1 = snapshotListeners p.
Proof.
  cbv zeta. unfold fetchRatesAndInitialize_page, fetchRatesAndInitialize.
  destruct (match rev with Scripts_app => false | Part_000 => hasRatesLoaded (app p) end).
  { cbn [fst snd]. repeat split. }
  destruct (fetchRates API_BASE_CURRENCY 3 (app p) w) as [[success st] w'].
  destruct success; cbn [fst snd]; [|repeat split].
  destruct rev; cbn [updateConversion_page]; [repeat split|].
  rewrite updateConversion_000_spec. cbn [app set_app].
  destruct (converts st); [|repeat split].
  unfold updateFavoriteIcon. cbv zeta. destruct (bool_decide _); repeat split.
Qed.

(** X26: the authentication callback always ends with the page shown and
    [isAuthReady] set, whether it is called with a user or with [null]; the
    rates are set up as [fetchRatesAndInitialize] does on the session alone.
    The user line shows the first eight characters of the id, or "Anon".
    Favourites are enabled afterwards exactly when the callback got a user
    with a non-empty id and the database handle exists, and exactly then
    the later revision starts listening to that user's collection. *)
Theorem authStateChanged_ready (rev : Revision) (user : option string) (p : Page) (w : World) :
  let p' := (authStateChanged rev user p w).1 in
  let w' := (authStateChanged rev user p w).2 in
  let enabled := db (app p) && negb (no_user user) in
  uiLoaded p' = true /\ isAuthReady p' = true /\ userId p' = user /\
  (app p', w') = fetchRatesAndInitialize rev (app p) w /\
  userDisplay p' =
    match user with
    | Some uid => "User: " +:+ substring 0 8 uid +:+ "..."
    | None => "User: Anon"
    end /\
  signed_in p' = enabled /\
  snapshotListeners p' =
    match rev, user with
    | Part_000, Some uid => if enabled then uid :: snapshotListeners p else snapshotListeners p
    | _, _ => snapshotListeners p
    end /\
  notices p' = notices p.
Proof.
  cbv zeta. unfold authStateChanged.
  set (q := set_isAuthReady true _).
  assert (Hq : app q = app p /\ userId q = user /\ isAuthReady q = true /\
               snapshotListeners q = snapshotListeners p /\ notices q = notices p /\
               userDisplay q = match user with
                               | Some uid => "User: " +:+ substring 0 8 uid +:+ "..."
                               | None => "User: Anon"
                               end).
  { unfold q. destruct user; repeat split. }
  destruct Hq as (Hqa & Hqu & Hqr & Hql & Hqn & Hqd).
  pose proof (fetchRatesAndInitialize_page_app rev q w) as Hpage. cbv zeta in Hpage.
  pose proof (fetchRatesAndInitialize_db rev (app q) w) as Hdb.
  destruct (fetchRatesAndInitialize_page rev q w) as [q1 w1].
  cbn [fst snd] in *.
  destruct Hpage as (Hf & Hu & Hr & Hd & _ & _ & _ & Hn & Hl).
  rewrite Hqa in Hf, Hdb. rewrite <- Hf in Hdb. cbn [fst] in Hdb.
  rewrite Hqu in Hu. rewrite Hqr in Hr. rewrite Hqd in Hd. rewrite Hqn in Hn.
  rewrite Hql in Hl.
  assert (Hlisten : forall q', q' = listenForFavorites q1 ->
            app q' = app q1 /\ userId q' = user /\ isAuthReady q' = true /\
            userDisplay q' = userDisplay q1 /\ notices q' = notices p /\
            snapshotListeners q' =
              match user with
              | Some uid => if db (app p) && negb (no_user user)
                            then uid :: snapshotListeners p else snapshotListeners p
              | None => snapshotListeners p
              end).
  { intros q' ->. unfold listenForFavorites, getFavoritesCollectionRef.
    rewrite Hr, Hu, Hdb. cbn [negb orb].
    destruct user as [uid|]; cbn [no_user].
    - destruct (uid =? "")%string; cbn [orb negb andb].
      + rewrite andb_false_r. repeat split; assumption.
      + destruct (db (app p)); cbn [orb negb andb app userId isAuthReady userDisplay notices
                                     snapshotListeners set_snapshotListeners];
          rewrite ?Hl; repeat split; assumption.
    - cbn [negb orb]. repeat split; assumption. }
  unfold signed_in.
  destruct rev.
  - cbn [fst snd uiLoaded setUILoaded isAuthReady userId app userDisplay snapshotListeners
         notices].
    rewrite Hr, Hu, Hd, Hl, Hdb, <- Hf. cbn [andb].
    rewrite (andb_comm (negb _)). repeat split; assumption.
  - destruct (Hlisten _ eq_refl) as (Ha & Hu' & Hr' & Hd' & Hn' & Hl').
    cbn [fst snd uiLoaded setUILoaded isAuthReady userId app userDisplay snapshotListeners
         notices].
    rewrite Ha, Hu', Hr', Hd', Hl', Hdb, Hd, <- Hf. cbn [andb].
    rewrite (andb_comm (negb _)). repeat split; assumption.
Qed.

Lemma api_only_spec (rev : Revision) (p : Page) (w : World) :
  let r := api_only rev p w in
  uiLoaded r.1 = true /\ isAuthReady r.1 = true /\ userId r.1 = userId p /\
  (app r.1, r.2) = fetchRatesAndInitialize rev (app p) w /\
  notices r.1 = NoticeApiOnly :: notices p /\
  snapshotListeners r.1 = snapshotListeners p.
Proof.
  cbv zeta. unfold api_only.
  set (q := set_isAuthReady true _).
  pose proof (fetchRatesAndInitialize_page_app rev q w) as Hpage. cbv zeta in Hpage.
  destruct (fetchRatesAndInitialize_page rev q w) as [q1 w1].
  cbn [fst snd] in *.
  destruct Hpage as (Hf & Hu & Hr & _ & _ & _ & _ & Hn & Hl).
  unfold q in Hf, Hu, Hr, Hn, Hl.
  cbn [app userId isAuthReady notices snapshotListeners set_isAuthReady showNotice]
    in Hf, Hu, Hr, Hn, Hl.
  cbn [uiLoaded setUILoaded isAuthReady userId app notices snapshotListeners].
  rewrite Hr, Hu, Hn, Hl, <- Hf. repeat split.
Qed.

(** X27: when Firebase is not configured, or its set-up or the sign-in
    fails, [initFirebase] still ends with the page shown and the rates set
    up as [fetchRatesAndInitialize] does; no user is set and no listener
    started, so with no user before, every later click on the star is
    refused without a write.  After a failure the "API-only" notice is
    raised, and when the failure came after [getFirestore] the database
    handle stays in place, so the rates cache is still used. *)
Theorem initFirebase_without_user (rev : Revision) (setup : FirebaseSetup)
    (p : Page) (w : World) (added : AddOutcome) (deleted : DeleteOutcome) (c : Cloud) :
  let p' := (initFirebase rev setup p w).1 in
  let w' := (initFirebase rev setup p w).2 in
  let handle := match setup with SignInFails => true | _ => db (app p) end in
  setup <> SignedIn ->
  userId p = None ->
  uiLoaded p' = true /\ isAuthReady p' = true /\
  (app p', w') = fetchRatesAndInitialize rev (set_db handle (app p)) w /\
  db (app p') = handle /\
  notices p' = (match setup with ConfigEmpty => notices p | _ => NoticeApiOnly :: notices p end) /\
  snapshotListeners p' = snapshotListeners p /\
  toggleFavorite added deleted p' c = (showNotice NoticeWaitForAuthentication p', c).
Proof.
  cbv zeta. intros Hsetup Huser.
  assert (Hsame : set_db (db (app p)) (app p) = app p) by (destruct (app p); reflexivity).
  destruct setup; [| | |contradiction].
  - unfold initFirebase.
    pose proof (fetchRatesAndInitialize_page_app rev p w) as Hpage. cbv zeta in Hpage.
    pose proof (fetchRatesAndInitialize_db rev (app p) w) as Hdb.
    destruct (fetchRatesAndInitialize_page rev p w) as [q1 w1].
    cbn [fst snd] in *.
    destruct Hpage as (Hf & Hu & Hr & _ & _ & _ & _ & Hn & Hl).
    rewrite <- Hf in Hdb. cbn [fst] in Hdb.
    cbn [uiLoaded setUILoaded isAuthReady set_isAuthReady userId app notices snapshotListeners].
    rewrite Hsame, <- Hf. do 6 (split; [first [reflexivity|assumption]|]).
    apply toggleFavorite_not_signed_in. unfold signed_in.
    cbn [uiLoaded setUILoaded isAuthReady set_isAuthReady userId app].
    rewrite Hu, Huser. reflexivity.
  - unfold initFirebase.
    destruct (api_only_spec rev p w) as (Hui & Hr & Hu & Hf & Hn & Hl).
    pose proof (fetchRatesAndInitialize_db rev (app p) w) as Hdb.
    rewrite <- Hf in Hdb. cbn [fst] in Hdb. rewrite Hsame.
    do 6 (split; [first [reflexivity|assumption]|]).
    apply toggleFavorite_not_signed_in. unfold signed_in. rewrite Hu, Huser, Hr. reflexivity.
  - unfold initFirebase.
    set (q := set_app (set_db true (app p)) p).
    destruct (api_only_spec rev q w) as (Hui & Hr & Hu & Hf & Hn & Hl).
    pose proof (fetchRatesAndInitialize_db rev (app q) w) as Hdb.
    rewrite <- Hf in Hdb. cbn [fst] in Hdb.
    change (app q) with (set_db true (app p)) in *.
    do 3 (split; [first [reflexivity|assumption]|]).
    split; [rewrite Hdb; destruct (app p); reflexivity|].
    do 2 (split; [first [reflexivity|assumption]|]).
    apply toggleFavorite_not_signed_in. unfold signed_in. rewrite Hu, Hr.
    change (userId q) with (userId p). rewrite Huser. reflexivity.
Qed.

Lemma initFirebase_without_user_witness :
  let r := initFirebase Part_000 SignInFails fresh_page world_second_attempt in
  SignInFails <> SignedIn /\ userId fresh_page = None /\
  uiLoaded r.1 = true /\ db (app r.1) = true /\ notices r.1 = [NoticeApiOnly] /\
  toggleFavorite (Added "doc1") Deleted r.1 empty_cloud
    = (showNotice NoticeWaitForAuthentication r.1, empty_cloud).
Proof.
  cbv zeta.
  destruct (initFirebase_without_user Part_000 SignInFails fresh_page world_second_attempt
              (Added "doc1") Deleted empty_cloud ltac:(discriminate) eq_refl)
    as (Hui & _ & _ & Hdb & Hn & _ & Htoggle).
  split; [discriminate|]. split; [reflexivity|].
  split; [exact Hui|]. split; [exact Hdb|]. split; [exact Hn|exact Htoggle].
Defined.

(** ** The theme toggle *)

Lemma classList_contains_spec (token : string) (classes : gset string) :
  classList_contains token classes = true <-> token ∈ classes.
Proof. unfold classList_contains. apply bool_decide_eq_true. Qed.

Lemma classList_replace_present (oldToken newToken : string) (classes : gset string) :
  oldToken ∈ classes ->
  classList_replace oldToken newToken classes = {[ newToken ]} ∪ classes ∖ {[ oldToken ]}.
Proof.
  intros H. unfold classList_replace, classList_contains.
  rewrite bool_decide_eq_true_2 by exact H. reflexivity.
Qed.

Lemma classList_replace_absent (oldToken newToken : string) (classes : gset string) :
  oldToken ∉ classes -> classList_replace oldToken newToken classes = classes.
Proof.
  intros H. unfold classList_replace, classList_contains.
  rewrite bool_decide_eq_false_2 by exact H. reflexivity.
Qed.

Lemma themeToggle_click_body (t : Theme) :
  body_classes (themeToggle_click t) =
    (if classList_contains "dark-mode" (body_classes t)
     then classList_replace "dark-mode" "light-mode" (body_classes t)
     else classList_replace "light-mode" "dark-mode" (body_classes t)) /\
  themeIcon_glyph (themeToggle_click t) =
    Some (if classList_contains "dark-mode" (body_classes t) then MOON_SVG else SUN_SVG).
Proof.
  unfold themeToggle_click. cbv zeta.
  destruct (classList_contains "dark-mode" (body_classes t)); split; reflexivity.
Qed.

Ltac class_solver :=
  rewrite ?elem_of_union, ?elem_of_difference, ?elem_of_singleton in *;
  first [tauto | intuition congruence].

Lemma theme_classes_differ : "light-mode" <> "dark-mode".
Proof. discriminate. Qed.

Lemma one_theme_click (t : Theme) :
  one_theme t ->
  one_theme (themeToggle_click t) /\
  ("dark-mode" ∈ body_classes (themeToggle_click t) <-> "dark-mode" ∉ body_classes t) /\
  (themeIcon_glyph (themeToggle_click t) = Some SUN_SVG
   <-> "dark-mode" ∈ body_classes (themeToggle_click t)) /\
  (forall c, c <> "dark-mode" -> c <> "light-mode" ->
     (c ∈ body_classes (themeToggle_click t) <-> c ∈ body_classes t)).
Proof.
  unfold one_theme. intros [Hd Hl].
  destruct (themeToggle_click_body t) as [-> ->].
  pose proof theme_classes_differ as Hne.
  destruct (bool_decide_reflect ("dark-mode" ∈ body_classes t)) as [Hdark|Hdark];
    unfold classList_contains.
  - rewrite bool_decide_eq_true_2 by exact Hdark.
    rewrite classList_replace_present by exact Hdark.
    pose proof (Hd Hdark) as Hlight.
    repeat split; intros; try discriminate; class_solver.
  - rewrite bool_decide_eq_false_2 by exact Hdark.
    assert (Hlight : "light-mode" ∈ body_classes t).
    { destruct (decide ("light-mode" ∈ body_classes t)) as [H|H]; [exact H|].
      exfalso. exact (Hdark (Hl H)). }
    rewrite classList_replace_present by exact Hlight.
    repeat split; intros; try reflexivity; class_solver.
Qed.

(** X28: while the body carries exactly one of the classes [dark-mode] and
    [light-mode], a click on the theme toggle exchanges it for the other
    and leaves every other class alone; the icon shows the sun exactly in
    dark mode (the moon in light mode), and a second click restores the
    classes of the body. *)
Theorem themeToggle_click_flips (t : Theme) :
  let once := themeToggle_click t in
  let twice := themeToggle_click once in
  one_theme t ->
  one_theme once /\
  ("dark-mode" ∈ body_classes once <-> "dark-mode" ∉ body_classes t) /\
  (themeIcon_glyph once = Some SUN_SVG <-> "dark-mode" ∈ body_classes once) /\
  (themeIcon_glyph once = Some MOON_SVG <-> "light-mode" ∈ body_classes once) /\
  (forall c, c <> "dark-mode" -> c <> "light-mode" ->
     (c ∈ body_classes once <-> c ∈ body_classes t)) /\
  body_classes twice = body_classes t.
Proof.
  cbv zeta. intros Hone.
  destruct (one_theme_click t Hone) as (Hone1 & Hflip & Hsun & Hrest).
  destruct (one_theme_click _ Hone1) as (_ & Hflip2 & _ & Hrest2).
  split; [exact Hone1|]. split; [exact Hflip|]. split; [exact Hsun|].
  split.
  { destruct (themeToggle_click_body t) as [_ Hg]. rewrite Hg in *.
    unfold one_theme in Hone1.
    destruct (classList_contains "dark-mode" (body_classes t)).
    - split; [intros _|reflexivity].
      destruct (decide ("light-mode" ∈ body_classes (themeToggle_click t))) as [H|H];
        [exact H|].
      apply Hone1 in H. apply Hsun in H. discriminate.
    - split; [discriminate|]. intros H. exfalso.
      assert (Hd : "dark-mode" ∈ body_classes (themeToggle_click t)) by (apply Hsun; reflexivity).
      apply Hone1 in Hd. contradiction. }
  split; [exact Hrest|].
  apply set_eq. intros c.
  destruct (decide (c = "dark-mode")) as [->|Hcd].
  { rewrite Hflip2, Hflip. split; [|tauto].
    intros H. destruct (decide ("dark-mode" ∈ body_classes t)); tauto. }
  destruct (decide (c = "light-mode")) as [->|Hcl].
  { unfold one_theme in Hone.
    destruct (one_theme_click _ Hone1) as (Hone2 & _). unfold one_theme in Hone2.
    destruct (decide ("light-mode" ∈ body_classes t)),
             (decide ("dark-mode" ∈ body_classes t)),
             (decide ("dark-mode" ∈ body_classes (themeToggle_click t))),
             (decide ("dark-mode" ∈ body_classes (themeToggle_click (themeToggle_click t)))),
             (decide ("light-mode" ∈ body_classes (themeToggle_click (themeToggle_click t))));
      tauto. }
  rewrite (Hrest2 c Hcd Hcl). apply Hrest; assumption.
Qed.

Lemma light_body_one_theme : one_theme light_body.
Proof.
  unfold one_theme, light_body. cbn [body_classes].
  split; intros H.
  - exfalso. rewrite elem_of_union, !elem_of_singleton in H. destruct H; discriminate.
  - exfalso. apply H. rewrite elem_of_union, !elem_of_singleton. left; reflexivity.
Qed.

Lemma themeToggle_click_flips_witness :
  one_theme light_body /\
  "dark-mode" ∈ body_classes (themeToggle_click light_body) /\
  themeIcon_glyph (themeToggle_click light_body) = Some SUN_SVG /\
  body_classes (themeToggle_click (themeToggle_click light_body)) = body_classes light_body.
Proof.
  destruct (themeToggle_click_flips light_body light_body_one_theme)
    as (_ & Hflip & Hsun & _ & _ & Htwice).
  split; [exact light_body_one_theme|].
  assert (Hdark : "dark-mode" ∈ body_classes (themeToggle_click light_body)).
  { apply Hflip. unfold light_body. cbn [body_classes].
    rewrite elem_of_union, !elem_of_singleton. intros [H|H]; discriminate. }
  split; [exact Hdark|]. split; [apply Hsun; exact Hdark|exact Htwice].
Defined.

(** X29: with exactly one of the two theme classes on the body,
    [setupThemeToggle] of either revision ends in dark mode exactly when
    the system prefers dark or the body already was dark, keeps exactly one
    of the two classes, and shows the sun in dark mode and the moon
    otherwise; the two revisions leave the same theme. *)
Theorem setupThemeToggle_follows_preference (rev : Revision) (isDark : bool) (t : Theme) :
  let t' := setupThemeToggle rev isDark t in
  one_theme t ->
  one_theme t' /\
  ("dark-mode" ∈ body_classes t' <-> isDark = true \/ "dark-mode" ∈ body_classes t) /\
  (themeIcon_glyph t' = Some SUN_SVG <-> "dark-mode" ∈ body_classes t') /\
  (themeIcon_glyph t' = Some MOON_SVG <-> "dark-mode" ∉ body_classes t') /\
  setupThemeToggle Scripts_app isDark t = setupThemeToggle Part_000 isDark t.
Proof.
  cbv zeta. unfold one_theme. intros [Hd Hl].
  pose proof theme_classes_differ as Hne.
  assert (Hlight : "dark-mode" ∉ body_classes t -> "light-mode" ∈ body_classes t).
  { intros Hdark. destruct (decide ("light-mode" ∈ body_classes t)) as [H|H]; [exact H|].
    exfalso. exact (Hdark (Hl H)). }
  assert (Hrev : setupThemeToggle Scripts_app isDark t = setupThemeToggle Part_000 isDark t).
  { unfold setupThemeToggle. cbv zeta. destruct isDark; [|reflexivity]. cbn [andb].
    destruct (classList_contains "dark-mode" (body_classes t)) eqn:Hc; cbn [negb];
      [|reflexivity].
    apply classList_contains_spec in Hc.
    rewrite classList_replace_absent by (apply Hd; exact Hc).
    destruct t; reflexivity. }
  assert (Hmain : forall t', t' = setupThemeToggle Scripts_app isDark t ->
            (("dark-mode" ∈ body_classes t' <-> "light-mode" ∉ body_classes t') /\
             ("dark-mode" ∈ body_classes t' <-> isDark = true \/ "dark-mode" ∈ body_classes t) /\
             (themeIcon_glyph t' = Some SUN_SVG <-> "dark-mode" ∈ body_classes t') /\
             (themeIcon_glyph t' = Some MOON_SVG <-> "dark-mode" ∉ body_classes t'))).
  { intros t' ->. unfold setupThemeToggle. cbv zeta.
    destruct isDark.
    - destruct (decide ("dark-mode" ∈ body_classes t)) as [Hdark|Hdark].
      + rewrite classList_replace_absent by (apply Hd; exact Hdark).
        cbn [body_classes set_body_classes]. unfold classList_contains.
        rewrite bool_decide_eq_true_2 by exact Hdark.
        unfold updateIconAttributes. cbn [body_classes themeIcon_glyph].
        pose proof (Hd Hdark).
        repeat split; intros; try discriminate; try tauto.
      + rewrite classList_replace_present by (apply Hlight; exact Hdark).
        cbn [body_classes set_body_classes]. unfold classList_contains.
        rewrite bool_decide_eq_true_2 by class_solver.
        unfold updateIconAttributes. cbn [body_classes themeIcon_glyph set_body_classes].
        repeat split; intros; try discriminate; class_solver.
    - unfold classList_contains.
      destruct (bool_decide_reflect ("dark-mode" ∈ body_classes t)) as [Hdark|Hdark];
        unfold updateIconAttributes; cbn [body_classes themeIcon_glyph].
      + pose proof (Hd Hdark).
        repeat split; intros; try discriminate; try tauto.
      + pose proof (Hlight Hdark).
        repeat split; intros; try discriminate; try tauto.
        destruct H0 as [H0|H0]; [discriminate|contradiction]. }
  destruct rev; [|rewrite <- Hrev];
    destruct (Hmain _ eq_refl) as (H1 & H2 & H3 & H4); repeat split;
      first [assumption | apply H1 | apply H2 | apply H3 | apply H4 | idtac].
Qed.

Lemma setupThemeToggle_follows_preference_witness :
  one_theme light_body /\
  "dark-mode" ∈ body_classes (setupThemeToggle Part_000 true light_body) /\
  themeIcon_glyph (setupThemeToggle Part_000 true light_body) = Some SUN_SVG /\
  themeIcon_glyph (setupThemeToggle Part_000 false light_body) = Some MOON_SVG.
Proof.
  destruct (setupThemeToggle_follows_preference Part_000 true light_body light_body_one_theme)
    as (_ & Hdark & Hsun & _).
  split; [exact light_body_one_theme|].
  assert (H : "dark-mode" ∈ body_classes (setupThemeToggle Part_000 true light_body))
    by (apply Hdark; left; reflexivity).
  split; [exact H|]. split; [apply Hsun; exact H|].
  destruct (setupThemeToggle_follows_preference Part_000 false light_body light_body_one_theme)
    as (_ & Hdark' & _ & Hmoon & _).
  apply Hmoon. intros Hd. apply Hdark' in Hd as [Hd|Hd]; [discriminate|].
  unfold light_body in Hd. cbn [body_classes] in Hd.
  rewrite elem_of_union, !elem_of_singleton in Hd. destruct Hd; discriminate.
Defined.

(** X30: the toggle relies on the body carrying one of the two classes.
    On a body with neither [dark-mode] nor [light-mode], no number of
    clicks and no system preference ever changes the classes of the body:
    the page never turns dark, while the icon shows the sun after every
    click. *)
Theorem themeToggle_needs_class (rev : Revision) (isDark : bool) (t : Theme) (clicks : nat) :
  let t' := Nat.iter clicks themeToggle_click (setupThemeToggle rev isDark t) in
  "dark-mode" ∉ body_classes t ->
  "light-mode" ∉ body_classes t ->
  body_classes t' = body_classes t /\
  themeIcon_glyph t' = Some (match clicks with O => MOON_SVG | S _ => SUN_SVG end).
Proof.
  cbv zeta. intros Hd Hl.
  assert (Hsetup : body_classes (setupThemeToggle rev isDark t) = body_classes t /\
                   themeIcon_glyph (setupThemeToggle rev isDark t) = Some MOON_SVG).
  { unfold setupThemeToggle. cbv zeta.
    rewrite classList_replace_absent by exact Hl.
    assert (Hsame : set_body_classes (body_classes t) t = t) by (destruct t; reflexivity).
    rewrite Hsame.
    destruct (match rev with
              | Scripts_app => isDark
              | Part_000 => isDark && negb (classList_contains "dark-mode" (body_classes t))
              end);
      unfold classList_contains; rewrite bool_decide_eq_false_2 by exact Hd;
      split; reflexivity. }
  induction clicks as [|n IH]; [exact Hsetup|].
  cbn [Nat.iter nat_rect]. destruct IH as [IHb _].
  destruct (themeToggle_click_body (Nat.iter n themeToggle_click (setupThemeToggle rev isDark t)))
    as [Hb Hg].
  unfold Nat.iter in Hb, Hg, IHb. rewrite Hb, Hg, IHb.
  unfold classList_contains. rewrite bool_decide_eq_false_2 by exact Hd.
  rewrite classList_replace_absent by exact Hl. split; reflexivity.
Qed.

Lemma themeToggle_needs_class_witness :
  let bare := mkTheme {[ "font-sans" ]} None ∅ in
  ("dark-mode" ∉ body_classes bare) /\ ("light-mode" ∉ body_classes bare) /\
  body_classes (themeToggle_click (setupThemeToggle Part_000 true bare)) = {[ "font-sans" ]} /\
  themeIcon_glyph (themeToggle_click (setupThemeToggle Part_000 true bare)) = Some SUN_SVG.
Proof.
  cbv zeta.
  assert (H1 : "dark-mode" ∉ body_classes (mkTheme {[ "font-sans" ]} None ∅))
    by (cbn [body_classes]; rewrite elem_of_singleton; discriminate).
  assert (H2 : "light-mode" ∉ body_classes (mkTheme {[ "font-sans" ]} None ∅))
    by (cbn [body_classes]; rewrite elem_of_singleton; discriminate).
  split; [exact H1|]. split; [exact H2|].
  exact (themeToggle_needs_class Part_000 true (mkTheme {[ "font-sans" ]} None ∅) 1 H1 H2).
Defined.
